(** * Session lifecycle and reconnect state machine of [server.js]

    A shallow embedding of the per-account session table ([accountData]),
    the lifecycle controller ([startBot], the connect / disconnect
    commands), the event bridge ([handleSessionEnd]) and the reconnect
    scheduler ([scheduleReconnect]) of the bot manager, followed by the
    properties of the session state machine.

    Conventions of the embedding:
    - the JavaScript [Map] [accountData] is a [gmap string Bot]; records are
      never deleted by the program, so the [bot] object captured by a
      closure is always the record found under [email];
    - an assignment [bot.f = v] on the shared record is [modify email (with_f v)];
    - connection handles and timer handles are natural numbers handed out
      by the counters [nextClient] and [nextTimer];
    - what the protocol library decides (whether [createClient],
      [client.disconnect] or [client.queue] throws) is an argument of the
      operation concerned;
    - the wall clock read by [addLog] is the field [now], moved by [Tick];
    - everything the program pushes to the outside (SSE updates, Discord
      embeds and presence, calls on a connection handle) is appended to
      [effects] in program order. *)

From Stdlib Require Import QArith Qminmax Qround DecimalString Ascii String.
From stdpp Require Import gmap strings list fin_maps.

Local Open Scope string_scope.
Local Open Scope list_scope.
Local Open Scope nat_scope.

(** ** Data model *)

Inductive Status := Connecting | AuthRequired | Online | Offline | Error.

#[global] Instance Status_eq_dec : EqDecision Status.
Proof. solve_decision. Defined.

(** The string stored in [bot.status]. *)
Definition status_label (s : Status) : string :=
  match s with
  | Connecting => "Connecting"
  | AuthRequired => "Auth Required"
  | Online => "Online"
  | Offline => "Offline"
  | Error => "Error"
  end.

(** [['Connecting', 'Online', 'Auth Required'].includes(status)] *)
Definition is_active (s : Status) : bool :=
  match s with
  | Connecting | Online | AuthRequired => true
  | Offline | Error => false
  end.

Record LogEntry := mkLog { time : string; message : string }.

Record DeviceCode := mkDeviceCode {
  userCode : string;
  verificationUri : string;
  expiresIn : nat
}.

(** The payload [data] handed to [onMsaCode]. *)
Record MsaData := mkMsa {
  user_code : string;
  verification_uri : string;
  expires_in : nat
}.

Record Bot := mkBot {
  client : option nat;
  status : Status;
  logs : list LogEntry;
  autoReconnect : bool;
  reconnectAttempts : nat;
  manualDisconnect : bool;
  deviceCode : option DeviceCode;
  reconnectTimer : option nat;
  disconnectHandled : bool
}.

Definition with_client (v : option nat) (b : Bot) : Bot :=
  mkBot v (status b) (logs b) (autoReconnect b) (reconnectAttempts b)
        (manualDisconnect b) (deviceCode b) (reconnectTimer b) (disconnectHandled b).
Definition with_status (v : Status) (b : Bot) : Bot :=
  mkBot (client b) v (logs b) (autoReconnect b) (reconnectAttempts b)
        (manualDisconnect b) (deviceCode b) (reconnectTimer b) (disconnectHandled b).
Definition with_logs (v : list LogEntry) (b : Bot) : Bot :=
  mkBot (client b) (status b) v (autoReconnect b) (reconnectAttempts b)
        (manualDisconnect b) (deviceCode b) (reconnectTimer b) (disconnectHandled b).
Definition with_autoReconnect (v : bool) (b : Bot) : Bot :=
  mkBot (client b) (status b) (logs b) v (reconnectAttempts b)
        (manualDisconnect b) (deviceCode b) (reconnectTimer b) (disconnectHandled b).
Definition with_reconnectAttempts (v : nat) (b : Bot) : Bot :=
  mkBot (client b) (status b) (logs b) (autoReconnect b) v
        (manualDisconnect b) (deviceCode b) (reconnectTimer b) (disconnectHandled b).
Definition with_manualDisconnect (v : bool) (b : Bot) : Bot :=
  mkBot (client b) (status b) (logs b) (autoReconnect b) (reconnectAttempts b)
        v (deviceCode b) (reconnectTimer b) (disconnectHandled b).
Definition with_deviceCode (v : option DeviceCode) (b : Bot) : Bot :=
  mkBot (client b) (status b) (logs b) (autoReconnect b) (reconnectAttempts b)
        (manualDisconnect b) v (reconnectTimer b) (disconnectHandled b).
Definition with_reconnectTimer (v : option nat) (b : Bot) : Bot :=
  mkBot (client b) (status b) (logs b) (autoReconnect b) (reconnectAttempts b)
        (manualDisconnect b) (deviceCode b) v (disconnectHandled b).
Definition with_disconnectHandled (v : bool) (b : Bot) : Bot :=
  mkBot (client b) (status b) (logs b) (autoReconnect b) (reconnectAttempts b)
        (manualDisconnect b) (deviceCode b) (reconnectTimer b) v.

(** The record [startBot] stores for an account seen for the first time. *)
Definition newBot : Bot :=
  mkBot None Connecting [] true 0 false None None false.

(** The object emitted on the ['update'] channel by [broadcastUpdate]. *)
Record Snapshot := mkSnapshot {
  snap_status : Status;
  snap_logs : list LogEntry;
  snap_autoReconnect : bool;
  snap_reconnectAttempts : nat;
  snap_deviceCode : option DeviceCode
}.

Inductive Effect :=
| EUpdate (email : string) (s : Snapshot)
| EActivity (text : string)
| ENotify (title description : string) (color : Z)
| ECreateClient (c : nat) (username : string)
| EClientDisconnect (c : nat)
| EClientQueue (c : nat) (text : string).

Record World := mkWorld {
  accountData : gmap string Bot;
  now : string;
  discordUser : bool;
  discordChannel : bool;
  clients : gmap nat string;
  live : gset nat;
  nextClient : nat;
  timers : gmap nat (string * Q);
  nextTimer : nat;
  effects : list Effect
}.

Definition with_accountData (v : gmap string Bot) (w : World) : World :=
  mkWorld v (now w) (discordUser w) (discordChannel w) (clients w) (live w)
          (nextClient w) (timers w) (nextTimer w) (effects w).
Definition with_now (v : string) (w : World) : World :=
  mkWorld (accountData w) v (discordUser w) (discordChannel w) (clients w) (live w)
          (nextClient w) (timers w) (nextTimer w) (effects w).
Definition with_live (v : gset nat) (w : World) : World :=
  mkWorld (accountData w) (now w) (discordUser w) (discordChannel w) (clients w) v
          (nextClient w) (timers w) (nextTimer w) (effects w).
Definition with_timers (v : gmap nat (string * Q)) (w : World) : World :=
  mkWorld (accountData w) (now w) (discordUser w) (discordChannel w) (clients w) (live w)
          (nextClient w) v (nextTimer w) (effects w).
Definition emit (e : Effect) (w : World) : World :=
  mkWorld (accountData w) (now w) (discordUser w) (discordChannel w) (clients w) (live w)
          (nextClient w) (timers w) (nextTimer w) (effects w ++ [e]).

(** A process that has just started: empty session table, no handle and no
    timer handed out yet. [du] and [dc] say whether the Discord user and
    channel are available. *)
Definition init_world (du dc : bool) : World :=
  mkWorld ∅ "00:00:00" du dc ∅ ∅ 0 ∅ 0 [].

(** [bot.f = v] for the record stored under [email]. *)
Definition modify (email : string) (f : Bot → Bot) (w : World) : World :=
  with_accountData (alter f email (accountData w)) w.

(** ** Numbers and strings of the log messages *)

Definition nat_str (n : nat) : string :=
  NilZero.string_of_uint (Nat.to_uint n).

(** [x.toFixed(1)] for a non-negative [x]: the nearest tenth, the larger
    one on a tie. *)
Definition toFixed1 (x : Q) : string :=
  let n := Z.to_nat (Qfloor (x * 10 + (1 # 2))) in
  nat_str (n / 10) +:+ "." +:+ nat_str (n mod 10).

(** [Math.round(expires_in / 60)] *)
Definition expires_minutes (secs : nat) : nat := (secs + 30) / 60.

(** [email.includes('@') ? email.split('@')[0] : email]: in both cases the
    characters before the first ['@']. *)
Fixpoint username_of (email : string) : string :=
  match email with
  | EmptyString => EmptyString
  | String a rest =>
      if Ascii.eqb a "@"%char then EmptyString else String a (username_of rest)
  end.

(** ** Reconnect delay *)

Definition Math_pow (x : Q) (k : nat) : Q := Qpower x (Z.of_nat k).
Definition Math_min_nat (a b : nat) : nat := Nat.min a b.

(** [Math.min(5000 * Math.pow(1.5, Math.min(n, 12)), 60000)].  Every value
    involved is a dyadic rational with a numerator below [2^53], so the
    binary64 computation of the source is exact and [Q] represents it. *)
Definition reconnect_delay (n : nat) : Q :=
  Qmin (5000 * Math_pow (3 # 2) (Math_min_nat n 12)) 60000.

(** ** Internal helpers *)

(** [discordChannel.send({ embeds: [...] })], skipped without a channel. *)
Definition discordNotify (title description : string) (color : Z) (w : World) : World :=
  if discordChannel w then emit (ENotify title description color) w else w.

Definition online_count (m : gmap string Bot) : nat :=
  length (filter (λ kb, status kb.2 = Online) (map_to_list m)).

Definition discordUpdateActivity (w : World) : World :=
  if discordUser w then
    let online := online_count (accountData w) in
    let total := size (accountData w) in
    emit (EActivity (if Nat.eqb total 0 then "donutsmp.net"
                     else nat_str online +:+ "/" +:+ nat_str total +:+ " bots online")) w
  else w.

(** [xs.slice(-k)] *)
Definition slice_last {A} (k : nat) (xs : list A) : list A :=
  skipn (length xs - k) xs.

Definition snapshot (b : Bot) : Snapshot :=
  mkSnapshot (status b) (slice_last 30 (logs b)) (autoReconnect b)
             (reconnectAttempts b) (deviceCode b).

Definition broadcastUpdate (email : string) (w : World) : World :=
  match accountData w !! email with
  | None => w
  | Some bot => discordUpdateActivity (emit (EUpdate email (snapshot bot)) w)
  end.

(** [logs.push(e); if (logs.length > 200) logs.shift()] *)
Definition push_log (l : list LogEntry) (e : LogEntry) : list LogEntry :=
  let pushed := (l ++ [e])%list in
  if Nat.ltb 200 (length pushed) then tail pushed else pushed.

Definition addLog (email message : string) (w : World) : World :=
  match accountData w !! email with
  | None => w
  | Some bot =>
      broadcastUpdate email
        (modify email (with_logs (push_log (logs bot) (mkLog (now w) message))) w)
  end.

(** ** Reconnect scheduler *)

(** The line logged when a reconnect is scheduled after [n] attempts. *)
Definition reconnect_notice (n : nat) : string :=
  "⏱️  Auto-reconnect in " +:+ toFixed1 (reconnect_delay n / 1000)
  +:+ "s (attempt " +:+ nat_str (n + 1) +:+ ")".

(** [clearTimeout(h)]: nothing happens for [null] or a handle that is no
    longer pending. *)
Definition clearTimeout (h : option nat) (w : World) : World :=
  match h with
  | None => w
  | Some t => with_timers (delete t (timers w)) w
  end.

(** [bot.reconnectTimer = setTimeout(callback, delay)]; the callback is
    [timer_callback] below, run by [fire_timer]. *)
Definition setTimeout (email : string) (delay : Q) (w : World) : World :=
  let t := nextTimer w in
  modify email (with_reconnectTimer (Some t))
    (mkWorld (accountData w) (now w) (discordUser w) (discordChannel w) (clients w)
             (live w) (nextClient w) (<[t := (email, delay)]> (timers w)) (S t)
             (effects w)).

Definition scheduleReconnect (email : string) (w : World) : World :=
  match accountData w !! email with
  | None => w
  | Some bot =>
      if manualDisconnect bot || negb (autoReconnect bot) then w
      else
        let delay := reconnect_delay (reconnectAttempts bot) in
        let w1 := addLog email (reconnect_notice (reconnectAttempts bot)) w in
        let w2 := broadcastUpdate email w1 in
        let w3 := clearTimeout (reconnectTimer bot) w2 in
        setTimeout email delay w3
  end.

(** ** handleSessionEnd *)

(** The line logged for the end of a session. *)
Definition end_notice (reason : string) (isError : bool) : string :=
  (if isError then "❌" else "🔌") +:+ " " +:+ reason.

Definition handleSessionEnd (email reason : string) (isError : bool) (w : World) : World :=
  match accountData w !! email with
  | None => w
  | Some bot =>
      if disconnectHandled bot then w
      else
        let w1 := modify email (with_disconnectHandled true) w in
        let w2 := modify email (with_status (if isError then Error else Offline)) w1 in
        let w3 := modify email (with_client None) w2 in
        let w4 := addLog email (end_notice reason isError) w3 in
        let w5 := broadcastUpdate email w4 in
        let w6 := discordNotify
                    (if isError then "❌ Bot Error" else "🔌 Bot Disconnected")
                    ("`" +:+ email +:+ "` — " +:+ reason +:+
                     (if autoReconnect bot && negb (manualDisconnect bot)
                      then String "010"%char "🔁 Auto-reconnect is scheduled." else ""))
                    (if isError then 0xff4560 else 0xffb830)%Z w5 in
        if negb (manualDisconnect bot) && autoReconnect bot
        then scheduleReconnect email w6
        else w6
  end.

(** ** startBot *)

(** The lines logged and the embed sent by [startBot]. *)
Definition start_notice : string :=
  "🚀 Starting connection to donutsmp.net:19132...".
Definition retry_notice (n : nat) : string :=
  "🔄 Reconnect attempt #" +:+ nat_str n +:+ " — connecting to donutsmp.net...".
Definition connecting_body (email : string) : string :=
  "`" +:+ email +:+ "` is connecting to donutsmp.net...".
Definition creation_failed_notice (msg : string) : string :=
  "❌ Client creation failed: " +:+ msg.

(** What [createClient] does: it returns a handle or throws [err] with
    [err.message = msg]. *)
Inductive CreateResult := Created | CreateThrows (msg : string).

Definition createClient (email : string) (w : World) : World :=
  let c := nextClient w in
  emit (ECreateClient c (username_of email))
    (mkWorld (accountData w) (now w) (discordUser w) (discordChannel w)
             (<[c := email]> (clients w)) ({[c]} ∪ live w) (S c)
             (timers w) (nextTimer w) (effects w)).

Definition startBot (email : string) (isReconnect : bool) (cr : CreateResult)
    (w : World) : World :=
  let w0 := match accountData w !! email with
            | Some _ => w
            | None => with_accountData (<[email := newBot]> (accountData w)) w
            end in
  let w1 := modify email (with_status Connecting) w0 in
  let w2 := modify email (with_deviceCode None) w1 in
  let w3 := modify email (with_manualDisconnect false) w2 in
  let w4 := modify email (with_disconnectHandled false) w3 in
  let w5 :=
    if isReconnect then
      let w' := modify email (λ b, with_reconnectAttempts (reconnectAttempts b + 1) b) w4 in
      let n := match accountData w' !! email with
               | Some b => reconnectAttempts b
               | None => 0
               end in
      addLog email (retry_notice n) w'
    else
      let w' := modify email (with_reconnectAttempts 0) w4 in
      let w'' := addLog email start_notice w' in
      discordNotify "🚀 Connecting" (connecting_body email) 0x00c6ff%Z w'' in
  let w6 := broadcastUpdate email w5 in
  match cr with
  | CreateThrows msg =>
      let w7 := modify email (with_status Error) w6 in
      let w8 := addLog email (creation_failed_notice msg) w7 in
      let w9 := broadcastUpdate email w8 in
      scheduleReconnect email w9
  | Created =>
      let c := nextClient w6 in
      modify email (with_client (Some c)) (createClient email w6)
  end.

(** The callback armed by [scheduleReconnect]. *)
Definition timer_callback (email : string) (cr : CreateResult) (w : World) : World :=
  match accountData w !! email with
  | None => w
  | Some bot =>
      if negb (manualDisconnect bot) && autoReconnect bot
      then startBot email true cr w
      else w
  end.

(** A pending timer [t] expires: it leaves the pending set and its
    callback runs.  A handle that is not pending never fires. *)
Definition fire_timer (t : nat) (cr : CreateResult) (w : World) : World :=
  match timers w !! t with
  | None => w
  | Some (email, _) => timer_callback email cr (with_timers (delete t (timers w)) w)
  end.

(** ** Connection event handlers

    The handlers registered by [startBot] on the handle [c] close over
    [email] and [c]. *)

Definition client_queue (c : nat) (text : string) (w : World) : World :=
  emit (EClientQueue c text) w.

(** [client.on('spawn', ...)]; [queueErr] is [Some msg] when [client.queue]
    throws an error with that message. *)
Definition spawn_handler (email : string) (c : nat) (queueErr : option string)
    (w : World) : World :=
  let w1 := modify email (with_status Online) w in
  let w2 := modify email (with_reconnectAttempts 0) w1 in
  let w3 := modify email (with_deviceCode None) w2 in
  let w4 := modify email (with_disconnectHandled false) w3 in
  let w5 := addLog email "✅ Spawned! Connected to donutsmp.net." w4 in
  let w6 := broadcastUpdate email w5 in
  let w7 := discordNotify "✅ Bot Online"
              ("`" +:+ email +:+ "` has spawned on donutsmp.net.") 0x00ff87%Z w6 in
  match queueErr with
  | None => addLog email "🏠 Sent: /home 1" (client_queue c "/home 1" w7)
  | Some msg => addLog email ("⚠️ Failed to send /home 1 — " +:+ msg) w7
  end.

Definition join_handler (email : string) (w : World) : World :=
  addLog email "📶 Joined server — waiting for spawn..." w.

(** [client.on('text', ...)] with [msg] the text taken from the packet.
    The copy of the line sent to the Discord channel does not touch the
    session table and is not part of the model. *)
Definition text_handler (email msg : string) (w : World) : World :=
  if decide (msg = "") then w else addLog email ("💬 " +:+ msg) w.

Definition onMsaCode (email : string) (data : MsaData) (w : World) : World :=
  let w1 := modify email (with_deviceCode
              (Some (mkDeviceCode (user_code data) (verification_uri data)
                                  (expires_in data)))) w in
  let w2 := modify email (with_status AuthRequired) w1 in
  let w3 := addLog email "🔑 Microsoft auth required!" w2 in
  let w4 := addLog email ("   -> Visit: " +:+ verification_uri data) w3 in
  let w5 := addLog email ("   -> Code:  " +:+ user_code data +:+ "  (expires in "
                          +:+ nat_str (expires_minutes (expires_in data)) +:+ " min)") w4 in
  let w6 := broadcastUpdate email w5 in
  discordNotify "🔑 Microsoft Auth Required"
    ("**Account:** `" +:+ email +:+ "`" +:+ String "010"%char "**Code:** `"
     +:+ user_code data +:+ "`" +:+ String "010"%char "**URL:** "
     +:+ verification_uri data +:+ String "010"%char "**Expires in:** "
     +:+ nat_str (expires_minutes (expires_in data)) +:+ " minutes")
    0x00c6ff%Z w6.

(** The four signals that report the end of a session. *)
Inductive EndSignal :=
| SigDisconnect (packet_message : option string)
| SigEnd
| SigClose (hadError : bool)
| SigError (msg : string).

Definition signal_reason (s : EndSignal) : string :=
  match s with
  | SigDisconnect (Some m) =>
      if decide (m = "") then "Disconnected by server (packet 0x05)"
      else "Disconnected by server — " +:+ m
  | SigDisconnect None => "Disconnected by server (packet 0x05)"
  | SigEnd => "Connection ended (socket closed by server)"
  | SigClose hadError =>
      if hadError then "Connection lost (socket error)" else "Connection closed"
  | SigError msg => "Error — " +:+ msg
  end.

Definition signal_isError (s : EndSignal) : bool :=
  match s with
  | SigDisconnect _ | SigEnd => false
  | SigClose hadError => hadError
  | SigError _ => true
  end.

Definition end_handler (email : string) (s : EndSignal) (w : World) : World :=
  handleSessionEnd email (signal_reason s) (signal_isError s) w.

(** ** Operator commands *)

Inductive Response :=
| RespOk
| RespEmailRequired
| RespAlreadyActive
| RespNotFound
| RespBotOffline
| RespMustBeOnline
| RespFailed.

(** [bot.client.disconnect()]; a handle whose [disconnect] throws is
    counted as still open. *)
Definition client_disconnect (c : nat) (throws : bool) (w : World) : World :=
  emit (EClientDisconnect c) (if throws then w else with_live (live w ∖ {[c]}) w).

(** [POST /connect] *)
Definition http_connect (email : string) (cr : CreateResult) (w : World)
    : Response * World :=
  if decide (email = "") then (RespEmailRequired, w)
  else match accountData w !! email with
       | Some existing =>
           if is_active (status existing) then (RespAlreadyActive, w)
           else (RespOk, startBot email false cr w)
       | None => (RespOk, startBot email false cr w)
       end.

(** Slash command [connect] *)
Definition discord_connect (email : string) (cr : CreateResult) (w : World)
    : Response * World :=
  match accountData w !! email with
  | Some existing =>
      if is_active (status existing) then (RespAlreadyActive, w)
      else (RespOk, startBot email false cr w)
  | None => (RespOk, startBot email false cr w)
  end.

(** [POST /disconnect] *)
Definition http_disconnect (email : string) (throws : bool) (w : World)
    : Response * World :=
  match accountData w !! email with
  | None => (RespNotFound, w)
  | Some bot =>
      let w1 := modify email (with_manualDisconnect true) w in
      let w2 := modify email (with_disconnectHandled true) w1 in
      let w3 := modify email (with_autoReconnect false) w2 in
      let w4 := clearTimeout (reconnectTimer bot) w3 in
      let w5 := modify email (with_reconnectTimer None) w4 in
      let w6 := match client bot with
                | Some c => modify email (with_client None) (client_disconnect c throws w5)
                | None => w5
                end in
      let w7 := modify email (with_status Offline) w6 in
      let w8 := addLog email "🔌 Manually disconnected." w7 in
      (RespOk, broadcastUpdate email w8)
  end.

(** Slash command [disconnect] *)
Definition discord_disconnect (email : string) (throws : bool) (w : World)
    : Response * World :=
  match accountData w !! email with
  | None => (RespNotFound, w)
  | Some bot =>
      let w1 := modify email (with_manualDisconnect true) w in
      let w2 := modify email (with_disconnectHandled true) w1 in
      let w3 := modify email (with_autoReconnect false) w2 in
      let w4 := clearTimeout (reconnectTimer bot) w3 in
      let w5 := match client bot with
                | Some c => modify email (with_client None) (client_disconnect c throws w4)
                | None => w4
                end in
      let w6 := modify email (with_status Offline) w5 in
      let w7 := addLog email "🔌 Disconnected via Discord." w6 in
      (RespOk, broadcastUpdate email w7)
  end.

(** [POST /set-reconnect] *)
Definition http_set_reconnect (email : string) (enabled : bool) (w : World)
    : Response * World :=
  match accountData w !! email with
  | None => (RespNotFound, w)
  | Some _ =>
      let w1 := modify email (with_autoReconnect enabled) w in
      let w2 := addLog email ("🔁 Auto-reconnect set to "
                              +:+ (if enabled then "ON" else "OFF")) w1 in
      (RespOk, broadcastUpdate email w2)
  end.

(** Slash command [reconnect] *)
Definition discord_reconnect (email : string) (enabled : bool) (w : World)
    : Response * World :=
  match accountData w !! email with
  | None => (RespNotFound, w)
  | Some _ =>
      let w1 := modify email (with_autoReconnect enabled) w in
      let w2 := addLog email ("🔁 Auto-reconnect set to "
                              +:+ (if enabled then "ON" else "OFF")
                              +:+ " via Discord.") w1 in
      (RespOk, broadcastUpdate email w2)
  end.

(** [POST /toggle-reconnect] *)
Definition http_toggle_reconnect (email : string) (w : World) : Response * World :=
  match accountData w !! email with
  | None => (RespNotFound, w)
  | Some bot =>
      let w1 := modify email (with_autoReconnect (negb (autoReconnect bot))) w in
      let w2 := addLog email ("🔁 Auto-reconnect "
                              +:+ (if negb (autoReconnect bot) then "ENABLED"
                                   else "DISABLED")) w1 in
      (RespOk, broadcastUpdate email w2)
  end.

(** [GET /chat] and slash command [chat]; [prefix] is the log prefix of the
    surface.  When [client.queue] throws, the request fails before
    anything is logged. *)
Definition send_chat (prefix email text : string) (queueErr : option string)
    (w : World) : Response * World :=
  match accountData w !! email with
  | None => (RespBotOffline, w)
  | Some bot =>
      match client bot with
      | Some c =>
          if decide (status bot = Online) then
            match queueErr with
            | Some _ => (RespFailed, w)
            | None => (RespOk, addLog email (prefix +:+ text) (client_queue c text w))
            end
          else (RespBotOffline, w)
      | None => (RespBotOffline, w)
      end
  end.

Definition http_chat := send_chat "📤 You: ".
Definition discord_chat := send_chat "📤 Discord -> Game: ".

(** [POST /test-reconnect] *)
Definition http_test_reconnect (email : string) (throws : bool) (w : World)
    : Response * World :=
  match accountData w !! email with
  | None => (RespNotFound, w)
  | Some bot =>
      match client bot with
      | Some c =>
          if decide (status bot = Online) then
            let w1 := addLog email
                        "⚡ TEST: Forcing disconnect to verify reconnect logic..." w in
            (RespOk, client_disconnect c throws (broadcastUpdate email w1))
          else (RespMustBeOnline, w)
      | None => (RespMustBeOnline, w)
      end
  end.

(** The two operator surfaces, and the operations of the lifecycle
    controller as each surface implements them. *)
Inductive Surface := Http | Discord.

Definition start (sf : Surface) (email : string) (cr : CreateResult) (w : World)
    : Response * World :=
  match sf with
  | Http => http_connect email cr w
  | Discord => discord_connect email cr w
  end.

Definition stop (sf : Surface) (email : string) (throws : bool) (w : World)
    : Response * World :=
  match sf with
  | Http => http_disconnect email throws w
  | Discord => discord_disconnect email throws w
  end.

Definition setAutoReconnect (sf : Surface) (email : string) (enabled : bool)
    (w : World) : Response * World :=
  match sf with
  | Http => http_set_reconnect email enabled w
  | Discord => discord_reconnect email enabled w
  end.

Definition stop_notice (sf : Surface) : string :=
  match sf with
  | Http => "🔌 Manually disconnected."
  | Discord => "🔌 Disconnected via Discord."
  end.

(** ** The event loop

    One [Event] is one callback turn of the single-threaded program: an
    operator command, a signal of a connection handle, the expiry of a
    timer, or the clock moving on. *)

Inductive Event :=
| HttpConnect (email : string) (cr : CreateResult)
| DiscordConnect (email : string) (cr : CreateResult)
| HttpDisconnect (email : string) (throws : bool)
| DiscordDisconnect (email : string) (throws : bool)
| HttpSetReconnect (email : string) (enabled : bool)
| DiscordReconnect (email : string) (enabled : bool)
| HttpToggleReconnect (email : string)
| HttpChat (email text : string) (queueErr : option string)
| DiscordChat (email text : string) (queueErr : option string)
| HttpTestReconnect (email : string) (throws : bool)
| TimerFire (t : nat) (cr : CreateResult)
| ClientSpawn (c : nat) (queueErr : option string)
| ClientJoin (c : nat)
| ClientText (c : nat) (msg : string)
| ClientMsaCode (c : nat) (data : MsaData)
| ClientEnded (c : nat) (s : EndSignal)
| Tick (t : string).

(** A signal of handle [c] runs the handler registered on [c]; an end
    signal also means that [c] is no longer open. *)
Definition on_client (c : nat) (h : string → World → World) (w : World) : World :=
  match clients w !! c with
  | None => w
  | Some email => h email w
  end.

Definition step (ev : Event) (w : World) : World :=
  match ev with
  | HttpConnect email cr => (http_connect email cr w).2
  | DiscordConnect email cr => (discord_connect email cr w).2
  | HttpDisconnect email throws => (http_disconnect email throws w).2
  | DiscordDisconnect email throws => (discord_disconnect email throws w).2
  | HttpSetReconnect email enabled => (http_set_reconnect email enabled w).2
  | DiscordReconnect email enabled => (discord_reconnect email enabled w).2
  | HttpToggleReconnect email => (http_toggle_reconnect email w).2
  | HttpChat email text q => (http_chat email text q w).2
  | DiscordChat email text q => (discord_chat email text q w).2
  | HttpTestReconnect email throws => (http_test_reconnect email throws w).2
  | TimerFire t cr => fire_timer t cr w
  | ClientSpawn c q => on_client c (λ email, spawn_handler email c q) w
  | ClientJoin c => on_client c join_handler w
  | ClientText c msg => on_client c (λ email, text_handler email msg) w
  | ClientMsaCode c data => on_client c (λ email, onMsaCode email data) w
  | ClientEnded c s =>
      on_client c (λ email w', end_handler email s (with_live (live w' ∖ {[c]}) w')) w
  | Tick t => with_now t w
  end.

Definition run (evs : list Event) (w : World) : World :=
  fold_left (λ w' ev, step ev w') evs w.

Definition reachable (w : World) : Prop :=
  ∃ du dc evs, w = run evs (init_world du dc).

(** ** Specification-side definitions *)

(** The backoff formula in the words of the design:
    [min(base * growth^min(n, capExponent), maxDelay)]. *)
Definition backoff_spec (base growth : Q) (capExponent : nat) (maxDelay : Q)
    (n : nat) : Q :=
  Qmin (base * Qpower growth (Z.of_nat (Nat.min n capExponent))) maxDelay.

(** [n] calls of [addLog] in a row, one per message. *)
Definition add_logs (email : string) (msgs : list string) (w : World) : World :=
  fold_left (λ w' m, addLog email m w') msgs w.

(** The end signals [sigs] delivered one after the other to the handlers
    of one connection attempt. *)
Definition end_signals (email : string) (sigs : list EndSignal) (w : World) : World :=
  fold_left (λ w' s, end_handler email s w') sigs w.

(** The end transition as the design words it: after the signals the
    session has ended, the handle is released, exactly one entry was added
    to the log and at most one timer was armed. *)
Definition single_end_transition (email : string) (sigs : list EndSignal)
    (w : World) : Prop :=
  ∃ b b',
    accountData w !! email = Some b
    ∧ accountData (end_signals email sigs w) !! email = Some b'
    ∧ (status b' = Error ∨ status b' = Offline)
    ∧ client b' = None
    ∧ (∃ entry, logs b' = push_log (logs b) entry)
    ∧ nextTimer (end_signals email sigs w) ≤ S (nextTimer w).

(** The events whose code resets the guard [disconnectHandled] of [email]:
    a connect command for the account and the expiry of a timer armed for
    it, which run [startBot] (line 375), and the spawn of a handle opened
    for it (line 429). *)
Definition resets_guard (email : string) (ev : Event) (w : World) : bool :=
  match ev with
  | HttpConnect e _ | DiscordConnect e _ => bool_decide (e = email)
  | TimerFire t _ => bool_decide (fst <$> timers w !! t = Some email)
  | ClientSpawn c _ => bool_decide (clients w !! c = Some email)
  | _ => false
  end.

(** No event of the run of [evs] from [w] resets the guard of [email]. *)
Fixpoint guard_kept (email : string) (evs : list Event) (w : World) : Prop :=
  match evs with
  | [] => True
  | ev :: evs' => resets_guard email ev w = false ∧ guard_kept email evs' (step ev w)
  end.


(** [clearTimeout] on the pending set. *)
Definition clear_opt (h : option nat) (tm : gmap nat (string * Q)) : gmap nat (string * Q) :=
  match h with
  | None => tm
  | Some t => delete t tm
  end.

(** The record of [email], when there is one, satisfies [P]. *)
Definition bot_at (w : World) (email : string) (P : Bot → Prop) : Prop :=
  ∃ b, accountData w !! email = Some b ∧ P b.

(** The value of [bot.reconnectTimer], [None] also without a record. *)
Definition timer_of (w : World) (email : string) : option nat :=
  match accountData w !! email with
  | Some b => reconnectTimer b
  | None => None
  end.

(** The timer predicate of the data model. *)
Definition timer_guard (b : Bot) : bool :=
  match reconnectTimer b with
  | None => true
  | Some _ =>
      (bool_decide (status b = Offline) || bool_decide (status b = Error))
      && autoReconnect b && negb (manualDisconnect b)
  end.

(** The timer predicate as an invariant of the reachable states. *)
Definition timer_guard_invariant : Prop :=
  ∀ w, reachable w →
    ∀ email b, accountData w !! email = Some b → timer_guard b = true.

(** The state in which a timer may be armed. *)
Definition may_reconnect (b : Bot) : Prop :=
  (status b = Offline ∨ status b = Error)
  ∧ autoReconnect b = true ∧ manualDisconnect b = false.

(** Every pending timer is the one its account's record points to. *)
Definition timers_wf (w : World) : Prop :=
  ∀ t email d, timers w !! t = Some (email, d) →
    bot_at w email (λ b, reconnectTimer b = Some t).

(** No log exceeds the cap. *)
Definition logs_bounded (w : World) : Prop :=
  ∀ email b, accountData w !! email = Some b → length (logs b) ≤ 200.

(** Handles created for [email] that are still open. *)
Definition live_clients (w : World) (email : string) : list nat :=
  filter (λ c, clients w !! c = Some email) (elements (live w)).

(** A transition is quiet when it keeps every record, leaves every
    [reconnectTimer] field as it was and arms no timer.  Everything the
    program does outside [setTimeout] and the reset of the field in
    [POST /disconnect] is quiet. *)
Definition quiet (w w' : World) : Prop :=
  (∀ e, timer_of w' e = timer_of w e)
  ∧ (∀ e, is_Some (accountData w !! e) → is_Some (accountData w' !! e))
  ∧ (∀ t x, timers w' !! t = Some x → timers w !! t = Some x).

(** A transition that is quiet, or quiet up to a final call of
    [scheduleReconnect] made when the session is [Offline] or [Error]. *)
Definition ends_in_schedule (w w'' : World) : Prop :=
  quiet w w''
  ∨ ∃ e w', quiet w w'
      ∧ bot_at w' e (λ b, status b = Offline ∨ status b = Error)
      ∧ w'' = scheduleReconnect e w'.

(** Between [w] and [w'] the timer field of an account is kept, reset, or
    assigned in a state where a reconnect is allowed. *)
Definition arm_ok (w w' : World) : Prop :=
  ∀ e, timer_of w' e = timer_of w e
       ∨ timer_of w' e = None
       ∨ bot_at w' e may_reconnect.

(** Effects are only ever appended. *)
Definition extends (w w' : World) : Prop := ∃ l, effects w' = (effects w ++ l)%list.

(** Effects that report state: SSE updates, Discord presence and embeds. *)
Definition is_report (x : Effect) : bool :=
  match x with
  | EUpdate _ _ | EActivity _ | ENotify _ _ _ => true
  | _ => false
  end.

(** ** Definitions for the properties of the event loop *)

(** The account whose handlers an event runs: the one named by a command,
    the one a pending timer was armed for, the one a handle was opened for.
    A timer that is not pending, a handle that was never created and the
    clock concern no account. *)
Definition event_target (ev : Event) (w : World) : option string :=
  match ev with
  | HttpConnect e _ | DiscordConnect e _ | HttpDisconnect e _
  | DiscordDisconnect e _ | HttpSetReconnect e _ | DiscordReconnect e _
  | HttpToggleReconnect e | HttpChat e _ _ | DiscordChat e _ _
  | HttpTestReconnect e _ => Some e
  | TimerFire t _ => fst <$> timers w !! t
  | ClientSpawn c _ | ClientJoin c | ClientText c _ | ClientMsaCode c _
  | ClientEnded c _ => clients w !! c
  | Tick _ => None
  end.

(** The events whose code assigns [bot.autoReconnect]. *)
Definition sets_autoReconnect (ev : Event) : bool :=
  match ev with
  | HttpDisconnect _ _ | DiscordDisconnect _ _ | HttpSetReconnect _ _
  | DiscordReconnect _ _ | HttpToggleReconnect _ => true
  | _ => false
  end.

(** A transition that leaves the records of all accounts but [e] as they
    were and takes the record of [e], if there is one, to a record related
    to it by [R]. *)
Definition local (R : Bot → Bot → Prop) (e : string) (w w' : World) : Prop :=
  (∀ e', e' ≠ e → accountData w' !! e' = accountData w !! e')
  ∧ (∀ b, accountData w !! e = Some b →
          ∃ b', accountData w' !! e = Some b' ∧ R b b').

(** [s.includes('@')] *)
Fixpoint includes_at (s : string) : bool :=
  match s with
  | EmptyString => false
  | String a rest => Ascii.eqb a "@"%char || includes_at rest
  end.

(** Every handle stored in a record was opened for the account of that
    record, and every handle known to the process, open or not, was handed
    out by the counter. *)
Definition handles_ok (w : World) : Prop :=
  (∀ e b c, accountData w !! e = Some b → client b = Some c → clients w !! c = Some e)
  ∧ (∀ c e, clients w !! c = Some e → c < nextClient w)
  ∧ (∀ c, c ∈ live w → is_Some (clients w !! c)).

(** The events whose code can reach [createClient]. *)
Definition opens_handle (ev : Event) : bool :=
  match ev with
  | HttpConnect _ _ | DiscordConnect _ _ | TimerFire _ _ => true
  | _ => false
  end.

(** A record that is [Connecting] or [Online] carries no auth challenge. *)
Definition no_stale_code (b : Bot) : Prop :=
  status b = Connecting ∨ status b = Online → deviceCode b = None.

Definition codes_ok (w : World) : Prop :=
  ∀ email b, accountData w !! email = Some b → no_stale_code b.

(** ** Scenarios

    Concrete runs used to exercise the statements below. *)

Definition world0 : World := init_world true true.

(** [startBot("a")] has run and the connection is being opened. *)
Definition world_connecting : World :=
  run [HttpConnect "a" Created] world0.

(** The table right after [startBot] has stored the record of a new
    account ["a"], before anything is logged. *)
Definition world_fresh : World :=
  with_accountData (<["a" := newBot]> (accountData world0)) world0.

(** 250 distinct messages. *)
Definition messages250 : list string := map nat_str (seq 0 250).

(** The session of ["a"] has spawned. *)
Definition world_online : World :=
  run [HttpConnect "a" Created; ClientSpawn 0 None] world0.

(** The first connection of ["a"] has failed and a reconnect is pending. *)
Definition world_pending : World :=
  run [HttpConnect "a" Created; ClientEnded 0 (SigError "boom")] world0.

(** ... and auto-reconnect has then been switched off. *)
Definition world_disabled : World :=
  step (HttpSetReconnect "a" false) world_pending.

(** A connection fails, the operator connects again while the reconnect is
    pending, and the timer then expires. *)
Definition overlap_trace : list Event :=
  [ HttpConnect "a" Created;
    ClientEnded 0 (SigError "boom");
    HttpConnect "a" Created;
    TimerFire 0 Created ].

(** Two accounts are connecting, ["a"] on handle 0 and ["b"] on handle 1. *)
Definition world_two : World :=
  run [HttpConnect "a" Created; HttpConnect "b" Created] world0.



(** The reconnects of ["a"] have failed twelve times in a row. *)
Definition world_twelve : World :=
  modify "a" (with_reconnectAttempts 12) world_pending.


(** ** Projection lemmas *)

Lemma accountData_modify e f w :
  accountData (modify e f w) = alter f e (accountData w).
Proof. reflexivity. Qed.

Lemma accountData_emit x w : accountData (emit x w) = accountData w.
Proof. reflexivity. Qed.

Lemma accountData_discordNotify t d c w :
  accountData (discordNotify t d c w) = accountData w.
Proof. unfold discordNotify. by destruct (discordChannel w). Qed.

Lemma accountData_discordUpdateActivity w :
  accountData (discordUpdateActivity w) = accountData w.
Proof. unfold discordUpdateActivity. by destruct (discordUser w). Qed.

Lemma accountData_broadcastUpdate e w :
  accountData (broadcastUpdate e w) = accountData w.
Proof.
  unfold broadcastUpdate. destruct (accountData w !! e); [|done].
  by rewrite accountData_discordUpdateActivity.
Qed.

Lemma alter_absent {A} (f : A → A) (e : string) (m : gmap string A) :
  m !! e = None → alter f e m = m.
Proof.
  intros H. apply map_eq. intros j. rewrite lookup_alter.
  case_decide; [subst; by rewrite H|done].
Qed.

Lemma accountData_addLog e m w :
  accountData (addLog e m w)
  = alter (λ b, with_logs (push_log (logs b) (mkLog (now w) m)) b) e (accountData w).
Proof.
  unfold addLog. destruct (accountData w !! e) as [b|] eqn:H.
  - rewrite accountData_broadcastUpdate, accountData_modify.
    apply map_eq. intros j. rewrite !lookup_alter.
    case_decide; [subst; by rewrite H|done].
  - by rewrite alter_absent.
Qed.

Lemma timers_modify e f w : timers (modify e f w) = timers w.
Proof. reflexivity. Qed.
Lemma timers_emit x w : timers (emit x w) = timers w.
Proof. reflexivity. Qed.
Lemma timers_discordNotify t d c w : timers (discordNotify t d c w) = timers w.
Proof. unfold discordNotify. by destruct (discordChannel w). Qed.
Lemma timers_discordUpdateActivity w : timers (discordUpdateActivity w) = timers w.
Proof. unfold discordUpdateActivity. by destruct (discordUser w). Qed.
Lemma timers_broadcastUpdate e w : timers (broadcastUpdate e w) = timers w.
Proof.
  unfold broadcastUpdate. destruct (accountData w !! e); [|done].
  by rewrite timers_discordUpdateActivity.
Qed.
Lemma timers_addLog e m w : timers (addLog e m w) = timers w.
Proof.
  unfold addLog. destruct (accountData w !! e); [|done].
  by rewrite timers_broadcastUpdate.
Qed.

Lemma nextTimer_modify e f w : nextTimer (modify e f w) = nextTimer w.
Proof. reflexivity. Qed.
Lemma nextTimer_emit x w : nextTimer (emit x w) = nextTimer w.
Proof. reflexivity. Qed.
Lemma nextTimer_discordNotify t d c w : nextTimer (discordNotify t d c w) = nextTimer w.
Proof. unfold discordNotify. by destruct (discordChannel w). Qed.
Lemma nextTimer_discordUpdateActivity w :
  nextTimer (discordUpdateActivity w) = nextTimer w.
Proof. unfold discordUpdateActivity. by destruct (discordUser w). Qed.
Lemma nextTimer_broadcastUpdate e w : nextTimer (broadcastUpdate e w) = nextTimer w.
Proof.
  unfold broadcastUpdate. destruct (accountData w !! e); [|done].
  by rewrite nextTimer_discordUpdateActivity.
Qed.
Lemma nextTimer_addLog e m w : nextTimer (addLog e m w) = nextTimer w.
Proof.
  unfold addLog. destruct (accountData w !! e); [|done].
  by rewrite nextTimer_broadcastUpdate.
Qed.

Lemma now_modify e f w : now (modify e f w) = now w.
Proof. reflexivity. Qed.
Lemma now_emit x w : now (emit x w) = now w.
Proof. reflexivity. Qed.
Lemma now_discordNotify t d c w : now (discordNotify t d c w) = now w.
Proof. unfold discordNotify. by destruct (discordChannel w). Qed.
Lemma now_discordUpdateActivity w : now (discordUpdateActivity w) = now w.
Proof. unfold discordUpdateActivity. by destruct (discordUser w). Qed.
Lemma now_broadcastUpdate e w : now (broadcastUpdate e w) = now w.
Proof.
  unfold broadcastUpdate. destruct (accountData w !! e); [|done].
  by rewrite now_discordUpdateActivity.
Qed.
Lemma now_addLog e m w : now (addLog e m w) = now w.
Proof.
  unfold addLog. destruct (accountData w !! e); [|done].
  by rewrite now_broadcastUpdate.
Qed.

Lemma nextClient_modify e f w : nextClient (modify e f w) = nextClient w.
Proof. reflexivity. Qed.
Lemma nextClient_emit x w : nextClient (emit x w) = nextClient w.
Proof. reflexivity. Qed.
Lemma nextClient_discordNotify t d c w :
  nextClient (discordNotify t d c w) = nextClient w.
Proof. unfold discordNotify. by destruct (discordChannel w). Qed.
Lemma nextClient_discordUpdateActivity w :
  nextClient (discordUpdateActivity w) = nextClient w.
Proof. unfold discordUpdateActivity. by destruct (discordUser w). Qed.
Lemma nextClient_broadcastUpdate e w : nextClient (broadcastUpdate e w) = nextClient w.
Proof.
  unfold broadcastUpdate. destruct (accountData w !! e); [|done].
  by rewrite nextClient_discordUpdateActivity.
Qed.
Lemma nextClient_addLog e m w : nextClient (addLog e m w) = nextClient w.
Proof.
  unfold addLog. destruct (accountData w !! e); [|done].
  by rewrite nextClient_broadcastUpdate.
Qed.

Create Rewrite HintDb world.
#[global] Hint Rewrite accountData_modify accountData_emit accountData_discordNotify
  accountData_discordUpdateActivity accountData_broadcastUpdate accountData_addLog
  timers_modify timers_emit timers_discordNotify timers_discordUpdateActivity
  timers_broadcastUpdate timers_addLog
  nextTimer_modify nextTimer_emit nextTimer_discordNotify
  nextTimer_discordUpdateActivity nextTimer_broadcastUpdate nextTimer_addLog
  now_modify now_emit now_discordNotify now_discordUpdateActivity
  now_broadcastUpdate now_addLog
  nextClient_modify nextClient_emit nextClient_discordNotify
  nextClient_discordUpdateActivity nextClient_broadcastUpdate nextClient_addLog : world.


Lemma extends_refl w : extends w w.
Proof. exists []. by rewrite app_nil_r. Qed.

Lemma extends_trans w1 w2 w3 : extends w1 w2 → extends w2 w3 → extends w1 w3.
Proof. intros [l1 H1] [l2 H2]. exists (l1 ++ l2)%list. by rewrite H2, H1, app_assoc. Qed.

Lemma extends_emit x w : extends w (emit x w).
Proof. by exists [x]. Qed.

Lemma extends_modify e f w : extends w (modify e f w).
Proof. exists []. cbn. by rewrite app_nil_r. Qed.

Lemma extends_discordNotify t d c w : extends w (discordNotify t d c w).
Proof.
  unfold discordNotify. destruct (discordChannel w);
    [apply extends_emit | apply extends_refl].
Qed.

Lemma extends_discordUpdateActivity w : extends w (discordUpdateActivity w).
Proof.
  unfold discordUpdateActivity. destruct (discordUser w);
    [apply extends_emit | apply extends_refl].
Qed.

Lemma extends_broadcastUpdate e w : extends w (broadcastUpdate e w).
Proof.
  unfold broadcastUpdate. destruct (accountData w !! e); [|apply extends_refl].
  eapply extends_trans; [apply extends_emit | apply extends_discordUpdateActivity].
Qed.

Lemma extends_addLog e m w : extends w (addLog e m w).
Proof.
  unfold addLog. destruct (accountData w !! e); [|apply extends_refl].
  eapply extends_trans; [apply extends_modify | apply extends_broadcastUpdate].
Qed.

Lemma extends_elem x w w' : extends w w' → x ∈ effects w → x ∈ effects w'.
Proof. intros [l ->] H. apply elem_of_app. by left. Qed.

(** Logging, broadcasting and notifying emit reports only. *)
Lemma emit_report_only x y w :
  is_report x = false → is_report y = true → x ∈ effects (emit y w) → x ∈ effects w.
Proof.
  intros Hx Hy. cbn. rewrite elem_of_app, list_elem_of_singleton.
  intros [H | ->]; [done|congruence].
Qed.

Lemma discordNotify_report_only x t d c w :
  is_report x = false → x ∈ effects (discordNotify t d c w) → x ∈ effects w.
Proof.
  intros Hx. unfold discordNotify. destruct (discordChannel w); [|done].
  by apply emit_report_only.
Qed.

Lemma discordUpdateActivity_report_only x w :
  is_report x = false → x ∈ effects (discordUpdateActivity w) → x ∈ effects w.
Proof.
  intros Hx. unfold discordUpdateActivity. destruct (discordUser w); [|done].
  by apply emit_report_only.
Qed.

Lemma broadcastUpdate_report_only x e w :
  is_report x = false → x ∈ effects (broadcastUpdate e w) → x ∈ effects w.
Proof.
  intros Hx. unfold broadcastUpdate. destruct (accountData w !! e); [|done].
  intros H. apply discordUpdateActivity_report_only in H; [|done].
  by apply emit_report_only in H.
Qed.

Lemma addLog_report_only x e m w :
  is_report x = false → x ∈ effects (addLog e m w) → x ∈ effects w.
Proof.
  intros Hx. unfold addLog. destruct (accountData w !! e); [|done].
  intros H. by apply broadcastUpdate_report_only in H.
Qed.

(** ** The bounded log *)

Lemma push_log_length l e : length l ≤ 200 → length (push_log l e) ≤ 200.
Proof.
  intros H. unfold push_log. rewrite length_app. cbn [length].
  destruct (Nat.ltb_spec 200 (length l + 1));
    rewrite ?length_tl, ?length_app; cbn [length]; lia.
Qed.

Lemma slice_last_short {A} k (l : list A) : length l ≤ k → slice_last k l = l.
Proof. intros H. unfold slice_last. by replace (length l - k) with 0 by lia. Qed.

Lemma slice_last_length {A} k (l : list A) : length (slice_last k l) ≤ k.
Proof. unfold slice_last. rewrite length_skipn. lia. Qed.

Lemma fold_push_log es : ∀ l,
  length l ≤ 200 → fold_left push_log es l = slice_last 200 (l ++ es)%list.
Proof.
  induction es as [|e es IH]; intros l Hl.
  - rewrite app_nil_r. cbn. by rewrite slice_last_short.
  - cbn [fold_left]. rewrite IH by by apply push_log_length.
    unfold push_log. rewrite length_app. cbn [length].
    destruct (Nat.ltb_spec 200 (length l + 1)) as [Hfull|Hroom].
    + destruct l as [|x l0]; [cbn in Hfull; lia|].
      cbn [app tail]. unfold slice_last.
      rewrite <- app_assoc. cbn [app length]. rewrite !length_app.
      cbn [length] in *.
      replace (S (length l0 + S (length es)) - 200) with (S (length l0 + S (length es) - 200))
        by lia.
      reflexivity.
    + by rewrite <- app_assoc.
Qed.

Lemma add_logs_lookup email msgs : ∀ w b,
  accountData w !! email = Some b →
  accountData (add_logs email msgs w) !! email
  = Some (with_logs (fold_left push_log (map (mkLog (now w)) msgs) (logs b)) b)
  ∧ now (add_logs email msgs w) = now w.
Proof.
  induction msgs as [|m msgs IH]; intros w b H.
  - cbn. by destruct b.
  - cbn [add_logs fold_left map]. fold (add_logs email msgs (addLog email m w)).
    assert (accountData (addLog email m w) !! email
            = Some (with_logs (push_log (logs b) (mkLog (now w) m)) b)) as H'
      by by rewrite accountData_addLog, lookup_alter_eq, H.
    destruct (IH _ _ H') as [-> ->]. by rewrite now_addLog.
Qed.

(** *** The cap holds in every reachable world *)

Lemma logs_bounded_ext w w' :
  accountData w' = accountData w → logs_bounded w → logs_bounded w'.
Proof. intros Ha H e b. rewrite Ha. apply H. Qed.

Lemma logs_bounded_modify e f w :
  (∀ b, logs (f b) = logs b) → logs_bounded w → logs_bounded (modify e f w).
Proof.
  intros Hf H e' b'. rewrite accountData_modify, lookup_alter.
  case_decide; [subst|apply H].
  destruct (accountData w !! e') as [b|] eqn:Hb; [|done].
  intros [= <-]. rewrite Hf. by eapply H.
Qed.

Lemma logs_bounded_addLog e m w : logs_bounded w → logs_bounded (addLog e m w).
Proof.
  intros H e' b'. rewrite accountData_addLog, lookup_alter.
  case_decide; [subst|apply H].
  destruct (accountData w !! e') as [b|] eqn:Hb; [|done].
  intros [= <-]. apply push_log_length. by eapply H.
Qed.

Lemma logs_bounded_emit x w : logs_bounded w → logs_bounded (emit x w).
Proof. by apply logs_bounded_ext. Qed.

Lemma logs_bounded_discordNotify t d c w :
  logs_bounded w → logs_bounded (discordNotify t d c w).
Proof. apply logs_bounded_ext. by autorewrite with world. Qed.

Lemma logs_bounded_broadcastUpdate e w :
  logs_bounded w → logs_bounded (broadcastUpdate e w).
Proof. apply logs_bounded_ext. by autorewrite with world. Qed.

Lemma logs_bounded_clearTimeout h w : logs_bounded w → logs_bounded (clearTimeout h w).
Proof. apply logs_bounded_ext. by destruct h. Qed.

Lemma logs_bounded_with_timers v w : logs_bounded w → logs_bounded (with_timers v w).
Proof. by apply logs_bounded_ext. Qed.

Lemma logs_bounded_with_live v w : logs_bounded w → logs_bounded (with_live v w).
Proof. by apply logs_bounded_ext. Qed.

Lemma logs_bounded_with_now v w : logs_bounded w → logs_bounded (with_now v w).
Proof. by apply logs_bounded_ext. Qed.

Lemma logs_bounded_client_queue c x w :
  logs_bounded w → logs_bounded (client_queue c x w).
Proof. by apply logs_bounded_ext. Qed.

Lemma logs_bounded_client_disconnect c th w :
  logs_bounded w → logs_bounded (client_disconnect c th w).
Proof. apply logs_bounded_ext. by destruct th. Qed.

Lemma logs_bounded_createClient e w : logs_bounded w → logs_bounded (createClient e w).
Proof. by apply logs_bounded_ext. Qed.

Lemma logs_bounded_setTimeout e d w : logs_bounded w → logs_bounded (setTimeout e d w).
Proof.
  intros H. unfold setTimeout. apply logs_bounded_modify; [by intros []|].
  revert H. by apply logs_bounded_ext.
Qed.

Lemma logs_bounded_new_record e w :
  logs_bounded w → logs_bounded (with_accountData (<[e := newBot]> (accountData w)) w).
Proof.
  intros H e' b'. cbn. rewrite lookup_insert. case_decide; [|apply H].
  intros [= <-]. cbn. lia.
Qed.

(** The cap is carried through a chain of calls from the outside in. *)
Ltac logs_step :=
  first
    [ assumption
    | apply logs_bounded_modify; [by intros []|]
    | apply logs_bounded_addLog
    | apply logs_bounded_broadcastUpdate
    | apply logs_bounded_discordNotify
    | apply logs_bounded_clearTimeout
    | apply logs_bounded_setTimeout
    | apply logs_bounded_with_timers
    | apply logs_bounded_with_live
    | apply logs_bounded_with_now
    | apply logs_bounded_client_queue
    | apply logs_bounded_client_disconnect
    | apply logs_bounded_createClient
    | apply logs_bounded_new_record ].

Ltac logs_chain := repeat case_match; cbn [snd]; repeat logs_step.

Lemma logs_bounded_scheduleReconnect e w :
  logs_bounded w → logs_bounded (scheduleReconnect e w).
Proof. intros H. unfold scheduleReconnect. logs_chain. Qed.

Lemma logs_bounded_handleSessionEnd e r ie w :
  logs_bounded w → logs_bounded (handleSessionEnd e r ie w).
Proof.
  intros H. unfold handleSessionEnd.
  repeat case_match; try assumption;
    try apply logs_bounded_scheduleReconnect; repeat logs_step.
Qed.

Lemma logs_bounded_startBot e r cr w :
  logs_bounded w → logs_bounded (startBot e r cr w).
Proof.
  intros H. unfold startBot. cbv zeta.
  assert (logs_bounded match accountData w !! e with
                       | Some _ => w
                       | None => with_accountData (<[e := newBot]> (accountData w)) w
                       end) as H0 by (case_match; repeat logs_step).
  revert H0.
  generalize (match accountData w !! e with
              | Some _ => w
              | None => with_accountData (<[e := newBot]> (accountData w)) w
              end) as w0.
  clear H. intros w0 H0.
  destruct cr; [|apply logs_bounded_scheduleReconnect]; destruct r;
    repeat logs_step.
Qed.

Lemma logs_bounded_step ev w : logs_bounded w → logs_bounded (step ev w).
Proof.
  intros H. destruct ev; cbn [step];
    unfold http_connect, discord_connect, http_disconnect, discord_disconnect,
      http_set_reconnect, discord_reconnect, http_toggle_reconnect, http_chat,
      discord_chat, send_chat, http_test_reconnect, fire_timer, timer_callback,
      on_client, spawn_handler, join_handler, text_handler, onMsaCode, end_handler;
    repeat case_match; cbn [snd]; try assumption;
    try apply logs_bounded_startBot; try apply logs_bounded_handleSessionEnd;
    repeat logs_step.
Qed.

Lemma run_logs_bounded evs : ∀ w, logs_bounded w → logs_bounded (run evs w).
Proof.
  induction evs as [|ev evs IH]; intros w H; [done|].
  cbn [run fold_left]. apply IH. by apply logs_bounded_step.
Qed.

Lemma reachable_logs_bounded w : reachable w → logs_bounded w.
Proof.
  intros (du & dc & evs & ->). apply run_logs_bounded.
  intros e b H. cbn in H. by rewrite lookup_empty in H.
Qed.

(** C9.  In every reachable world every log holds at most 200 entries.
    Starting from a log of at most 200 entries, any number of [addLog]
    calls leaves the last 200 entries of the whole insertion sequence, in
    insertion order, so the oldest entries are the ones evicted; after 250
    insertions into an empty log the first 50 are gone and the 200 most
    recent remain. *)
Theorem addLog_cap_fifo :
  (∀ w email b,
     reachable w → accountData w !! email = Some b → length (logs b) ≤ 200)
  ∧ (∀ email msgs w b,
       accountData w !! email = Some b →
       length (logs b) ≤ 200 →
       ∃ b', accountData (add_logs email msgs w) !! email = Some b'
         ∧ logs b' = slice_last 200 (logs b ++ map (mkLog (now w)) msgs)
         ∧ length (logs b') ≤ 200
         ∧ (logs b = [] → length msgs = 250 →
            logs b' = skipn 50 (map (mkLog (now w)) msgs)
            ∧ length (logs b') = 200)).
Proof.
  split.
  - intros w email b Hr H. by eapply reachable_logs_bounded.
  - intros email msgs w b H Hl.
    destruct (add_logs_lookup email msgs w b H) as [Hb _].
    eexists. split; [exact Hb|]. cbn [logs with_logs].
    rewrite fold_push_log by done. split; [done|].
    split; [apply slice_last_length|].
    intros Hnil Hn. rewrite Hnil. cbn [app]. unfold slice_last.
    rewrite length_map, Hn. split; [done|].
    rewrite length_skipn, length_map, Hn. done.
Qed.

Lemma addLog_cap_fifo_witness :
  ∃ b', accountData (add_logs "a" messages250 world_fresh) !! "a" = Some b'
    ∧ logs b' = skipn 50 (map (mkLog (now world_fresh)) messages250)
    ∧ length (logs b') = 200.
Proof.
  destruct (proj2 addLog_cap_fifo "a" messages250 world_fresh newBot)
    as (b' & Hb & _ & _ & H250).
  - reflexivity.
  - cbn. lia.
  - exists b'. split; [exact Hb|]. apply H250; reflexivity.
Defined.

(** ** Backoff *)

Lemma reconnect_delay_spec n :
  reconnect_delay n = backoff_spec 5000 (3 # 2) 12 60000 n.
Proof. reflexivity. Qed.

Lemma reconnect_delay_capped n : 7 ≤ n → (reconnect_delay n == 60000)%Q.
Proof.
  intros H. unfold reconnect_delay, Math_pow, Math_min_nat.
  destruct (Nat.le_gt_cases 12 n) as [Hn|Hn].
  - by rewrite Nat.min_r.
  - rewrite Nat.min_l by lia.
    do 7 (destruct n as [|n]; [lia|]).
    do 5 (destruct n as [|n]; [reflexivity|]). lia.
Qed.

(** ** Quiet transitions *)


Lemma quiet_refl w : quiet w w.
Proof. by repeat split. Qed.

Lemma quiet_trans w1 w2 w3 : quiet w1 w2 → quiet w2 w3 → quiet w1 w3.
Proof.
  intros (A1 & B1 & C1) (A2 & B2 & C2). repeat split.
  - intros e. by rewrite A2, A1.
  - intros e H. by apply B2, B1.
  - intros t x H. by apply C1, C2.
Qed.

Lemma quiet_frame w w' :
  accountData w' = accountData w → timers w' = timers w → quiet w w'.
Proof. intros Ha Ht. unfold quiet, timer_of. rewrite Ha, Ht. by repeat split. Qed.

Lemma quiet_modify e f w :
  (∀ b, reconnectTimer (f b) = reconnectTimer b) → quiet w (modify e f w).
Proof.
  intros Hf. repeat split.
  - intros e'. unfold timer_of. rewrite accountData_modify, lookup_alter.
    case_decide; [subst|done]. destruct (accountData w !! e'); cbn; [apply Hf|done].
  - intros e' H. rewrite accountData_modify. by apply lookup_alter_is_Some.
  - done.
Qed.

Lemma quiet_emit x w : quiet w (emit x w).
Proof. by apply quiet_frame. Qed.

Lemma quiet_discordNotify t d c w : quiet w (discordNotify t d c w).
Proof. apply quiet_frame; by autorewrite with world. Qed.

Lemma quiet_broadcastUpdate e w : quiet w (broadcastUpdate e w).
Proof. apply quiet_frame; by autorewrite with world. Qed.

Lemma quiet_addLog e m w : quiet w (addLog e m w).
Proof.
  unfold addLog. destruct (accountData w !! e); [|apply quiet_refl].
  eapply quiet_trans; [|apply quiet_broadcastUpdate]. by apply quiet_modify.
Qed.

Lemma quiet_clearTimeout h w : quiet w (clearTimeout h w).
Proof.
  destruct h as [t|]; [|apply quiet_refl]. repeat split; [done..|].
  intros t' x. cbn. rewrite lookup_delete. by case_decide.
Qed.

Lemma quiet_with_live v w : quiet w (with_live v w).
Proof. by apply quiet_frame. Qed.

Lemma quiet_with_now v w : quiet w (with_now v w).
Proof. by apply quiet_frame. Qed.

Lemma quiet_createClient e w : quiet w (createClient e w).
Proof. by apply quiet_frame. Qed.

Lemma quiet_client_queue c x w : quiet w (client_queue c x w).
Proof. by apply quiet_frame. Qed.

Lemma quiet_client_disconnect c th w : quiet w (client_disconnect c th w).
Proof. apply quiet_frame; by destruct th. Qed.

(** A record stored for an account that had none. *)
Lemma quiet_new_record e w :
  accountData w !! e = None →
  quiet w (with_accountData (<[e := newBot]> (accountData w)) w).
Proof.
  intros H. repeat split.
  - intros e'. unfold timer_of. cbn. rewrite lookup_insert.
    case_decide; [subst; by rewrite H|done].
  - intros e' Hs. cbn. rewrite lookup_insert. case_decide; [by eexists|done].
  - done.
Qed.

(** Chains of quiet steps are discharged step by step, from the outside in. *)
Ltac quiet_step :=
  first
    [ apply quiet_refl
    | eapply quiet_trans; [|apply quiet_modify; intros []; reflexivity]
    | eapply quiet_trans; [|apply quiet_addLog]
    | eapply quiet_trans; [|apply quiet_broadcastUpdate]
    | eapply quiet_trans; [|apply quiet_discordNotify]
    | eapply quiet_trans; [|apply quiet_clearTimeout]
    | eapply quiet_trans; [|apply quiet_client_queue]
    | eapply quiet_trans; [|apply quiet_client_disconnect]
    | eapply quiet_trans; [|apply quiet_createClient]
    | eapply quiet_trans; [|apply quiet_with_live]
    | eapply quiet_trans; [|apply quiet_with_now] ].

Ltac quiet_chain := cbn zeta; repeat quiet_step.

Lemma quiet_spawn_handler e c q w : quiet w (spawn_handler e c q w).
Proof. unfold spawn_handler. destruct q; quiet_chain. Qed.

Lemma quiet_join_handler e w : quiet w (join_handler e w).
Proof. unfold join_handler. quiet_chain. Qed.

Lemma quiet_text_handler e m w : quiet w (text_handler e m w).
Proof. unfold text_handler. case_decide; quiet_chain. Qed.

Lemma quiet_onMsaCode e d w : quiet w (onMsaCode e d w).
Proof. unfold onMsaCode. quiet_chain. Qed.

Lemma quiet_discord_disconnect e th w : quiet w (discord_disconnect e th w).2.
Proof.
  unfold discord_disconnect. destruct (accountData w !! e) as [b|]; [|apply quiet_refl].
  cbn [snd]. destruct (client b); quiet_chain.
Qed.

Lemma quiet_http_set_reconnect e en w : quiet w (http_set_reconnect e en w).2.
Proof.
  unfold http_set_reconnect. destruct (accountData w !! e); [|apply quiet_refl].
  cbn [snd]. quiet_chain.
Qed.

Lemma quiet_discord_reconnect e en w : quiet w (discord_reconnect e en w).2.
Proof.
  unfold discord_reconnect. destruct (accountData w !! e); [|apply quiet_refl].
  cbn [snd]. quiet_chain.
Qed.

Lemma quiet_http_toggle_reconnect e w : quiet w (http_toggle_reconnect e w).2.
Proof.
  unfold http_toggle_reconnect. destruct (accountData w !! e); [|apply quiet_refl].
  cbn [snd]. quiet_chain.
Qed.

Lemma quiet_send_chat p e x q w : quiet w (send_chat p e x q w).2.
Proof.
  unfold send_chat. destruct (accountData w !! e) as [b|]; [|apply quiet_refl].
  destruct (client b); [|apply quiet_refl].
  case_decide; [|apply quiet_refl]. destruct q; cbn [snd]; quiet_chain.
Qed.

Lemma quiet_http_test_reconnect e th w : quiet w (http_test_reconnect e th w).2.
Proof.
  unfold http_test_reconnect. destruct (accountData w !! e) as [b|]; [|apply quiet_refl].
  destruct (client b); [|apply quiet_refl].
  case_decide; [|apply quiet_refl]. cbn [snd]. quiet_chain.
Qed.

(** ** The scheduler arms one timer *)

Lemma accountData_clearTimeout h w : accountData (clearTimeout h w) = accountData w.
Proof. by destruct h. Qed.
Lemma timers_clearTimeout h w : timers (clearTimeout h w) = clear_opt h (timers w).
Proof. by destruct h. Qed.
Lemma nextTimer_clearTimeout h w : nextTimer (clearTimeout h w) = nextTimer w.
Proof. by destruct h. Qed.
Lemma now_clearTimeout h w : now (clearTimeout h w) = now w.
Proof. by destruct h. Qed.

Lemma nextClient_clearTimeout h w : nextClient (clearTimeout h w) = nextClient w.
Proof. by destruct h. Qed.

#[global] Hint Rewrite accountData_clearTimeout timers_clearTimeout
  nextTimer_clearTimeout now_clearTimeout nextClient_clearTimeout : world.

Lemma scheduleReconnect_skipped e w :
  (∀ b, accountData w !! e = Some b →
        manualDisconnect b = true ∨ autoReconnect b = false) →
  scheduleReconnect e w = w.
Proof.
  intros H. unfold scheduleReconnect. destruct (accountData w !! e) as [b|]; [|done].
  destruct (H b eq_refl) as [-> | ->]; [done|]. by rewrite orb_true_r.
Qed.

Lemma scheduleReconnect_armed e w b :
  accountData w !! e = Some b →
  manualDisconnect b = false → autoReconnect b = true →
  accountData (scheduleReconnect e w)
  = alter (with_reconnectTimer (Some (nextTimer w))) e
      (alter (λ b', with_logs (push_log (logs b')
                (mkLog (now w) (reconnect_notice (reconnectAttempts b)))) b') e
         (accountData w))
  ∧ timers (scheduleReconnect e w)
    = <[nextTimer w := (e, reconnect_delay (reconnectAttempts b))]>
        (clear_opt (reconnectTimer b) (timers w))
  ∧ nextTimer (scheduleReconnect e w) = S (nextTimer w)
  ∧ now (scheduleReconnect e w) = now w.
Proof.
  intros H Hm Ha. unfold scheduleReconnect. rewrite H, Hm, Ha. cbn [orb negb].
  unfold setTimeout. cbn. autorewrite with world. done.
Qed.

(** C4.  When the scheduler runs for a record with attempt count [n] whose
    flags allow a reconnect, it arms one new timer for the account, stores
    it in the record, and the delay of that timer is the backoff formula
    with base 5000, growth 1.5, exponent cap 12 and maximum 60000 at [n]:
    5000, 7500 and 11250 for the counts 0, 1 and 2, and 60000 for every
    count from 12 on. *)
Theorem reconnect_delay_backoff (email : string) (w : World) (b : Bot) :
  accountData w !! email = Some b →
  manualDisconnect b = false → autoReconnect b = true →
  let n := reconnectAttempts b in
  let w' := scheduleReconnect email w in
  ∃ delay,
    timers w' !! nextTimer w = Some (email, delay)
    ∧ timer_of w' email = Some (nextTimer w)
    ∧ (∀ t x, t ≠ nextTimer w → timers w' !! t = Some x → timers w !! t = Some x)
    ∧ (delay == backoff_spec 5000 (15 # 10) 12 60000 n)%Q
    ∧ (n = 0 → (delay == 5000)%Q)
    ∧ (n = 1 → (delay == 7500)%Q)
    ∧ (n = 2 → (delay == 11250)%Q)
    ∧ (12 ≤ n → (delay == 60000)%Q).
Proof.
  intros H Hm Ha n w'.
  destruct (scheduleReconnect_armed email w b H Hm Ha) as (Had & Htm & _ & _).
  exists (reconnect_delay n). subst w'. unfold timer_of. rewrite Had, Htm.
  split; [by rewrite lookup_insert_eq|].
  split; [by rewrite !lookup_alter_eq, H|].
  split.
  { intros t x Hne. rewrite lookup_insert_ne by done.
    destruct (reconnectTimer b) as [t0|]; cbn [clear_opt]; [|done].
    rewrite lookup_delete. by case_decide. }
  split.
  { rewrite reconnect_delay_spec. unfold backoff_spec.
    assert ((3 # 2) == (15 # 10))%Q as -> by reflexivity. reflexivity. }
  repeat split.
  - by intros ->.
  - by intros ->.
  - by intros ->.
  - intros Hn. apply reconnect_delay_capped. lia.
Qed.

Lemma reconnect_delay_backoff_witness :
  (∃ delay, timers (scheduleReconnect "a" world_connecting) !! 0 = Some ("a", delay)
            ∧ (delay == 5000)%Q)
  ∧ (∃ delay, timers (scheduleReconnect "a" world_twelve) !! 1 = Some ("a", delay)
              ∧ (delay == 60000)%Q).
Proof.
  split.
  - destruct (reconnect_delay_backoff "a" world_connecting
               (mkBot (Some 0) Connecting
                  [mkLog "00:00:00" "🚀 Starting connection to donutsmp.net:19132..."]
                  true 0 false None None false))
      as (d & Ht & _ & _ & _ & H0 & _).
    + vm_compute. reflexivity.
    + reflexivity.
    + reflexivity.
    + exists d. split; [exact Ht|]. apply H0. reflexivity.
  - assert (∃ b, accountData world_twelve !! "a" = Some b
                 ∧ manualDisconnect b = false ∧ autoReconnect b = true
                 ∧ reconnectAttempts b = 12) as (b & Hb & Hm & Ha & Hn).
    { eexists. split; [vm_compute; reflexivity|]. repeat split. }
    destruct (reconnect_delay_backoff "a" world_twelve b Hb Hm Ha)
      as (d & Ht & _ & _ & _ & _ & _ & _ & H12).
    exists d. split; [exact Ht|]. apply H12. rewrite Hn. lia.
Defined.

Lemma quiet_wf w w' : quiet w w' → timers_wf w → timers_wf w'.
Proof.
  intros (A & B & C) Hwf t e d Ht.
  destruct (Hwf t e d (C _ _ Ht)) as (b & Hb & Hf).
  assert (timer_of w' e = Some t) as Ht'
    by (rewrite A; unfold timer_of; by rewrite Hb).
  unfold timer_of in Ht'. destruct (accountData w' !! e) as [b'|] eqn:Hb'; [|done].
  by exists b'.
Qed.

Lemma scheduleReconnect_wf e w : timers_wf w → timers_wf (scheduleReconnect e w).
Proof.
  intros Hwf. destruct (accountData w !! e) as [b|] eqn:H.
  2: { rewrite scheduleReconnect_skipped; [done|]. intros b Hb. congruence. }
  destruct (manualDisconnect b) eqn:Hm.
  { rewrite scheduleReconnect_skipped; [done|]. intros b' Hb. left. congruence. }
  destruct (autoReconnect b) eqn:Ha.
  2: { rewrite scheduleReconnect_skipped; [done|]. intros b' Hb. right. congruence. }
  destruct (scheduleReconnect_armed e w b H Hm Ha) as (Had & Htm & _ & _).
  intros t e' d Ht. unfold bot_at. rewrite Had. rewrite Htm in Ht.
  rewrite lookup_insert in Ht. case_decide as Hn.
  - injection Ht as <- <-. subst t. rewrite !lookup_alter_eq, H. cbn. by eexists.
  - assert (timers w !! t = Some (e', d)) as Ht0.
    { destruct (reconnectTimer b) as [t0|]; cbn in Ht; [|done].
      rewrite lookup_delete in Ht. by case_decide. }
    destruct (Hwf t e' d Ht0) as (b' & Hb' & Hf).
    destruct (decide (e = e')) as [<-|Hne].
    + exfalso. assert (b' = b) as -> by congruence. rewrite Hf in Ht. cbn in Ht.
      by rewrite lookup_delete_eq in Ht.
    + rewrite !lookup_alter_ne by done. by exists b'.
Qed.


Lemma ends_in_schedule_after w w1 w2 :
  quiet w w1 → ends_in_schedule w1 w2 → ends_in_schedule w w2.
Proof.
  intros Hq [H | (e & w' & Hq' & Hb & ->)].
  - left. by eapply quiet_trans.
  - right. exists e, w'. split; [by eapply quiet_trans|done].
Qed.

Lemma ends_in_schedule_wf w w' : ends_in_schedule w w' → timers_wf w → timers_wf w'.
Proof.
  intros [H | (e & w1 & Hq & _ & ->)] Hwf.
  - by eapply quiet_wf.
  - apply scheduleReconnect_wf. by eapply quiet_wf.
Qed.

Lemma shape_handleSessionEnd e r ie w : ends_in_schedule w (handleSessionEnd e r ie w).
Proof.
  unfold handleSessionEnd.
  destruct (accountData w !! e) as [b|] eqn:H; [|left; apply quiet_refl].
  destruct (disconnectHandled b); [left; apply quiet_refl|].
  destruct (negb (manualDisconnect b) && autoReconnect b).
  - right. eexists e, _. split; [|split; [|reflexivity]].
    + quiet_chain.
    + unfold bot_at. autorewrite with world. rewrite !lookup_alter_eq, H. cbn.
      eexists. split; [reflexivity|]. cbn. destruct ie; auto.
  - left. quiet_chain.
Qed.

Lemma shape_startBot e r cr w : ends_in_schedule w (startBot e r cr w).
Proof.
  unfold startBot. cbv zeta.
  set (w0 := match accountData w !! e with
             | Some _ => w
             | None => with_accountData (<[e := newBot]> (accountData w)) w
             end).
  assert (quiet w w0) as Hq0.
  { subst w0. destruct (accountData w !! e) eqn:H;
      [apply quiet_refl | by apply quiet_new_record]. }
  assert (is_Some (accountData w0 !! e)) as [b0 Hb0].
  { subst w0. destruct (accountData w !! e) eqn:H; [by rewrite H|].
    cbn. rewrite lookup_insert_eq. by eexists. }
  clearbody w0. apply (ends_in_schedule_after _ _ _ Hq0).
  set (w6 := broadcastUpdate e _).
  assert (quiet w0 w6) as Hq6.
  { subst w6. destruct r; [|quiet_chain].
    match goal with |- context [retry_notice ?n] => generalize (retry_notice n) end.
    intros m. quiet_chain. }
  destruct (proj1 (proj2 Hq6) e (ex_intro _ b0 Hb0)) as [b6 Hb6].
  clearbody w6. apply (ends_in_schedule_after _ _ _ Hq6).
  destruct cr as [|msg].
  - left. quiet_chain.
  - right. eexists e, _. split; [|split; [|reflexivity]].
    + quiet_chain.
    + unfold bot_at. autorewrite with world. rewrite !lookup_alter_eq, Hb6. cbn.
      eexists. split; [reflexivity|]. cbn. auto.
Qed.

Lemma shape_timer_callback e cr w : ends_in_schedule w (timer_callback e cr w).
Proof.
  unfold timer_callback. destruct (accountData w !! e) as [b|]; [|left; apply quiet_refl].
  destruct (negb (manualDisconnect b) && autoReconnect b);
    [apply shape_startBot | left; apply quiet_refl].
Qed.

Lemma shape_fire_timer t cr w : ends_in_schedule w (fire_timer t cr w).
Proof.
  unfold fire_timer. destruct (timers w !! t) as [[e d]|]; [|left; apply quiet_refl].
  eapply ends_in_schedule_after; [|apply shape_timer_callback].
  apply (quiet_clearTimeout (Some t)).
Qed.

Lemma shape_http_connect e cr w : ends_in_schedule w (http_connect e cr w).2.
Proof.
  unfold http_connect. case_decide; [left; apply quiet_refl|].
  destruct (accountData w !! e) as [b|]; [|apply shape_startBot].
  destruct (is_active (status b)); [left; apply quiet_refl | apply shape_startBot].
Qed.

Lemma shape_discord_connect e cr w : ends_in_schedule w (discord_connect e cr w).2.
Proof.
  unfold discord_connect.
  destruct (accountData w !! e) as [b|]; [|apply shape_startBot].
  destruct (is_active (status b)); [left; apply quiet_refl | apply shape_startBot].
Qed.

Lemma shape_on_client c h w :
  (∀ e w', ends_in_schedule w' (h e w')) → ends_in_schedule w (on_client c h w).
Proof.
  intros H. unfold on_client. destruct (clients w !! c); [apply H | left; apply quiet_refl].
Qed.

(** Every event except [POST /disconnect] has this shape. *)
Lemma step_shape ev w :
  (∀ e th, ev ≠ HttpDisconnect e th) → ends_in_schedule w (step ev w).
Proof.
  intros Hev. destruct ev; cbn [step].
  - apply shape_http_connect.
  - apply shape_discord_connect.
  - by destruct (Hev email throws).
  - left. apply quiet_discord_disconnect.
  - left. apply quiet_http_set_reconnect.
  - left. apply quiet_discord_reconnect.
  - left. apply quiet_http_toggle_reconnect.
  - left. apply quiet_send_chat.
  - left. apply quiet_send_chat.
  - left. apply quiet_http_test_reconnect.
  - apply shape_fire_timer.
  - apply shape_on_client. intros. left. apply quiet_spawn_handler.
  - apply shape_on_client. intros. left. apply quiet_join_handler.
  - apply shape_on_client. intros. left. apply quiet_text_handler.
  - apply shape_on_client. intros. left. apply quiet_onMsaCode.
  - apply shape_on_client. intros e w'.
    eapply ends_in_schedule_after; [apply quiet_with_live|]. apply shape_handleSessionEnd.
  - left. apply quiet_with_now.
Qed.

(** ** [POST /disconnect] and the timer field *)

Lemma accountData_client_disconnect c th w :
  accountData (client_disconnect c th w) = accountData w.
Proof. by destruct th. Qed.
Lemma timers_client_disconnect c th w : timers (client_disconnect c th w) = timers w.
Proof. by destruct th. Qed.
Lemma nextTimer_client_disconnect c th w :
  nextTimer (client_disconnect c th w) = nextTimer w.
Proof. by destruct th. Qed.
Lemma now_client_disconnect c th w : now (client_disconnect c th w) = now w.
Proof. by destruct th. Qed.

Lemma nextClient_client_disconnect c th w :
  nextClient (client_disconnect c th w) = nextClient w.
Proof. by destruct th. Qed.

#[global] Hint Rewrite accountData_client_disconnect timers_client_disconnect
  nextTimer_client_disconnect now_client_disconnect nextClient_client_disconnect : world.

Lemma null_timer_wf e h w b :
  accountData w !! e = Some b → reconnectTimer b = h → timers_wf w →
  timers_wf (modify e (with_reconnectTimer None) (clearTimeout h w)).
Proof.
  intros H Hh Hwf t e' d Ht. rewrite timers_modify, timers_clearTimeout in Ht.
  assert (timers w !! t = Some (e', d) ∧ h ≠ Some t) as [Ht0 Hne].
  { destruct h as [t0|]; cbn in Ht; [|done].
    rewrite lookup_delete in Ht. case_decide; [done|]. split; [done|congruence]. }
  destruct (Hwf t e' d Ht0) as (b' & Hb' & Hf).
  destruct (decide (e = e')) as [<-|He]; [congruence|].
  exists b'. by rewrite accountData_modify, accountData_clearTimeout, lookup_alter_ne.
Qed.

Lemma null_timer_silent e w e' :
  timer_of (modify e (with_reconnectTimer None) w) e' = timer_of w e'
  ∨ timer_of (modify e (with_reconnectTimer None) w) e' = None.
Proof.
  unfold timer_of. rewrite accountData_modify, lookup_alter.
  case_decide; [subst|by left]. right. by destruct (accountData w !! e').
Qed.

Lemma http_disconnect_wf e th w : timers_wf w → timers_wf (http_disconnect e th w).2.
Proof.
  intros Hwf. unfold http_disconnect.
  destruct (accountData w !! e) as [b|] eqn:H; [|done]. cbn [snd].
  set (w3 := modify e (with_autoReconnect false) _).
  assert (quiet w w3) as Hq by (subst w3; quiet_chain).
  assert (accountData w3 !! e
          = Some (with_autoReconnect false
                    (with_disconnectHandled true (with_manualDisconnect true b)))) as H3.
  { subst w3. autorewrite with world. by rewrite !lookup_alter_eq, H. }
  pose proof (null_timer_wf e (reconnectTimer b) w3 _ H3 eq_refl (quiet_wf _ _ Hq Hwf))
    as Hwf5.
  clearbody w3. revert Hwf5. apply quiet_wf. destruct (client b); quiet_chain.
Qed.

Lemma http_disconnect_silent e th w e' :
  timer_of (http_disconnect e th w).2 e' = timer_of w e'
  ∨ timer_of (http_disconnect e th w).2 e' = None.
Proof.
  unfold http_disconnect.
  destruct (accountData w !! e) as [b|] eqn:H; [|by left]. cbn [snd].
  set (w4 := clearTimeout _ _).
  assert (quiet w w4) as (Hq & _ & _) by (subst w4; quiet_chain).
  set (w5 := modify e (with_reconnectTimer None) w4).
  assert (quiet w5 (broadcastUpdate e
            (addLog e "🔌 Manually disconnected."
               (modify e (with_status Offline)
                  match client b with
                  | Some c => modify e (with_client None) (client_disconnect c th w5)
                  | None => w5
                  end)))) as (Hq' & _ & _)
    by (destruct (client b); quiet_chain).
  rewrite Hq', <- Hq. apply null_timer_silent.
Qed.

Lemma step_timers_wf ev w : timers_wf w → timers_wf (step ev w).
Proof.
  intros Hwf.
  destruct ev;
    try solve [eapply ends_in_schedule_wf; [apply step_shape; intros ? ? [=] | done]].
  by apply http_disconnect_wf.
Qed.

Lemma run_timers_wf evs : ∀ w, timers_wf w → timers_wf (run evs w).
Proof.
  induction evs as [|ev evs IH]; intros w Hwf; [done|].
  cbn [run fold_left]. apply IH. by apply step_timers_wf.
Qed.

Lemma reachable_timers_wf w : reachable w → timers_wf w.
Proof.
  intros (du & dc & evs & ->). apply run_timers_wf.
  intros t e d Ht. cbn in Ht. by rewrite lookup_empty in Ht.
Qed.

(** ** Where the timer field is assigned *)


Lemma arm_ok_after w w1 w2 : quiet w w1 → arm_ok w1 w2 → arm_ok w w2.
Proof.
  intros (Hq & _ & _) H e. destruct (H e) as [He | He]; [|by right].
  left. by rewrite He, Hq.
Qed.

Lemma scheduleReconnect_arm_ok e w :
  bot_at w e (λ b, status b = Offline ∨ status b = Error) →
  arm_ok w (scheduleReconnect e w).
Proof.
  intros (b & H & Hst) e'.
  destruct (manualDisconnect b) eqn:Hm.
  { rewrite scheduleReconnect_skipped; [by left|]. intros b' Hb. left. congruence. }
  destruct (autoReconnect b) eqn:Ha.
  2: { rewrite scheduleReconnect_skipped; [by left|]. intros b' Hb. right. congruence. }
  destruct (scheduleReconnect_armed e w b H Hm Ha) as (Had & _).
  unfold timer_of, bot_at. rewrite Had.
  destruct (decide (e = e')) as [<-|Hne].
  - right. right. rewrite !lookup_alter_eq, H. cbn. eexists. split; [reflexivity|].
    by repeat split.
  - left. by rewrite !lookup_alter_ne.
Qed.

Lemma ends_in_schedule_arm_ok w w' : ends_in_schedule w w' → arm_ok w w'.
Proof.
  intros [(Hq & _ & _) | (e & w1 & Hq & Hb & ->)].
  - intros e. by left.
  - eapply arm_ok_after; [done|]. by apply scheduleReconnect_arm_ok.
Qed.

Lemma step_arm_ok ev w : arm_ok w (step ev w).
Proof.
  destruct ev; try solve [apply ends_in_schedule_arm_ok, step_shape; intros ? ? [=]].
  intros e'. destruct (http_disconnect_silent email throws w e'); auto.
Qed.

(** ** Closed forms of the handlers on the record they own *)

Lemma scheduleReconnect_keeps e e' w :
  is_Some (accountData w !! e') → is_Some (accountData (scheduleReconnect e w) !! e').
Proof.
  intros Hs. destruct (accountData w !! e) as [b|] eqn:H.
  2: { rewrite scheduleReconnect_skipped; [done|]. intros b Hb. congruence. }
  destruct (manualDisconnect b) eqn:Hm.
  { rewrite scheduleReconnect_skipped; [done|]. intros b' Hb. left. congruence. }
  destruct (autoReconnect b) eqn:Ha.
  2: { rewrite scheduleReconnect_skipped; [done|]. intros b' Hb. right. congruence. }
  destruct (scheduleReconnect_armed e w b H Hm Ha) as (-> & _).
  by rewrite !lookup_alter_is_Some.
Qed.

Lemma ends_in_schedule_keeps w w' e :
  ends_in_schedule w w' → is_Some (accountData w !! e) → is_Some (accountData w' !! e).
Proof.
  intros [(_ & B & _) | (e0 & w1 & (_ & B & _) & _ & ->)] Hs; [by apply B|].
  by apply scheduleReconnect_keeps, B.
Qed.

Lemma startBot_record e r cr w : is_Some (accountData (startBot e r cr w) !! e).
Proof.
  destruct (accountData w !! e) as [b|] eqn:H.
  - eapply ends_in_schedule_keeps; [apply shape_startBot | by rewrite H].
  - assert (startBot e r cr w
            = startBot e r cr (with_accountData (<[e := newBot]> (accountData w)) w)) as ->.
    { unfold startBot. rewrite H. cbn [accountData with_accountData].
      by rewrite lookup_insert_eq. }
    eapply ends_in_schedule_keeps; [apply shape_startBot|].
    cbn. rewrite lookup_insert_eq. by eexists.
Qed.

Lemma spawn_handler_lookup e c q w b :
  accountData w !! e = Some b →
  accountData (spawn_handler e c q w) !! e
  = Some (with_logs
            (push_log
               (push_log (logs b) (mkLog (now w) "✅ Spawned! Connected to donutsmp.net."))
               (mkLog (now w)
                  match q with
                  | None => "🏠 Sent: /home 1"
                  | Some msg => "⚠️ Failed to send /home 1 — " +:+ msg
                  end))
            (with_disconnectHandled false
               (with_deviceCode None
                  (with_reconnectAttempts 0 (with_status Online b))))).
Proof.
  intros H. unfold spawn_handler, client_queue.
  destruct q; autorewrite with world; by rewrite !lookup_alter_eq, H.
Qed.

Lemma onMsaCode_lookup e data w b :
  accountData w !! e = Some b →
  bot_at (onMsaCode e data w) e
    (λ b', status b' = AuthRequired
           ∧ deviceCode b' = Some (mkDeviceCode (user_code data) (verification_uri data)
                                                (expires_in data))
           ∧ reconnectAttempts b' = reconnectAttempts b
           ∧ client b' = client b).
Proof.
  intros H. unfold onMsaCode, bot_at. autorewrite with world.
  rewrite !lookup_alter_eq, H. cbn. eexists. split; [reflexivity|]. done.
Qed.

Lemma handleSessionEnd_handled e r ie w b :
  accountData w !! e = Some b → disconnectHandled b = true →
  handleSessionEnd e r ie w = w.
Proof. intros H Hd. unfold handleSessionEnd. by rewrite H, Hd. Qed.

(** ** Connection handles *)

(** C1.  The run [overlap_trace] is reachable and ends with two open
    handles for account ["a"]: handle 1, opened by the operator's connect
    and never closed, and handle 2, opened by the reconnect timer that
    [startBot] left pending; the record points to handle 2 only. *)
Theorem overlap_leaves_two_live_clients :
  let w := run overlap_trace world0 in
  reachable w
  ∧ 1 ∈ live_clients w "a"
  ∧ 2 ∈ live_clients w "a"
  ∧ length (live_clients w "a") = 2
  ∧ bot_at w "a" (λ b, client b = Some 2 ∧ status b = Connecting).
Proof.
  cbn zeta. split; [by exists true, true, overlap_trace|].
  assert (live_clients (run overlap_trace world0) "a" = [2; 1]) as -> by by vm_compute.
  split; [set_solver|]. split; [set_solver|]. split; [done|].
  eexists. split; [by vm_compute|]. done.
Qed.

(** ** Start on an active session *)




(** ** Spawn *)

(** C8.  The spawn handler leaves the record [Online] with attempt count 0
    and no auth challenge; in particular, after a start, an auth challenge
    (which makes the record [AuthRequired] and stores the delivered code)
    and a spawn, the record is [Online] with count 0 and no challenge. *)
Theorem spawn_resets_session (email : string) (c : nat) (q : option string)
    (w : World) (b : Bot) :
  accountData w !! email = Some b →
  bot_at (spawn_handler email c q w) email
    (λ b', status b' = Online ∧ reconnectAttempts b' = 0 ∧ deviceCode b' = None)
  ∧ ∀ data,
      let w1 := startBot email false Created w in
      let w2 := onMsaCode email data w1 in
      bot_at w2 email
        (λ b', status b' = AuthRequired
               ∧ userCode <$> deviceCode b' = Some (user_code data))
      ∧ bot_at (spawn_handler email c q w2) email
          (λ b', status b' = Online ∧ reconnectAttempts b' = 0 ∧ deviceCode b' = None).
Proof.
  intros H.
  assert (∀ w0 b0, accountData w0 !! email = Some b0 →
            bot_at (spawn_handler email c q w0) email
              (λ b', status b' = Online ∧ reconnectAttempts b' = 0
                     ∧ deviceCode b' = None)) as Hspawn.
  { intros w0 b0 H0. eexists. split; [by apply spawn_handler_lookup|]. done. }
  split; [by eapply Hspawn|].
  intros data w1 w2.
  destruct (startBot_record email false Created w) as [b1 H1].
  destruct (onMsaCode_lookup email data w1 b1 H1) as (b2 & H2 & Hst & Hdc & _).
  split; [|by eapply Hspawn].
  exists b2. split; [done|]. split; [done|]. by rewrite Hdc.
Qed.

Lemma spawn_resets_session_witness :
  let w2 := onMsaCode "a" (mkMsa "123-456" "https://www.microsoft.com/link" 900)
              (startBot "a" false Created world_pending) in
  bot_at w2 "a"
    (λ b', status b' = AuthRequired ∧ userCode <$> deviceCode b' = Some "123-456")
  ∧ bot_at (spawn_handler "a" 1 None w2) "a"
      (λ b', status b' = Online ∧ reconnectAttempts b' = 0 ∧ deviceCode b' = None).
Proof.
  cbn zeta.
  refine (proj2 (spawn_resets_session "a" 1 None world_pending
     (mkBot None Error
        [mkLog "00:00:00" "🚀 Starting connection to donutsmp.net:19132...";
         mkLog "00:00:00" "❌ Error — boom";
         mkLog "00:00:00" "⏱️  Auto-reconnect in 5.0s (attempt 1)"]
        true 0 false None (Some 0) true) _)
     (mkMsa "123-456" "https://www.microsoft.com/link" 900)).
  vm_compute. reflexivity.
Defined.

(** C10.  Besides the [Online] transition the spawn handler sets
    [disconnectHandled] back to [false] and queues ['/home 1'] on the
    handle that spawned; a successful send is logged, a send that throws is
    logged as a failure and queues nothing, and in both cases the record
    stays [Online]. *)
Theorem spawn_sends_home (email : string) (c : nat) (q : option string)
    (w : World) (b : Bot) :
  accountData w !! email = Some b →
  let w' := spawn_handler email c q w in
  bot_at w' email
    (λ b', disconnectHandled b' = false
           ∧ status b' = Online
           ∧ client b' = client b
           ∧ logs b'
             = push_log
                 (push_log (logs b)
                    (mkLog (now w) "✅ Spawned! Connected to donutsmp.net."))
                 (mkLog (now w)
                    match q with
                    | None => "🏠 Sent: /home 1"
                    | Some msg => "⚠️ Failed to send /home 1 — " +:+ msg
                    end))
  ∧ (q = None → EClientQueue c "/home 1" ∈ effects w')
  ∧ (∀ msg, q = Some msg →
       ∀ x, EClientQueue c x ∈ effects w' → EClientQueue c x ∈ effects w).
Proof.
  intros H w'. split; [|split].
  - eexists. split; [by apply spawn_handler_lookup|]. done.
  - intros ->. subst w'. unfold spawn_handler.
    eapply extends_elem; [apply extends_addLog|].
    unfold client_queue. cbn [effects emit]. apply elem_of_app. right. set_solver.
  - intros msg -> x Hx. subst w'. unfold spawn_handler in Hx.
    apply addLog_report_only in Hx; [|done].
    apply discordNotify_report_only in Hx; [|done].
    apply broadcastUpdate_report_only in Hx; [|done].
    by apply addLog_report_only in Hx.
Qed.

Lemma spawn_sends_home_witness :
  EClientQueue 0 "/home 1" ∈ effects (spawn_handler "a" 0 None world_connecting).
Proof.
  refine (proj1 (proj2 (spawn_sends_home "a" 0 None world_connecting
     (mkBot (Some 0) Connecting
        [mkLog "00:00:00" "🚀 Starting connection to donutsmp.net:19132..."]
        true 0 false None None false) _)) eq_refl).
  vm_compute. reflexivity.
Defined.

(** ** End of a session *)

Lemma handleSessionEnd_first e r ie w b :
  accountData w !! e = Some b → disconnectHandled b = false →
  let armed := negb (manualDisconnect b) && autoReconnect b in
  let w' := handleSessionEnd e r ie w in
  bot_at w' e
    (λ b', status b' = (if ie then Error else Offline)
           ∧ client b' = None
           ∧ disconnectHandled b' = true
           ∧ logs b'
             = (let l1 := push_log (logs b) (mkLog (now w) (end_notice r ie)) in
                if armed
                then push_log l1 (mkLog (now w) (reconnect_notice (reconnectAttempts b)))
                else l1)
           ∧ reconnectTimer b' = (if armed then Some (nextTimer w) else reconnectTimer b)
           ∧ autoReconnect b' = autoReconnect b
           ∧ manualDisconnect b' = manualDisconnect b
           ∧ reconnectAttempts b' = reconnectAttempts b)
  ∧ timers w'
    = (if armed
       then <[nextTimer w := (e, reconnect_delay (reconnectAttempts b))]>
              (clear_opt (reconnectTimer b) (timers w))
       else timers w)
  ∧ nextTimer w' = (if armed then S (nextTimer w) else nextTimer w).
Proof.
  intros H Hd armed w'. subst w'. unfold handleSessionEnd. rewrite H, Hd.
  fold armed. destruct armed eqn:Harm.
  - apply andb_prop in Harm as [Hm Ha]. apply negb_true_iff in Hm.
    set (w6 := discordNotify _ _ _ _).
    assert (accountData w6 !! e
            = Some (with_logs (push_log (logs b) (mkLog (now w) (end_notice r ie)))
                      (with_client None
                         (with_status (if ie then Error else Offline)
                            (with_disconnectHandled true b))))) as H6.
    { subst w6. autorewrite with world. by rewrite !lookup_alter_eq, H. }
    destruct (scheduleReconnect_armed e w6 _ H6 Hm Ha) as (Had & Htm & Hnt & _).
    unfold bot_at. rewrite Had, Htm, Hnt, !lookup_alter_eq, H6.
    subst w6. autorewrite with world. cbn.
    split; [|done]. eexists. split; [reflexivity|]. done.
  - unfold bot_at. autorewrite with world. rewrite !lookup_alter_eq, H. cbn.
    split; [|done]. eexists. split; [reflexivity|]. done.
Qed.

Lemma end_signals_handled email sigs : ∀ w b,
  accountData w !! email = Some b → disconnectHandled b = true →
  end_signals email sigs w = w.
Proof.
  induction sigs as [|s sigs IH]; intros w b H Hd; [done|].
  cbn [end_signals fold_left]. unfold end_handler at 2.
  rewrite (handleSessionEnd_handled _ _ _ _ _ H Hd). by eapply IH.
Qed.

(** C2, as stated, fails on an [Online] session with auto-reconnect on:
    the clean end followed by a duplicate error end adds two log entries,
    the end notice and the notice of the scheduled reconnect. *)
Lemma end_signals_log_twice :
  ¬ single_end_transition "a" [SigEnd; SigError "boom"] world_online.
Proof.
  intros (b & b' & H1 & H2 & _ & _ & (entry & Hl) & _).
  vm_compute in H1. vm_compute in H2. injection H1 as <-. injection H2 as <-.
  apply (f_equal length) in Hl. cbn in Hl. discriminate.
Qed.

(** ** The reconnect timer *)

(** C3, as stated, fails: with a reconnect pending after a failed
    connection the record satisfies the timer predicate, and switching
    auto-reconnect off leaves the timer field set while the flag is off. *)
Lemma timer_guard_broken_by_disable :
  (∃ b0, accountData world_pending !! "a" = Some b0 ∧ timer_guard b0 = true)
  ∧ ¬ timer_guard_invariant.
Proof.
  split.
  - eexists. split; [by vm_compute|]. by vm_compute.
  - intros Hinv.
    assert (reachable world_disabled) as Hr.
    { exists true, true,
        [HttpConnect "a" Created; ClientEnded 0 (SigError "boom");
         HttpSetReconnect "a" false].
      reflexivity. }
    assert (∃ b, accountData world_disabled !! "a" = Some b ∧ timer_guard b = false)
      as (b & Hb & Hg).
    { eexists. split; [by vm_compute|]. by vm_compute. }
    specialize (Hinv _ Hr _ _ Hb). congruence.
Qed.

Lemma stop_lookup sf e th w b :
  accountData w !! e = Some b →
  (stop sf e th w).1 = RespOk
  ∧ bot_at (stop sf e th w).2 e
      (λ b', manualDisconnect b' = true
             ∧ disconnectHandled b' = true
             ∧ autoReconnect b' = false
             ∧ client b' = None
             ∧ status b' = Offline
             ∧ logs b' = push_log (logs b) (mkLog (now w) (stop_notice sf))
             ∧ reconnectTimer b'
               = match sf with Http => None | Discord => reconnectTimer b end
             ∧ EUpdate e (snapshot b') ∈ effects (stop sf e th w).2)
  ∧ timers (stop sf e th w).2 = clear_opt (reconnectTimer b) (timers w)
  ∧ nextTimer (stop sf e th w).2 = nextTimer w
  ∧ nextClient (stop sf e th w).2 = nextClient w
  ∧ (∀ c, client b = Some c → EClientDisconnect c ∈ effects (stop sf e th w).2).
Proof.
  intros H.
  assert (∀ w0 b0, accountData w0 !! e = Some b0 →
            EUpdate e (snapshot b0) ∈ effects (broadcastUpdate e w0)) as Hbc.
  { intros w0 b0 H0. unfold broadcastUpdate. rewrite H0.
    eapply extends_elem; [apply extends_discordUpdateActivity|].
    cbn. apply elem_of_app. right. set_solver. }
  assert (∀ c w0, EClientDisconnect c ∈ effects (client_disconnect c th w0)) as Hcd.
  { intros c w0. unfold client_disconnect. cbn. apply elem_of_app. right. set_solver. }
  split; [destruct sf; cbn; unfold http_disconnect, discord_disconnect; by rewrite H|].
  unfold bot_at.
  destruct sf; cbn [stop]; unfold http_disconnect, discord_disconnect; rewrite H;
    cbn [snd]; destruct (client b) as [c|] eqn:Hc.
  all: split; [|split; [by autorewrite with world|split; [by autorewrite with world|]]].
  all: try (eexists; split;
            [autorewrite with world; rewrite !lookup_alter_eq, H; reflexivity|];
            repeat (split; [done|]);
            apply Hbc; autorewrite with world; by rewrite !lookup_alter_eq, H).
  all: split; [by autorewrite with world|].
  all: intros c' [= <-].
  all: eapply extends_elem;
         [eapply extends_trans; [|apply extends_broadcastUpdate];
          eapply extends_trans; [|apply extends_addLog];
          eapply extends_trans; [|apply extends_modify];
          apply extends_modify|apply Hcd].
Qed.

(** C3, amended.  An operation assigns a new handle to the timer field only
    through the scheduler, and when it does the resulting record is
    [Offline] or [Error] with auto-reconnect on and no manual stop
    requested.  [setAutoReconnect] and the toggle never change the field
    (so it can stay set while the flag is off), and [POST /disconnect]
    resets it. *)
Theorem timer_armed_only_when_allowed :
  (∀ ev w email,
     timer_of (step ev w) email ≠ timer_of w email →
     timer_of (step ev w) email ≠ None →
     bot_at (step ev w) email may_reconnect)
  ∧ (∀ sf email enabled w e,
       timer_of (setAutoReconnect sf email enabled w).2 e = timer_of w e)
  ∧ (∀ email w e, timer_of (http_toggle_reconnect email w).2 e = timer_of w e)
  ∧ (∀ email th w, timer_of (http_disconnect email th w).2 email = None).
Proof.
  split; [|split; [|split]].
  - intros ev w email Hne Hsome.
    destruct (step_arm_ok ev w email) as [H | [H | H]]; done.
  - intros [] email enabled w e; cbn [setAutoReconnect].
    + apply quiet_http_set_reconnect.
    + apply quiet_discord_reconnect.
  - intros email w e. apply quiet_http_toggle_reconnect.
  - intros email th w. unfold timer_of.
    destruct (accountData w !! email) as [b|] eqn:H.
    + destruct (stop_lookup Http email th w b H)
        as (_ & (b' & Hb' & _ & _ & _ & _ & _ & _ & Hrt & _) & _).
      cbn [stop] in Hb'. by rewrite Hb'.
    + unfold http_disconnect. rewrite H. cbn [snd]. by rewrite H.
Qed.

Lemma timer_armed_only_when_allowed_witness :
  bot_at (step (ClientEnded 0 (SigError "boom")) world_connecting) "a" may_reconnect.
Proof.
  refine (proj1 timer_armed_only_when_allowed
            (ClientEnded 0 (SigError "boom")) world_connecting "a" _ _).
  - vm_compute. discriminate.
  - vm_compute. discriminate.
Defined.

Lemma timer_callback_blocked e cr w b :
  accountData w !! e = Some b →
  manualDisconnect b = true ∨ autoReconnect b = false →
  timer_callback e cr w = w.
Proof.
  intros H Hf. unfold timer_callback. rewrite H.
  destruct Hf as [-> | ->]; [done|]. by rewrite andb_false_r.
Qed.

Lemma setAutoReconnect_lookup sf e en w b :
  accountData w !! e = Some b →
  bot_at (setAutoReconnect sf e en w).2 e
    (λ b', autoReconnect b' = en
           ∧ status b' = status b
           ∧ client b' = client b
           ∧ manualDisconnect b' = manualDisconnect b
           ∧ reconnectTimer b' = reconnectTimer b)
  ∧ timers (setAutoReconnect sf e en w).2 = timers w
  ∧ nextClient (setAutoReconnect sf e en w).2 = nextClient w.
Proof.
  intros H. unfold bot_at.
  destruct sf; cbn [setAutoReconnect]; unfold http_set_reconnect, discord_reconnect;
    rewrite H; cbn [snd]; autorewrite with world; rewrite !lookup_alter_eq, H;
    (split; [|done]); eexists; (split; [reflexivity|]); done.
Qed.

(** C5.  With a reconnect timer [t] pending for the account, switching
    auto-reconnect off (on either surface) leaves the timer pending and the
    timer field set; when [t] then expires its callback sees the flag off
    and does nothing: the world after the expiry is the world before it
    without the timer, so [startBot] has not run and no handle was
    created. *)
Theorem disabled_flag_blocks_reconnect (sf : Surface) (email : string) (t : nat)
    (d : Q) (cr : CreateResult) (w : World) (b : Bot) :
  accountData w !! email = Some b →
  reconnectTimer b = Some t →
  timers w !! t = Some (email, d) →
  let w1 := (setAutoReconnect sf email false w).2 in
  timers w1 !! t = Some (email, d)
  ∧ timer_of w1 email = Some t
  ∧ bot_at w1 email (λ b', autoReconnect b' = false ∧ status b' = status b)
  ∧ fire_timer t cr w1 = with_timers (delete t (timers w1)) w1
  ∧ nextClient (fire_timer t cr w1) = nextClient w.
Proof.
  intros H Ht Hp w1.
  destruct (setAutoReconnect_lookup sf email false w b H)
    as ((b' & Hb' & Ha & Hs & _ & _ & Hrt) & Htm & Hnc).
  fold w1 in Hb', Htm, Hnc.
  assert (fire_timer t cr w1 = with_timers (delete t (timers w1)) w1) as Hfire.
  { unfold fire_timer. rewrite Htm, Hp.
    apply (timer_callback_blocked email cr _ b'); [done|by right]. }
  split; [by rewrite Htm|]. split; [unfold timer_of; by rewrite Hb', Hrt|].
  split; [by exists b'|]. split; [done|]. by rewrite Hfire.
Qed.

Lemma disabled_flag_blocks_reconnect_witness :
  fire_timer 0 Created world_disabled
  = with_timers (delete 0 (timers world_disabled)) world_disabled.
Proof.
  refine (proj1 (proj2 (proj2 (proj2
    (disabled_flag_blocks_reconnect Http "a" 0 (reconnect_delay 0) Created world_pending
       (mkBot None Error
          [mkLog "00:00:00" "🚀 Starting connection to donutsmp.net:19132...";
           mkLog "00:00:00" "❌ Error — boom";
           mkLog "00:00:00" "⏱️  Auto-reconnect in 5.0s (attempt 1)"]
          true 0 false None (Some 0) true) _ _ _))))).
  - vm_compute. reflexivity.
  - reflexivity.
  - vm_compute. reflexivity.
Defined.

(** ** Stop *)

(** C6.  [stop] on either surface answers "not found" and changes nothing
    when the account has no record.  Otherwise it answers OK and leaves
    the record with [manualDisconnect] and [disconnectHandled] set,
    auto-reconnect off, no handle, state [Offline] and one more log entry;
    it calls [disconnect] on the handle the record held (whether or not
    that call throws) and broadcasts the new record; and in a reachable
    world no timer is pending for the account afterwards, no timer was
    armed, and the scheduler's callback for the account would do nothing. *)
Theorem stop_spec (sf : Surface) (email : string) (throws : bool) (w : World) :
  reachable w →
  (accountData w !! email = None → stop sf email throws w = (RespNotFound, w))
  ∧ (∀ b, accountData w !! email = Some b →
       let w' := (stop sf email throws w).2 in
       (stop sf email throws w).1 = RespOk
       ∧ bot_at w' email
           (λ b', manualDisconnect b' = true
                  ∧ disconnectHandled b' = true
                  ∧ autoReconnect b' = false
                  ∧ client b' = None
                  ∧ status b' = Offline
                  ∧ logs b' = push_log (logs b) (mkLog (now w) (stop_notice sf))
                  ∧ EUpdate email (snapshot b') ∈ effects w')
       ∧ (∀ c, client b = Some c → EClientDisconnect c ∈ effects w')
       ∧ (∀ t d, timers w' !! t ≠ Some (email, d))
       ∧ nextTimer w' = nextTimer w
       ∧ (∀ cr, timer_callback email cr w' = w')).
Proof.
  intros Hr. split.
  - intros H. destruct sf; cbn; unfold http_disconnect, discord_disconnect; by rewrite H.
  - intros b H w'.
    destruct (stop_lookup sf email throws w b H)
      as (Hresp & (b' & Hb' & Hm & Hh & Ha & Hc & Hs & Hl & _ & Hu) & Htm & Hnt & Hnc & Hd).
    fold w' in Hb', Hu, Htm, Hnt, Hnc, Hd.
    assert (∀ t d, timers w' !! t ≠ Some (email, d)) as Hnone.
    { intros t d Ht. rewrite Htm in Ht.
      assert (timers w !! t = Some (email, d) ∧ reconnectTimer b ≠ Some t) as [Ht0 Hne].
      { destruct (reconnectTimer b) as [t0|]; cbn in Ht; [|done].
        rewrite lookup_delete in Ht. case_decide; [done|]. split; [done|congruence]. }
      destruct (reachable_timers_wf w Hr t email d Ht0) as (b0 & Hb0 & Hf). congruence. }
    assert (∀ cr, timer_callback email cr w' = w') as Hcb
      by (intros cr; apply (timer_callback_blocked email cr w' b'); [done|by left]).
    split; [done|]. split; [by exists b'|]. by repeat split.
Qed.

Lemma stop_spec_witness :
  (stop Http "a" false world_pending).1 = RespOk
  ∧ ∀ t d, timers (stop Http "a" false world_pending).2 !! t ≠ Some ("a", d).
Proof.
  assert (reachable world_pending) as Hr
    by (exists true, true,
          [HttpConnect "a" Created; ClientEnded 0 (SigError "boom")]; reflexivity).
  destruct (proj2 (stop_spec Http "a" false world_pending Hr)
     (mkBot None Error
        [mkLog "00:00:00" "🚀 Starting connection to donutsmp.net:19132...";
         mkLog "00:00:00" "❌ Error — boom";
         mkLog "00:00:00" "⏱️  Auto-reconnect in 5.0s (attempt 1)"]
        true 0 false None (Some 0) true))
    as (H1 & _ & _ & H2 & _).
  - vm_compute. reflexivity.
  - split; [exact H1 | exact H2].
Defined.

(** * Further properties of the event loop *)

(** ** Transitions local to one account *)

Ltac local_side :=
  intros; first [done | multimatch goal with H : _ |- _ => solve [apply H] end].

Section LocalFrame.
Variable R : Bot → Bot → Prop.
Hypothesis R_refl : ∀ b, R b b.
Hypothesis R_trans : ∀ a b c, R a b → R b c → R a c.
Hypothesis R_client : ∀ v b, R b (with_client v b).
Hypothesis R_status : ∀ v b, R b (with_status v b).
Hypothesis R_logs : ∀ v b, R b (with_logs v b).
Hypothesis R_reconnectAttempts : ∀ v b, R b (with_reconnectAttempts v b).
Hypothesis R_manualDisconnect : ∀ v b, R b (with_manualDisconnect v b).
Hypothesis R_deviceCode : ∀ v b, R b (with_deviceCode v b).
Hypothesis R_reconnectTimer : ∀ v b, R b (with_reconnectTimer v b).
Hypothesis R_disconnectHandled : ∀ v b, R b (with_disconnectHandled v b).

Lemma local_refl e w : local R e w w.
Proof. split; [done|]. intros b H. by exists b. Qed.

Lemma local_trans e w1 w2 w3 : local R e w1 w2 → local R e w2 w3 → local R e w1 w3.
Proof.
  intros [A1 B1] [A2 B2]. split.
  - intros e' Hne. by rewrite A2, A1.
  - intros b H. destruct (B1 b H) as (b1 & H1 & HR1).
    destruct (B2 b1 H1) as (b2 & H2 & HR2). exists b2. split; [done|].
    by eapply R_trans.
Qed.

Lemma local_frame e w w' : accountData w' = accountData w → local R e w w'.
Proof. intros Ha. unfold local. rewrite Ha. split; [done|]. intros b H. by exists b. Qed.

Lemma local_modify e f w : (∀ b, R b (f b)) → local R e w (modify e f w).
Proof.
  intros Hf. split.
  - intros e' Hne. by rewrite accountData_modify, lookup_alter_ne.
  - intros b H. rewrite accountData_modify, lookup_alter_eq, H. by eexists.
Qed.

Lemma local_addLog e m w : local R e w (addLog e m w).
Proof.
  split.
  - intros e' Hne. by rewrite accountData_addLog, lookup_alter_ne.
  - intros b H. rewrite accountData_addLog, lookup_alter_eq, H. by eexists.
Qed.

Lemma local_broadcastUpdate e e0 w : local R e w (broadcastUpdate e0 w).
Proof. apply local_frame. by autorewrite with world. Qed.

Lemma local_discordNotify e t d c w : local R e w (discordNotify t d c w).
Proof. apply local_frame. by autorewrite with world. Qed.

Lemma local_clearTimeout e h w : local R e w (clearTimeout h w).
Proof. apply local_frame. by autorewrite with world. Qed.

Lemma local_with_timers e v w : local R e w (with_timers v w).
Proof. by apply local_frame. Qed.

Lemma local_with_live e v w : local R e w (with_live v w).
Proof. by apply local_frame. Qed.

Lemma local_createClient e e0 w : local R e w (createClient e0 w).
Proof. by apply local_frame. Qed.

Lemma local_client_queue e c x w : local R e w (client_queue c x w).
Proof. by apply local_frame. Qed.

Lemma local_client_disconnect e c th w : local R e w (client_disconnect c th w).
Proof. apply local_frame. by autorewrite with world. Qed.

Lemma local_setTimeout e d w : local R e w (setTimeout e d w).
Proof.
  unfold setTimeout. eapply local_trans; [|by apply local_modify].
  by apply local_frame.
Qed.

Lemma local_new_record e w :
  accountData w !! e = None →
  local R e w (with_accountData (<[e := newBot]> (accountData w)) w).
Proof.
  intros H. split.
  - intros e' Hne. cbn. by rewrite lookup_insert_ne.
  - intros b Hb. congruence.
Qed.

Ltac local_step :=
  first
    [ apply local_refl
    | eapply local_trans; [|apply local_modify; local_side]
    | eapply local_trans; [|apply local_addLog]
    | eapply local_trans; [|apply local_broadcastUpdate]
    | eapply local_trans; [|apply local_discordNotify]
    | eapply local_trans; [|apply local_clearTimeout]
    | eapply local_trans; [|apply local_setTimeout]
    | eapply local_trans; [|apply local_with_timers]
    | eapply local_trans; [|apply local_with_live]
    | eapply local_trans; [|apply local_createClient]
    | eapply local_trans; [|apply local_client_queue]
    | eapply local_trans; [|apply local_client_disconnect] ].

Ltac local_chain := cbn zeta; repeat local_step.

Lemma local_scheduleReconnect e w : local R e w (scheduleReconnect e w).
Proof.
  unfold scheduleReconnect. destruct (accountData w !! e) as [b|]; [|apply local_refl].
  destruct (manualDisconnect b || negb (autoReconnect b)); local_chain.
Qed.

Lemma local_handleSessionEnd e r ie w : local R e w (handleSessionEnd e r ie w).
Proof.
  unfold handleSessionEnd.
  destruct (accountData w !! e) as [b|]; [|apply local_refl].
  destruct (disconnectHandled b); [apply local_refl|].
  destruct (negb (manualDisconnect b) && autoReconnect b).
  - eapply local_trans; [|apply local_scheduleReconnect]. local_chain.
  - local_chain.
Qed.

Lemma local_startBot e r cr w : local R e w (startBot e r cr w).
Proof.
  unfold startBot. cbv zeta.
  set (w0 := match accountData w !! e with
             | Some _ => w
             | None => with_accountData (<[e := newBot]> (accountData w)) w
             end).
  assert (local R e w w0) as H0.
  { subst w0. destruct (accountData w !! e) eqn:H;
      [apply local_refl | by apply local_new_record]. }
  clearbody w0. apply (local_trans _ _ _ _ H0).
  set (w6 := broadcastUpdate e _).
  assert (local R e w0 w6) as H6.
  { subst w6. destruct r; [|local_chain].
    match goal with |- context [retry_notice ?n] => generalize (retry_notice n) end.
    intros m. local_chain. }
  clearbody w6. apply (local_trans _ _ _ _ H6).
  destruct cr as [|msg]; [local_chain|].
  eapply local_trans; [|apply local_scheduleReconnect]. local_chain.
Qed.

Lemma local_timer_callback e cr w : local R e w (timer_callback e cr w).
Proof.
  unfold timer_callback. destruct (accountData w !! e) as [b|]; [|apply local_refl].
  destruct (negb (manualDisconnect b) && autoReconnect b);
    [apply local_startBot | apply local_refl].
Qed.

Lemma local_spawn_handler e c q w : local R e w (spawn_handler e c q w).
Proof. unfold spawn_handler. destruct q; local_chain. Qed.

Lemma local_onMsaCode e d w : local R e w (onMsaCode e d w).
Proof. unfold onMsaCode. local_chain. Qed.

Lemma local_send_chat p e x q w : local R e w (send_chat p e x q w).2.
Proof.
  unfold send_chat. destruct (accountData w !! e) as [b|]; [|apply local_refl].
  destruct (client b); [|apply local_refl].
  case_decide; [|apply local_refl]. destruct q; cbn [snd]; local_chain.
Qed.

Lemma local_http_test_reconnect e th w : local R e w (http_test_reconnect e th w).2.
Proof.
  unfold http_test_reconnect. destruct (accountData w !! e) as [b|]; [|apply local_refl].
  destruct (client b); [|apply local_refl].
  case_decide; [|apply local_refl]. cbn [snd]. local_chain.
Qed.

Lemma local_start sf e cr w : local R e w (start sf e cr w).2.
Proof.
  destruct sf; cbn [start]; unfold http_connect, discord_connect;
    repeat case_match; cbn [snd]; first [apply local_refl | apply local_startBot].
Qed.

(** Every event that does not assign [bot.autoReconnect] is local to its
    target. *)
Lemma step_local ev w e :
  sets_autoReconnect ev = false → event_target ev w = Some e →
  local R e w (step ev w).
Proof.
  intros Hs Ht. destruct ev; try discriminate Hs; cbn [step event_target] in *.
  - injection Ht as <-. apply (local_start Http).
  - injection Ht as <-. apply (local_start Discord).
  - injection Ht as <-. apply local_send_chat.
  - injection Ht as <-. apply local_send_chat.
  - injection Ht as <-. apply local_http_test_reconnect.
  - unfold fire_timer. destruct (timers w !! t) as [[e0 d]|]; [|done].
    injection Ht as <-. eapply local_trans; [|apply local_timer_callback].
    apply local_with_timers.
  - unfold on_client. rewrite Ht. apply local_spawn_handler.
  - unfold on_client. rewrite Ht. unfold join_handler. apply local_addLog.
  - unfold on_client. rewrite Ht. unfold text_handler.
    case_decide; [apply local_refl | apply local_addLog].
  - unfold on_client. rewrite Ht. apply local_onMsaCode.
  - unfold on_client. rewrite Ht. unfold end_handler.
    eapply local_trans; [apply local_with_live | apply local_handleSessionEnd].
  - discriminate Ht.
Qed.
End LocalFrame.

Lemma step_untargeted ev w :
  event_target ev w = None → accountData (step ev w) = accountData w.
Proof.
  intros Ht. destruct ev; try discriminate Ht; cbn [step event_target] in *;
    unfold fire_timer, on_client.
  - destruct (timers w !! t) as [[e d]|]; [discriminate Ht|done].
  - by rewrite Ht.
  - by rewrite Ht.
  - by rewrite Ht.
  - by rewrite Ht.
  - by rewrite Ht.
  - done.
Qed.

Lemma flag_event_others ev w e e' :
  sets_autoReconnect ev = true → event_target ev w = Some e → e' ≠ e →
  accountData (step ev w) !! e' = accountData w !! e'.
Proof.
  intros Hs Ht Hne.
  destruct ev; try discriminate Hs; cbn [step event_target] in *;
    injection Ht as <-;
    unfold http_disconnect, discord_disconnect, http_set_reconnect,
      discord_reconnect, http_toggle_reconnect;
    destruct (accountData w !! email) as [b|]; try done; cbn [snd];
    try destruct (client b); autorewrite with world;
    by rewrite !lookup_alter_ne.
Qed.

Lemma http_disconnect_keeps e th w e' :
  is_Some (accountData w !! e') → is_Some (accountData (http_disconnect e th w).2 !! e').
Proof.
  intros Hs. unfold http_disconnect.
  destruct (accountData w !! e) as [b|]; [|done]. cbn [snd].
  destruct (client b); autorewrite with world; by rewrite !lookup_alter_is_Some.
Qed.

Lemma step_others_targeted ev w e email :
  event_target ev w = Some e → email ≠ e →
  accountData (step ev w) !! email = accountData w !! email.
Proof.
  intros Ht He. destruct (sets_autoReconnect ev) eqn:Hs.
  - by eapply flag_event_others.
  - refine (proj1 (step_local (λ _ _, True) _ _ _ _ _ _ _ _ _ _ ev w e Hs Ht) email He);
      done.
Qed.

(** X1.  An event changes no record but the one of the account it is
    about: the account named by a command, the account a pending timer
    was armed for, the account a connection handle was opened for.  Events
    about no account (the clock, a timer that is not pending, an unknown
    handle) change no record at all. *)
Theorem step_touches_only_target (ev : Event) (w : World) (email : string) :
  event_target ev w ≠ Some email →
  accountData (step ev w) !! email = accountData w !! email.
Proof.
  intros Hne. destruct (event_target ev w) as [e|] eqn:Ht.
  - apply (step_others_targeted ev w e); [done|]. intros ->. by apply Hne.
  - by rewrite step_untargeted.
Qed.

Lemma step_touches_only_target_witness :
  accountData (step (ClientEnded 0 (SigError "boom")) world_two) !! "b"
  = accountData world_two !! "b".
Proof.
  apply (step_touches_only_target (ClientEnded 0 (SigError "boom")) world_two "b").
  vm_compute. discriminate.
Defined.

(** X2.  No event removes a record from the session table: an account
    that has a record keeps one, whatever happens next. *)
Theorem step_keeps_records (ev : Event) (w : World) (email : string) :
  is_Some (accountData w !! email) →
  is_Some (accountData (step ev w) !! email).
Proof.
  intros Hs.
  destruct ev;
    try solve [eapply ends_in_schedule_keeps; [apply step_shape; intros ? ? [=] | done]].
  by apply http_disconnect_keeps.
Qed.

Lemma step_keeps_records_witness :
  is_Some (accountData (step (HttpDisconnect "a" false) world_online) !! "a").
Proof.
  apply (step_keeps_records (HttpDisconnect "a" false) world_online "a").
  vm_compute. eexists. reflexivity.
Defined.

(** X3.  [bot.autoReconnect] is assigned by the disconnect, set-reconnect
    and toggle commands only.  Every other event (connect, chat,
    test-reconnect, a timer expiry, every signal of a connection) leaves the
    flag of every record as it was, so the operator's choice survives
    reconnect attempts and session ends. *)
Theorem step_keeps_autoReconnect (ev : Event) (w : World) (email : string) (b : Bot) :
  sets_autoReconnect ev = false →
  accountData w !! email = Some b →
  bot_at (step ev w) email (λ b', autoReconnect b' = autoReconnect b).
Proof.
  intros Hs H.
  destruct (event_target ev w) as [e|] eqn:Ht.
  - destruct (decide (email = e)) as [->|He].
    + refine (proj2 (step_local (λ b1 b2, autoReconnect b2 = autoReconnect b1)
                       _ _ _ _ _ _ _ _ _ _ ev w e Hs Ht) b H);
        try done; try by intros ? [].
      intros ??? H1 H2. by rewrite H2.
    + exists b. by rewrite (step_others_targeted ev w e).
  - exists b. by rewrite step_untargeted.
Qed.

Lemma step_keeps_autoReconnect_witness :
  ∃ b, accountData world_disabled !! "a" = Some b
       ∧ bot_at (step (TimerFire 0 Created) world_disabled) "a"
           (λ b', autoReconnect b' = autoReconnect b).
Proof.
  eexists. split; [vm_compute; reflexivity|].
  eapply (step_keeps_autoReconnect (TimerFire 0 Created) world_disabled "a").
  - reflexivity.
  - vm_compute. reflexivity.
Defined.

(** ** Closed forms of [startBot] *)

Lemma clients_modify e f w : clients (modify e f w) = clients w.
Proof. reflexivity. Qed.
Lemma clients_emit x w : clients (emit x w) = clients w.
Proof. reflexivity. Qed.
Lemma clients_discordNotify t d c w : clients (discordNotify t d c w) = clients w.
Proof. unfold discordNotify. by destruct (discordChannel w). Qed.
Lemma clients_discordUpdateActivity w : clients (discordUpdateActivity w) = clients w.
Proof. unfold discordUpdateActivity. by destruct (discordUser w). Qed.
Lemma clients_broadcastUpdate e w : clients (broadcastUpdate e w) = clients w.
Proof.
  unfold broadcastUpdate. destruct (accountData w !! e); [|done].
  by rewrite clients_discordUpdateActivity.
Qed.
Lemma clients_addLog e m w : clients (addLog e m w) = clients w.
Proof.
  unfold addLog. destruct (accountData w !! e); [|done].
  by rewrite clients_broadcastUpdate.
Qed.
Lemma clients_clearTimeout h w : clients (clearTimeout h w) = clients w.
Proof. by destruct h. Qed.
Lemma clients_client_disconnect c th w : clients (client_disconnect c th w) = clients w.
Proof. by destruct th. Qed.

Lemma live_modify e f w : live (modify e f w) = live w.
Proof. reflexivity. Qed.
Lemma live_emit x w : live (emit x w) = live w.
Proof. reflexivity. Qed.
Lemma live_discordNotify t d c w : live (discordNotify t d c w) = live w.
Proof. unfold discordNotify. by destruct (discordChannel w). Qed.
Lemma live_discordUpdateActivity w : live (discordUpdateActivity w) = live w.
Proof. unfold discordUpdateActivity. by destruct (discordUser w). Qed.
Lemma live_broadcastUpdate e w : live (broadcastUpdate e w) = live w.
Proof.
  unfold broadcastUpdate. destruct (accountData w !! e); [|done].
  by rewrite live_discordUpdateActivity.
Qed.
Lemma live_addLog e m w : live (addLog e m w) = live w.
Proof.
  unfold addLog. destruct (accountData w !! e); [|done].
  by rewrite live_broadcastUpdate.
Qed.
Lemma live_clearTimeout h w : live (clearTimeout h w) = live w.
Proof. by destruct h. Qed.

#[global] Hint Rewrite clients_modify clients_emit clients_discordNotify
  clients_discordUpdateActivity clients_broadcastUpdate clients_addLog
  clients_clearTimeout clients_client_disconnect
  live_modify live_emit live_discordNotify live_discordUpdateActivity
  live_broadcastUpdate live_addLog live_clearTimeout : world.

Lemma accountData_createClient e w : accountData (createClient e w) = accountData w.
Proof. reflexivity. Qed.
Lemma timers_createClient e w : timers (createClient e w) = timers w.
Proof. reflexivity. Qed.
Lemma nextTimer_createClient e w : nextTimer (createClient e w) = nextTimer w.
Proof. reflexivity. Qed.
Lemma now_createClient e w : now (createClient e w) = now w.
Proof. reflexivity. Qed.
Lemma nextClient_createClient e w : nextClient (createClient e w) = S (nextClient w).
Proof. reflexivity. Qed.
Lemma clients_createClient e w :
  clients (createClient e w) = <[nextClient w := e]> (clients w).
Proof. reflexivity. Qed.
Lemma live_createClient e w : live (createClient e w) = {[nextClient w]} ∪ live w.
Proof. reflexivity. Qed.

#[global] Hint Rewrite accountData_createClient timers_createClient
  nextTimer_createClient now_createClient nextClient_createClient
  clients_createClient live_createClient : world.

Lemma fresh_handle_live (c : nat) (s : gset nat) : c ∈ {[c]} ∪ s.
Proof. apply elem_of_union_l, elem_of_singleton_2. reflexivity. Qed.

Lemma closed_handle_not_live (c : nat) (s : gset nat) : c ∉ s ∖ {[c]}.
Proof. intros [_ Hn]%elem_of_difference. apply Hn, elem_of_singleton_2. reflexivity. Qed.

Lemma nextClient_scheduleReconnect e w :
  nextClient (scheduleReconnect e w) = nextClient w.
Proof.
  unfold scheduleReconnect. destruct (accountData w !! e) as [b|]; [|done].
  destruct (manualDisconnect b || negb (autoReconnect b)); [done|].
  unfold setTimeout. cbn. by autorewrite with world.
Qed.

Lemma startBot_new e r cr w :
  accountData w !! e = None →
  startBot e r cr w
  = startBot e r cr (with_accountData (<[e := newBot]> (accountData w)) w).
Proof.
  intros H. unfold startBot. rewrite H. cbn [accountData with_accountData].
  by rewrite lookup_insert_eq.
Qed.

Lemma startBot_created e (r : bool) w b :
  accountData w !! e = Some b →
  accountData (startBot e r Created w) !! e
  = Some (with_client (Some (nextClient w))
            (with_logs (push_log (logs b)
                          (mkLog (now w)
                             (if r then retry_notice (reconnectAttempts b + 1)
                              else start_notice)))
               (with_reconnectAttempts (if r then reconnectAttempts b + 1 else 0)
                  (with_disconnectHandled false
                     (with_manualDisconnect false
                        (with_deviceCode None (with_status Connecting b)))))))
  ∧ nextClient (startBot e r Created w) = S (nextClient w)
  ∧ clients (startBot e r Created w) = <[nextClient w := e]> (clients w)
  ∧ live (startBot e r Created w) = {[nextClient w]} ∪ live w
  ∧ timers (startBot e r Created w) = timers w
  ∧ nextTimer (startBot e r Created w) = nextTimer w
  ∧ now (startBot e r Created w) = now w.
Proof.
  intros H. unfold startBot. rewrite H. cbv zeta.
  destruct r; autorewrite with world; rewrite !lookup_alter_eq, H; done.
Qed.

Lemma startBot_failed e (r : bool) msg w b :
  accountData w !! e = Some b →
  let n := if r then reconnectAttempts b + 1 else 0 in
  let w' := startBot e r (CreateThrows msg) w in
  bot_at w' e
    (λ b', status b' = Error
           ∧ client b' = client b
           ∧ reconnectAttempts b' = n
           ∧ manualDisconnect b' = false
           ∧ disconnectHandled b' = false
           ∧ autoReconnect b' = autoReconnect b
           ∧ reconnectTimer b'
             = (if autoReconnect b then Some (nextTimer w) else reconnectTimer b))
  ∧ timers w'
    = (if autoReconnect b
       then <[nextTimer w := (e, reconnect_delay n)]>
              (clear_opt (reconnectTimer b) (timers w))
       else timers w)
  ∧ nextTimer w' = (if autoReconnect b then S (nextTimer w) else nextTimer w)
  ∧ nextClient w' = nextClient w.
Proof.
  intros H n w'. subst w'. unfold startBot. rewrite H. cbv zeta.
  set (w9 := broadcastUpdate e (addLog e (creation_failed_notice msg) _)).
  assert (∃ l, accountData w9 !! e
            = Some (with_logs l
                      (with_status Error
                         (with_reconnectAttempts n
                            (with_disconnectHandled false
                               (with_manualDisconnect false
                                  (with_deviceCode None (with_status Connecting b)))))))
            ∧ timers w9 = timers w ∧ nextTimer w9 = nextTimer w
            ∧ nextClient w9 = nextClient w) as (l & H9 & Ht9 & Hn9 & Hc9).
  { subst w9 n. destruct r; autorewrite with world; rewrite !lookup_alter_eq, H;
      cbn [fmap option_fmap option_map]; eexists; (split; [reflexivity|]);
      autorewrite with world; done. }
  clearbody w9. rewrite nextClient_scheduleReconnect, Hc9.
  destruct (autoReconnect b) eqn:Ha.
  - destruct (scheduleReconnect_armed e w9 _ H9 eq_refl Ha) as (Had & Htm & Hnt & _).
    unfold bot_at. rewrite Had, Htm, Hnt, !lookup_alter_eq, H9, Ht9, Hn9. cbn.
    split; [|done]. eexists. split; [reflexivity|]. done.
  - rewrite scheduleReconnect_skipped.
    + unfold bot_at. rewrite H9, Ht9, Hn9. split; [|done].
      eexists. split; [reflexivity|]. done.
    + intros b' Hb'. right. rewrite H9 in Hb'. by injection Hb' as <-.
Qed.

(** ** Start and restart *)

(** X4.  When a pending reconnect timer expires while auto-reconnect is on
    and no manual stop was requested, [startBot] runs as a reconnect: the
    timer leaves the pending set, the attempt count grows by one, the state
    becomes [Connecting] with the guards and the auth challenge cleared,
    and a fresh handle is opened for the account and stored in the
    record. *)
Theorem reconnect_timer_restarts (email : string) (t : nat) (d : Q) (w : World) (b : Bot) :
  timers w !! t = Some (email, d) →
  accountData w !! email = Some b →
  manualDisconnect b = false →
  autoReconnect b = true →
  let w' := fire_timer t Created w in
  bot_at w' email
    (λ b', status b' = Connecting
           ∧ reconnectAttempts b' = S (reconnectAttempts b)
           ∧ client b' = Some (nextClient w)
           ∧ deviceCode b' = None
           ∧ manualDisconnect b' = false
           ∧ disconnectHandled b' = false
           ∧ logs b' = push_log (logs b)
                         (mkLog (now w) (retry_notice (S (reconnectAttempts b)))))
  ∧ timers w' = delete t (timers w)
  ∧ clients w' !! nextClient w = Some email
  ∧ nextClient w ∈ live w'
  ∧ nextClient w' = S (nextClient w).
Proof.
  intros Ht H Hm Ha w'.
  set (w1 := with_timers (delete t (timers w)) w).
  assert (w' = startBot email true Created w1) as ->.
  { subst w' w1. unfold fire_timer. rewrite Ht. unfold timer_callback.
    change (accountData (with_timers (delete t (timers w)) w)) with (accountData w).
    by rewrite H, Hm, Ha. }
  assert (accountData w1 !! email = Some b) as H1 by done.
  assert (nextClient w1 = nextClient w) as Hc1 by done.
  assert (timers w1 = delete t (timers w)) as Ht1 by done.
  assert (clients w1 = clients w) as Hcl1 by done.
  assert (now w1 = now w) as Hn1 by done.
  clearbody w1.
  destruct (startBot_created email true w1 b H1) as (Hb & Hnc & Hcl & Hlv & Htm & _).
  unfold bot_at. rewrite Hb, Hnc, Hcl, Hlv, Htm, Hc1, Ht1, Hn1, lookup_insert_eq.
  replace (reconnectAttempts b + 1) with (S (reconnectAttempts b)) by lia.
  split; [|split; [done|split; [done|split; [apply fresh_handle_live|done]]]].
  eexists. split; [reflexivity|]. done.
Qed.

Lemma reconnect_timer_restarts_witness :
  bot_at (fire_timer 0 Created world_pending) "a"
    (λ b', status b' = Connecting ∧ reconnectAttempts b' = 1 ∧ client b' = Some 1).
Proof.
  destruct (reconnect_timer_restarts "a" 0 (reconnect_delay 0) world_pending
     (mkBot None Error
        [mkLog "00:00:00" "🚀 Starting connection to donutsmp.net:19132...";
         mkLog "00:00:00" "❌ Error — boom";
         mkLog "00:00:00" "⏱️  Auto-reconnect in 5.0s (attempt 1)"]
        true 0 false None (Some 0) true))
    as ((b' & Hb' & Hst & Hn & Hc & _) & _).
  - vm_compute. reflexivity.
  - vm_compute. reflexivity.
  - reflexivity.
  - reflexivity.
  - exists b'. split; [exact Hb'|]. split; [exact Hst|]. split; [exact Hn|exact Hc].
Defined.

(** X5.  When [createClient] throws, [startBot] leaves the session in
    [Error] with the handle field as it was and opens no handle; the
    manual-stop flag having been reset, a reconnect is scheduled exactly
    when auto-reconnect is on, with the delay of the current attempt count
    and in place of any timer the record pointed to.  ([b] is the record
    before the call, or the fresh record for a new account.) *)
Theorem startBot_failure_schedules (email : string) (r : bool) (msg : string) (w : World) :
  let b := default newBot (accountData w !! email) in
  let n := if r then reconnectAttempts b + 1 else 0 in
  let w' := startBot email r (CreateThrows msg) w in
  bot_at w' email
    (λ b', status b' = Error
           ∧ client b' = client b
           ∧ reconnectAttempts b' = n
           ∧ manualDisconnect b' = false
           ∧ disconnectHandled b' = false
           ∧ autoReconnect b' = autoReconnect b
           ∧ reconnectTimer b'
             = (if autoReconnect b then Some (nextTimer w) else reconnectTimer b))
  ∧ timers w'
    = (if autoReconnect b
       then <[nextTimer w := (email, reconnect_delay n)]>
              (clear_opt (reconnectTimer b) (timers w))
       else timers w)
  ∧ nextTimer w' = (if autoReconnect b then S (nextTimer w) else nextTimer w)
  ∧ nextClient w' = nextClient w.
Proof.
  destruct (accountData w !! email) as [b|] eqn:H; cbn [default].
  - by apply startBot_failed.
  - rewrite startBot_new by done.
    apply (startBot_failed email r msg
             (with_accountData (<[email := newBot]> (accountData w)) w) newBot).
    cbn. by rewrite lookup_insert_eq.
Qed.

(** X6.  A connect command for an account that has no record, or whose
    session is [Offline] or [Error], is accepted on both surfaces: the
    record becomes [Connecting] with attempt count 0, both guards and the
    auth challenge cleared and one line logged; a fresh handle is opened
    for the account and stored in the record.  The auto-reconnect flag is
    kept ([true] for a new account), and so are the timer field and the
    pending timers. *)
Theorem start_accepted (sf : Surface) (email : string) (w : World) :
  (sf = Http → email ≠ "") →
  (∀ b, accountData w !! email = Some b → status b = Offline ∨ status b = Error) →
  let b := default newBot (accountData w !! email) in
  let r := start sf email Created w in
  r.1 = RespOk
  ∧ bot_at r.2 email
      (λ b', status b' = Connecting
             ∧ reconnectAttempts b' = 0
             ∧ client b' = Some (nextClient w)
             ∧ manualDisconnect b' = false
             ∧ disconnectHandled b' = false
             ∧ deviceCode b' = None
             ∧ autoReconnect b' = autoReconnect b
             ∧ reconnectTimer b' = reconnectTimer b
             ∧ logs b' = push_log (logs b) (mkLog (now w) start_notice))
  ∧ clients r.2 !! nextClient w = Some email
  ∧ nextClient w ∈ live r.2
  ∧ nextClient r.2 = S (nextClient w)
  ∧ timers r.2 = timers w.
Proof.
  intros He Hin b r.
  assert (r = (RespOk, startBot email false Created w)) as ->.
  { subst r. destruct sf; cbn [start]; unfold http_connect, discord_connect;
      rewrite ?decide_False by (by apply He);
      (destruct (accountData w !! email) as [b0|] eqn:H;
         [by destruct (Hin b0 eq_refl) as [-> | ->]|done]). }
  cbn [fst snd]. split; [done|]. subst b.
  assert (∀ w0 b0, accountData w0 !! email = Some b0 →
            nextClient w0 = nextClient w → now w0 = now w → timers w0 = timers w →
            let w' := startBot email false Created w0 in
            bot_at w' email
              (λ b', status b' = Connecting ∧ reconnectAttempts b' = 0
                     ∧ client b' = Some (nextClient w) ∧ manualDisconnect b' = false
                     ∧ disconnectHandled b' = false ∧ deviceCode b' = None
                     ∧ autoReconnect b' = autoReconnect b0
                     ∧ reconnectTimer b' = reconnectTimer b0
                     ∧ logs b' = push_log (logs b0) (mkLog (now w) start_notice))
            ∧ clients w' !! nextClient w = Some email
            ∧ nextClient w ∈ live w'
            ∧ nextClient w' = S (nextClient w)
            ∧ timers w' = timers w) as Hgen.
  { intros w0 b0 H0 Hc Hn Ht w'.
    destruct (startBot_created email false w0 b0 H0) as (Hb & Hnc & Hcl & Hlv & Htm & _).
    subst w'. unfold bot_at.
    rewrite Hb, Hnc, Hcl, Hlv, Htm, Hc, Hn, Ht, lookup_insert_eq.
    split; [|split; [done|split; [apply fresh_handle_live|done]]].
    eexists. split; [reflexivity|]. done. }
  destruct (accountData w !! email) as [b0|] eqn:H; cbn [default].
  - by apply Hgen.
  - rewrite startBot_new by done. apply Hgen; [|done..].
    cbn. by rewrite lookup_insert_eq.
Qed.

Lemma start_accepted_witness :
  (start Http "a" Created world_pending).1 = RespOk
  ∧ bot_at (start Http "a" Created world_pending).2 "a"
      (λ b', status b' = Connecting ∧ reconnectAttempts b' = 0 ∧ client b' = Some 1).
Proof.
  destruct (start_accepted Http "a" world_pending)
    as (H1 & (b' & Hb' & Hst & Hn & Hc & _) & _).
  - intros _. discriminate.
  - intros b Hb. vm_compute in Hb. injection Hb as <-. right. reflexivity.
  - split; [exact H1|]. exists b'. split; [exact Hb'|].
    split; [exact Hst|]. split; [exact Hn|exact Hc].
Defined.

(** ** After a manual stop *)

(** X7.  After [stop] (on either surface) every end signal of the
    connection is ignored: whatever signals arrive, in whatever number and
    order, the world stays exactly as [stop] left it, so the close caused
    by the disconnect cannot bring the session back through the reconnect
    path.  When the [disconnect] call did not throw, the handle the record
    held is no longer open. *)
Theorem stop_silences_end_signals (sf : Surface) (email : string) (throws : bool)
    (sigs : list EndSignal) (w : World) (b : Bot) :
  accountData w !! email = Some b →
  let w' := (stop sf email throws w).2 in
  end_signals email sigs w' = w'
  ∧ (∀ c, client b = Some c → throws = false → c ∉ live w').
Proof.
  intros H w'.
  destruct (stop_lookup sf email throws w b H) as (_ & (b' & Hb' & _ & Hh & _) & _).
  fold w' in Hb'. split; [by eapply end_signals_handled|].
  intros c Hc ->. subst w'.
  destruct sf; cbn [stop]; unfold http_disconnect, discord_disconnect;
    rewrite H, Hc; cbn [snd]; autorewrite with world; apply closed_handle_not_live.
Qed.

Lemma stop_silences_end_signals_witness :
  end_signals "a" [SigClose false; SigEnd; SigError "late"]
    (stop Http "a" false world_online).2
  = (stop Http "a" false world_online).2.
Proof.
  refine (proj1 (stop_silences_end_signals Http "a" false
     [SigClose false; SigEnd; SigError "late"] world_online
     (mkBot (Some 0) Online
        [mkLog "00:00:00" "🚀 Starting connection to donutsmp.net:19132...";
         mkLog "00:00:00" "✅ Spawned! Connected to donutsmp.net.";
         mkLog "00:00:00" "🏠 Sent: /home 1"]
        true 0 false None None false) _)).
  vm_compute. reflexivity.
Defined.

Lemma start_inactive sf email cr w b :
  accountData w !! email = Some b → is_active (status b) = false →
  (sf = Http → email ≠ "") →
  start sf email cr w = (RespOk, startBot email false cr w).
Proof.
  intros H Hs He. destruct sf; cbn [start]; unfold http_connect, discord_connect;
    rewrite ?decide_False by (by apply He); by rewrite H, Hs.
Qed.

Lemma end_without_autoReconnect email s w b :
  accountData w !! email = Some b →
  disconnectHandled b = false → manualDisconnect b = false → autoReconnect b = false →
  bot_at (end_handler email s w) email
    (λ b', autoReconnect b' = false
           ∧ status b' = (if signal_isError s then Error else Offline)
           ∧ client b' = None)
  ∧ timers (end_handler email s w) = timers w
  ∧ nextTimer (end_handler email s w) = nextTimer w.
Proof.
  intros H Hh Hm Ha.
  destruct (handleSessionEnd_first email (signal_reason s) (signal_isError s) w b H Hh)
    as ((b3 & Hb3 & Hst & Hc & _ & _ & _ & Ha3 & _) & Htm3 & Hnt3).
  rewrite Hm, Ha in Htm3, Hnt3. cbn [negb andb] in Htm3, Hnt3.
  unfold end_handler. rewrite Htm3, Hnt3.
  split; [|done]. exists b3. by rewrite <- Ha, <- Ha3.
Qed.

Lemma session_without_autoReconnect_ends email s w b :
  accountData w !! email = Some b → autoReconnect b = false →
  let w3 := end_handler email s (startBot email false Created w) in
  bot_at w3 email
    (λ b', autoReconnect b' = false
           ∧ status b' = (if signal_isError s then Error else Offline)
           ∧ client b' = None)
  ∧ timers w3 = timers w
  ∧ nextTimer w3 = nextTimer w.
Proof.
  intros H Ha w3. subst w3.
  destruct (startBot_created email false w b H) as (Hb2 & _ & _ & _ & Htm2 & Hnt2 & _).
  destruct (end_without_autoReconnect email s _ _ Hb2 eq_refl eq_refl Ha)
    as (Hb3 & Htm3 & Hnt3).
  by rewrite Htm3, Hnt3, Htm2, Hnt2.
Qed.

(** X8.  A manual stop switches auto-reconnect off and a later connect
    does not switch it back on: after [stop], an accepted connect and the
    end of that new session, the record is [Offline] or [Error] without a
    handle, auto-reconnect is still off and no reconnect timer has been
    armed. *)
Theorem no_reconnect_after_stop_and_restart (sf sf' : Surface) (email : string)
    (throws : bool) (s : EndSignal) (w : World) (b : Bot) :
  accountData w !! email = Some b →
  (sf' = Http → email ≠ "") →
  let w1 := (stop sf email throws w).2 in
  let r := start sf' email Created w1 in
  let w3 := end_handler email s r.2 in
  r.1 = RespOk
  ∧ bot_at w3 email
      (λ b', autoReconnect b' = false
             ∧ status b' = (if signal_isError s then Error else Offline)
             ∧ client b' = None)
  ∧ timers w3 = timers w1
  ∧ nextTimer w3 = nextTimer w.
Proof.
  intros H He w1 r w3.
  destruct (stop_lookup sf email throws w b H)
    as (_ & (b1 & Hb1 & _ & _ & Ha1 & _ & Hs1 & _) & _ & Hnt1 & _).
  fold w1 in Hb1, Hnt1. clearbody w1.
  assert (r = (RespOk, startBot email false Created w1)) as Hr
    by (apply (start_inactive sf' email Created w1 b1); [done|by rewrite Hs1|done]).
  subst w3. rewrite Hr. cbn [fst snd]. clear r Hr. split; [done|].
  rewrite <- Hnt1. by apply (session_without_autoReconnect_ends email s w1 b1).
Qed.

Lemma no_reconnect_after_stop_and_restart_witness :
  bot_at (end_handler "a" (SigError "boom")
            (start Http "a" Created (stop Http "a" false world_online).2).2) "a"
    (λ b', autoReconnect b' = false ∧ status b' = Error ∧ client b' = None).
Proof.
  refine (proj1 (proj2 (no_reconnect_after_stop_and_restart Http Http "a" false
     (SigError "boom") world_online
     (mkBot (Some 0) Online
        [mkLog "00:00:00" "🚀 Starting connection to donutsmp.net:19132...";
         mkLog "00:00:00" "✅ Spawned! Connected to donutsmp.net.";
         mkLog "00:00:00" "🏠 Sent: /home 1"]
        true 0 false None None false) _ _))).
  - vm_compute. reflexivity.
  - intros _. discriminate.
Defined.

(** ** Chat *)

(** X9.  Sending a chat line ([GET /chat], slash command [chat]) succeeds
    exactly when the account has a record that holds a handle and is
    [Online] (and the send itself does not throw); it then queues the text
    on the record's handle and logs it, changing nothing else of the
    record.  In every other case the world is left untouched, and the
    answer is "bot offline" whenever the session is not [Online] or has no
    handle. *)
Theorem send_chat_spec (prefix email text : string) (q : option string) (w : World) :
  let r := send_chat prefix email text q w in
  (r.1 = RespOk ↔
     ∃ b c, accountData w !! email = Some b ∧ client b = Some c
            ∧ status b = Online ∧ q = None)
  ∧ (r.1 ≠ RespOk → r.2 = w)
  ∧ ((∀ b, accountData w !! email = Some b → client b = None ∨ status b ≠ Online) →
     r = (RespBotOffline, w))
  ∧ (∀ b c, accountData w !! email = Some b → client b = Some c →
       status b = Online → q = None →
       accountData r.2 !! email
       = Some (with_logs (push_log (logs b) (mkLog (now w) (prefix +:+ text))) b)
       ∧ EClientQueue c text ∈ effects r.2).
Proof.
  intros r. subst r. unfold send_chat.
  destruct (accountData w !! email) as [b|] eqn:H.
  2: { cbn. split; [split; [done|by intros (? & ? & ? & _)]|]. split; [done|].
       split; [done|]. by intros. }
  destruct (client b) as [c|] eqn:Hc.
  2: { cbn. split; [split; [done|]|].
       - intros (b0 & c0 & [= <-] & Hc0 & _). congruence.
       - split; [done|]. split; [done|]. intros b0 c0 [= <-]. congruence. }
  destruct (decide (status b = Online)) as [Hs|Hs].
  2: { cbn. split; [split; [done|]|].
       - intros (b0 & c0 & [= <-] & _ & Hs0 & _). done.
       - split; [done|]. split; [done|]. intros b0 c0 [= <-]. done. }
  destruct q as [msg|]; cbn [fst snd].
  - split; [split; [done|by intros (? & ? & _ & _ & _ & ?)]|]. split; [done|].
    split; [|done]. intros Hoff. destruct (Hoff b eq_refl); congruence.
  - split; [split; [intros _; by exists b, c|done]|]. split; [done|].
    split; [intros Hoff; destruct (Hoff b eq_refl); congruence|].
    intros b0 c0 [= <-] Hc0 _ _. assert (c0 = c) as -> by congruence.
    unfold client_queue. split.
    + autorewrite with world. by rewrite lookup_alter_eq, H.
    + eapply extends_elem; [apply extends_addLog|].
      cbn. apply elem_of_app. right. apply list_elem_of_singleton. reflexivity.
Qed.

Lemma send_chat_spec_witness :
  EClientQueue 0 "hello" ∈ effects (http_chat "a" "hello" None world_online).2.
Proof.
  refine (proj2 (proj2 (proj2 (proj2
    (send_chat_spec "📤 You: " "a" "hello" None world_online)))
     (mkBot (Some 0) Online
        [mkLog "00:00:00" "🚀 Starting connection to donutsmp.net:19132...";
         mkLog "00:00:00" "✅ Spawned! Connected to donutsmp.net.";
         mkLog "00:00:00" "🏠 Sent: /home 1"]
        true 0 false None None false) 0 _ _ _ _));
    first [reflexivity | vm_compute; reflexivity].
Defined.

(** ** The auto-reconnect commands *)

(** X10.  The set-reconnect and toggle commands answer "not found" and
    change nothing for an account without a record.  Otherwise the toggle
    negates the flag and leaves state, handle, timer field and pending
    timers alone; toggling twice restores the flag, and setting the flag
    and then toggling leaves the negation of what was set. *)
Theorem reconnect_flag_commands (email : string) (w : World) :
  (accountData w !! email = None →
   http_toggle_reconnect email w = (RespNotFound, w)
   ∧ ∀ sf enabled, setAutoReconnect sf email enabled w = (RespNotFound, w))
  ∧ (∀ b, accountData w !! email = Some b →
       let w1 := (http_toggle_reconnect email w).2 in
       bot_at w1 email
         (λ b', autoReconnect b' = negb (autoReconnect b)
                ∧ status b' = status b
                ∧ client b' = client b
                ∧ reconnectTimer b' = reconnectTimer b)
       ∧ timers w1 = timers w
       ∧ bot_at (http_toggle_reconnect email w1).2 email
           (λ b', autoReconnect b' = autoReconnect b)
       ∧ ∀ sf enabled,
           bot_at (http_toggle_reconnect email (setAutoReconnect sf email enabled w).2).2
             email (λ b', autoReconnect b' = negb enabled)).
Proof.
  assert (∀ w0 b0, accountData w0 !! email = Some b0 →
            accountData (http_toggle_reconnect email w0).2 !! email
            = Some (with_logs
                      (push_log (logs b0)
                         (mkLog (now w0)
                            ("🔁 Auto-reconnect "
                             +:+ (if negb (autoReconnect b0) then "ENABLED"
                                  else "DISABLED"))))
                      (with_autoReconnect (negb (autoReconnect b0)) b0))
            ∧ timers (http_toggle_reconnect email w0).2 = timers w0) as Htog.
  { intros w0 b0 H0. unfold http_toggle_reconnect. rewrite H0. cbn [snd].
    autorewrite with world. by rewrite !lookup_alter_eq, H0. }
  split.
  - intros H. unfold http_toggle_reconnect. rewrite H. split; [done|].
    intros [] enabled; cbn; unfold http_set_reconnect, discord_reconnect; by rewrite H.
  - intros b H w1. destruct (Htog w b H) as [H1 Ht1]. fold w1 in H1, Ht1.
    split; [eexists; split; [exact H1|done]|]. split; [done|]. split.
    + destruct (Htog w1 _ H1) as [H2 _]. eexists. split; [exact H2|].
      cbn. apply negb_involutive.
    + intros sf enabled.
      destruct (setAutoReconnect_lookup sf email enabled w b H)
        as ((b2 & Hb2 & Ha2 & _) & _).
      destruct (Htog _ _ Hb2) as [H3 _]. eexists. split; [exact H3|].
      cbn. by rewrite Ha2.
Qed.

Lemma reconnect_flag_commands_witness :
  bot_at (http_toggle_reconnect "a" (http_toggle_reconnect "a" world_online).2).2 "a"
    (λ b', autoReconnect b' = true).
Proof.
  refine (proj1 (proj2 (proj2 (proj2 (reconnect_flag_commands "a" world_online)
     (mkBot (Some 0) Online
        [mkLog "00:00:00" "🚀 Starting connection to donutsmp.net:19132...";
         mkLog "00:00:00" "✅ Spawned! Connected to donutsmp.net.";
         mkLog "00:00:00" "🏠 Sent: /home 1"]
        true 0 false None None false) _)))).
  vm_compute. reflexivity.
Defined.

(** ** Test reconnect *)

Lemma http_test_reconnect_online email th w b c :
  accountData w !! email = Some b → client b = Some c → status b = Online →
  (http_test_reconnect email th w).1 = RespOk
  ∧ accountData (http_test_reconnect email th w).2 !! email
    = Some (with_logs
              (push_log (logs b)
                 (mkLog (now w)
                    "⚡ TEST: Forcing disconnect to verify reconnect logic..."))
              b)
  ∧ timers (http_test_reconnect email th w).2 = timers w
  ∧ nextTimer (http_test_reconnect email th w).2 = nextTimer w
  ∧ EClientDisconnect c ∈ effects (http_test_reconnect email th w).2.
Proof.
  intros H Hc Hs. unfold http_test_reconnect. rewrite H, Hc.
  rewrite decide_True by done. cbn [fst snd]. autorewrite with world.
  rewrite lookup_alter_eq, H. repeat (split; [done|]).
  unfold client_disconnect. cbn. apply elem_of_app. right.
  apply list_elem_of_singleton. reflexivity.
Qed.

(** X11.  [POST /test-reconnect] answers "not found" without a record and
    "must be online" unless the session is [Online] with a handle, changing
    nothing.  Otherwise it calls [disconnect] on the handle and logs the
    test, but leaves state, handle and guards of the record alone; so when
    the connection then reports its close, the ordinary end transition
    runs: with auto-reconnect on and the end not yet handled the session
    goes [Offline], the handle is released and a reconnect timer is armed
    with the delay of the current attempt count. *)
Theorem test_reconnect_takes_reconnect_path (email : string) (throws : bool) (w : World) :
  (accountData w !! email = None →
   http_test_reconnect email throws w = (RespNotFound, w))
  ∧ (∀ b, accountData w !! email = Some b → client b = None ∨ status b ≠ Online →
       http_test_reconnect email throws w = (RespMustBeOnline, w))
  ∧ (∀ b c, accountData w !! email = Some b → client b = Some c → status b = Online →
       let r := http_test_reconnect email throws w in
       r.1 = RespOk
       ∧ EClientDisconnect c ∈ effects r.2
       ∧ bot_at r.2 email
           (λ b', status b' = Online ∧ client b' = Some c
                  ∧ disconnectHandled b' = disconnectHandled b
                  ∧ autoReconnect b' = autoReconnect b)
       ∧ (disconnectHandled b = false → manualDisconnect b = false →
          autoReconnect b = true →
          let w3 := end_handler email (SigClose false) r.2 in
          bot_at w3 email
            (λ b', status b' = Offline ∧ client b' = None
                   ∧ reconnectTimer b' = Some (nextTimer w))
          ∧ timers w3 !! nextTimer w
            = Some (email, reconnect_delay (reconnectAttempts b)))).
Proof.
  split; [|split].
  - intros H. unfold http_test_reconnect. by rewrite H.
  - intros b H [Hc|Hs]; unfold http_test_reconnect; rewrite H.
    + by rewrite Hc.
    + destruct (client b); [|done]. by rewrite decide_False.
  - intros b c H Hc Hs r. subst r.
    destruct (http_test_reconnect_online email throws w b c H Hc Hs)
      as (Hr & Hb1 & Ht1 & Hn1 & Hd).
    split; [done|]. split; [done|]. split; [eexists; split; [exact Hb1|done]|].
    intros Hh Hm Ha w3. subst w3. unfold end_handler.
    destruct (handleSessionEnd_first email (signal_reason (SigClose false))
                (signal_isError (SigClose false)) _ _ Hb1 Hh)
      as ((b3 & Hb3 & Hst & Hc3 & _ & _ & Hrt & _) & Htm3 & _).
    cbn [manualDisconnect autoReconnect with_logs reconnectTimer reconnectAttempts]
      in Hrt, Htm3.
    rewrite Hm, Ha in Hrt, Htm3. cbn [negb andb] in Hrt, Htm3.
    rewrite Hn1 in Hrt, Htm3. rewrite Htm3, lookup_insert_eq.
    split; [|done]. by exists b3.
Qed.

Lemma test_reconnect_takes_reconnect_path_witness :
  (http_test_reconnect "a" false world_online).1 = RespOk
  ∧ http_test_reconnect "a" false world_pending = (RespMustBeOnline, world_pending).
Proof.
  split.
  - refine (proj1 (proj2 (proj2 (test_reconnect_takes_reconnect_path "a" false world_online))
       (mkBot (Some 0) Online
          [mkLog "00:00:00" "🚀 Starting connection to donutsmp.net:19132...";
           mkLog "00:00:00" "✅ Spawned! Connected to donutsmp.net.";
           mkLog "00:00:00" "🏠 Sent: /home 1"]
          true 0 false None None false) 0 _ _ _));
      first [reflexivity | vm_compute; reflexivity].
  - refine (proj1 (proj2 (test_reconnect_takes_reconnect_path "a" false world_pending))
       (mkBot None Error
          [mkLog "00:00:00" "🚀 Starting connection to donutsmp.net:19132...";
           mkLog "00:00:00" "❌ Error — boom";
           mkLog "00:00:00" "⏱️  Auto-reconnect in 5.0s (attempt 1)"]
          true 0 false None (Some 0) true) _ _).
    + vm_compute. reflexivity.
    + left. reflexivity.
Defined.

(** ** Auth challenge *)

(** X12.  The auth-challenge callback stores the challenge, sets the state
    to [AuthRequired] and logs three lines (the notice, the URL, the code
    with its lifetime in minutes).  It touches nothing else: the attempt
    count is not reset, the handle, the flags and the end guard stay as
    they were, and no timer is armed or cancelled. *)
Theorem auth_challenge_keeps_counters (email : string) (data : MsaData) (w : World)
    (b : Bot) :
  accountData w !! email = Some b →
  accountData (onMsaCode email data w) !! email
  = Some (with_logs
            (push_log
               (push_log
                  (push_log (logs b) (mkLog (now w) "🔑 Microsoft auth required!"))
                  (mkLog (now w) ("   -> Visit: " +:+ verification_uri data)))
               (mkLog (now w)
                  ("   -> Code:  " +:+ user_code data +:+ "  (expires in "
                   +:+ nat_str (expires_minutes (expires_in data)) +:+ " min)")))
            (with_status AuthRequired
               (with_deviceCode
                  (Some (mkDeviceCode (user_code data) (verification_uri data)
                                      (expires_in data))) b)))
  ∧ timers (onMsaCode email data w) = timers w
  ∧ nextTimer (onMsaCode email data w) = nextTimer w
  ∧ nextClient (onMsaCode email data w) = nextClient w.
Proof.
  intros H. unfold onMsaCode. autorewrite with world.
  by rewrite !lookup_alter_eq, H.
Qed.

Lemma auth_challenge_keeps_counters_witness :
  bot_at (onMsaCode "a" (mkMsa "123-456" "https://www.microsoft.com/link" 900)
            (fire_timer 0 Created world_pending)) "a"
    (λ b', status b' = AuthRequired ∧ reconnectAttempts b' = 1).
Proof.
  eexists. split.
  - refine (proj1 (auth_challenge_keeps_counters "a"
              (mkMsa "123-456" "https://www.microsoft.com/link" 900)
              (fire_timer 0 Created world_pending) _ _)).
    vm_compute. reflexivity.
  - split; reflexivity.
Defined.

(** ** Pending timers *)

(** X13.  In every reachable world an account has at most one pending
    reconnect timer, and it is the one its record points to: two expiries
    can never both restart the same account. *)
Theorem pending_timer_unique (w : World) (email : string) (t1 t2 : nat) (d1 d2 : Q) :
  reachable w →
  timers w !! t1 = Some (email, d1) →
  timers w !! t2 = Some (email, d2) →
  t1 = t2 ∧ timer_of w email = Some t1.
Proof.
  intros Hr H1 H2.
  destruct (reachable_timers_wf w Hr t1 email d1 H1) as (b1 & Hb1 & Hf1).
  destruct (reachable_timers_wf w Hr t2 email d2 H2) as (b2 & Hb2 & Hf2).
  unfold timer_of. rewrite Hb1. split; [congruence|done].
Qed.

Lemma pending_timer_unique_witness : timer_of world_pending "a" = Some 0.
Proof.
  refine (proj2 (pending_timer_unique world_pending "a" 0 0
                   (reconnect_delay 0) (reconnect_delay 0) _ _ _)).
  - exists true, true, [HttpConnect "a" Created; ClientEnded 0 (SigError "boom")].
    reflexivity.
  - vm_compute. reflexivity.
  - vm_compute. reflexivity.
Defined.

(** ** Shape of the backoff *)

(** X14.  The reconnect delay never falls below 5000 ms nor exceeds
    60000 ms, never decreases from one attempt to the next, and grows by
    the factor 1.5 per attempt for as long as it is below the cap
    (attempts 0 to 5). *)
Theorem reconnect_delay_shape (n : nat) :
  (5000 <= reconnect_delay n)%Q
  ∧ (reconnect_delay n <= 60000)%Q
  ∧ (reconnect_delay n <= reconnect_delay (S n))%Q
  ∧ (n < 6 → (reconnect_delay (S n) == (3 # 2) * reconnect_delay n)%Q).
Proof.
  destruct (Nat.le_gt_cases 7 n) as [Hn|Hn].
  - rewrite (reconnect_delay_capped n), (reconnect_delay_capped (S n)) by lia.
    repeat split; try (apply Qle_bool_iff; reflexivity). lia.
  - do 7 (destruct n as [|n];
          [repeat split; try (apply Qle_bool_iff; reflexivity);
           first [intros _; reflexivity | lia]|]).
    lia.
Qed.

Lemma reconnect_delay_shape_witness :
  (reconnect_delay 3 == (3 # 2) * reconnect_delay 2)%Q.
Proof.
  destruct (reconnect_delay_shape 2) as (_ & _ & _ & H). apply H. lia.
Defined.

(** ** User name *)

(** X15.  The user name handed to [createClient] never contains ['@']; it
    is the account identifier itself when that has no ['@'], and the part
    before the first ['@'] otherwise. *)
Theorem username_is_local_part (email : string) :
  includes_at (username_of email) = false
  ∧ (includes_at email = false → username_of email = email)
  ∧ (∀ u d, includes_at u = false → email = u +:+ String "@" d →
       username_of email = u).
Proof.
  split; [|split].
  - induction email as [|a rest IH]; [done|]. cbn.
    destruct (Ascii.eqb a "@") eqn:Ha; [done|]. cbn. by rewrite Ha.
  - induction email as [|a rest IH]; [done|]. cbn.
    destruct (Ascii.eqb a "@"); [done|]. cbn. intros H. by rewrite IH.
  - intros u d Hu ->. induction u as [|a u IH]; [done|].
    change (String a u +:+ String "@" d) with (String a (u +:+ String "@" d)).
    cbn [username_of includes_at] in *.
    destruct (Ascii.eqb a "@"); [done|]. by rewrite IH.
Qed.

Lemma username_is_local_part_witness : username_of "alt@outlook.com" = "alt".
Proof.
  refine (proj2 (proj2 (username_is_local_part "alt@outlook.com"))
            "alt" "outlook.com" _ _); reflexivity.
Defined.

(** ** Handles and accounts *)

Lemma handles_ok_ext w w' :
  accountData w' = accountData w → clients w' = clients w →
  nextClient w' = nextClient w → (∀ c, c ∈ live w' → c ∈ live w) →
  handles_ok w → handles_ok w'.
Proof.
  intros Ha Hc Hn Hl (A & B & C). unfold handles_ok. rewrite Ha, Hc, Hn.
  split; [done|]. split; [done|]. intros c Hin. by apply C, Hl.
Qed.

Lemma handles_ok_modify e f w :
  (∀ b, client (f b) = client b ∨ client (f b) = None) →
  handles_ok w → handles_ok (modify e f w).
Proof.
  intros Hf (A & B & C). split; [|done].
  intros e' b' c. rewrite accountData_modify, lookup_alter.
  case_decide; [subst|apply A].
  destruct (accountData w !! e') as [b|] eqn:Hb; [|done].
  intros [= <-] Hc. destruct (Hf b) as [Hk|Hk]; rewrite Hk in Hc; [|done].
  by eapply A.
Qed.

Lemma handles_ok_broadcastUpdate e w : handles_ok w → handles_ok (broadcastUpdate e w).
Proof. apply handles_ok_ext; by autorewrite with world. Qed.

Lemma handles_ok_addLog e m w : handles_ok w → handles_ok (addLog e m w).
Proof.
  intros H. unfold addLog. destruct (accountData w !! e); [|done].
  apply handles_ok_broadcastUpdate, handles_ok_modify; [by left|done].
Qed.

Lemma handles_ok_discordNotify t d c w :
  handles_ok w → handles_ok (discordNotify t d c w).
Proof. apply handles_ok_ext; by autorewrite with world. Qed.

Lemma handles_ok_clearTimeout h w : handles_ok w → handles_ok (clearTimeout h w).
Proof. apply handles_ok_ext; by autorewrite with world. Qed.

Lemma handles_ok_with_timers v w : handles_ok w → handles_ok (with_timers v w).
Proof. by apply handles_ok_ext. Qed.

Lemma handles_ok_with_now v w : handles_ok w → handles_ok (with_now v w).
Proof. by apply handles_ok_ext. Qed.

Lemma handles_ok_client_queue c x w : handles_ok w → handles_ok (client_queue c x w).
Proof. by apply handles_ok_ext. Qed.

Lemma handles_ok_close c w : handles_ok w → handles_ok (with_live (live w ∖ {[c]}) w).
Proof.
  apply handles_ok_ext; [done..|]. cbn. intros c' Hin.
  by apply elem_of_difference in Hin as [? _].
Qed.

Lemma handles_ok_client_disconnect c th w :
  handles_ok w → handles_ok (client_disconnect c th w).
Proof.
  intros H. unfold client_disconnect. destruct th.
  - revert H. by apply handles_ok_ext.
  - apply (handles_ok_close c) in H. revert H. by apply handles_ok_ext.
Qed.

Lemma handles_ok_setTimeout e d w : handles_ok w → handles_ok (setTimeout e d w).
Proof.
  intros H. unfold setTimeout. apply handles_ok_modify; [by left|].
  revert H. by apply handles_ok_ext.
Qed.

Lemma handles_ok_new_record e w :
  handles_ok w → handles_ok (with_accountData (<[e := newBot]> (accountData w)) w).
Proof.
  intros (A & B & C). split; [|done].
  intros e' b' c. cbn. rewrite lookup_insert. case_decide; [|apply A].
  by intros [= <-].
Qed.

(** [bot.client = createClient(...)] *)
Lemma handles_ok_open e w :
  handles_ok w →
  handles_ok (modify e (with_client (Some (nextClient w))) (createClient e w)).
Proof.
  intros (A & B & C). split; [|split].
  - intros e' b' c. rewrite accountData_modify, accountData_createClient, clients_modify,
      clients_createClient, lookup_alter.
    case_decide.
    + subst. destruct (accountData w !! e') as [b|]; [|done].
      intros [= <-] [= <-]. by rewrite lookup_insert_eq.
    + intros Hb Hc. pose proof (A _ _ _ Hb Hc) as Hcl. pose proof (B _ _ Hcl).
      rewrite lookup_insert_ne by lia. done.
  - intros c e0. rewrite clients_modify, clients_createClient, nextClient_modify,
      nextClient_createClient, lookup_insert.
    case_decide; [lia|]. intros Hc. pose proof (B _ _ Hc). lia.
  - intros c. rewrite live_modify, live_createClient, clients_modify,
      clients_createClient, lookup_insert.
    intros [Hc|Hc]%elem_of_union; case_decide; try by eexists.
    + apply elem_of_singleton in Hc. congruence.
    + by apply C.
Qed.

Ltac handles_step :=
  first
    [ assumption
    | apply handles_ok_open
    | apply handles_ok_modify; [by intros []; auto|]
    | apply handles_ok_addLog
    | apply handles_ok_broadcastUpdate
    | apply handles_ok_discordNotify
    | apply handles_ok_clearTimeout
    | apply handles_ok_setTimeout
    | apply handles_ok_with_timers
    | apply handles_ok_close
    | apply handles_ok_with_now
    | apply handles_ok_client_queue
    | apply handles_ok_client_disconnect
    | apply handles_ok_new_record ].

Lemma handles_ok_scheduleReconnect e w :
  handles_ok w → handles_ok (scheduleReconnect e w).
Proof. intros H. unfold scheduleReconnect. repeat case_match; repeat handles_step. Qed.

Lemma handles_ok_handleSessionEnd e r ie w :
  handles_ok w → handles_ok (handleSessionEnd e r ie w).
Proof.
  intros H. unfold handleSessionEnd.
  repeat case_match; try assumption;
    try apply handles_ok_scheduleReconnect; repeat handles_step.
Qed.

Lemma handles_ok_startBot e r cr w : handles_ok w → handles_ok (startBot e r cr w).
Proof.
  intros H. unfold startBot. cbv zeta.
  assert (handles_ok match accountData w !! e with
                     | Some _ => w
                     | None => with_accountData (<[e := newBot]> (accountData w)) w
                     end) as H0 by (case_match; repeat handles_step).
  revert H0.
  generalize (match accountData w !! e with
              | Some _ => w
              | None => with_accountData (<[e := newBot]> (accountData w)) w
              end) as w0.
  clear H. intros w0 H0.
  destruct cr; [|apply handles_ok_scheduleReconnect]; destruct r;
    repeat handles_step.
Qed.

Lemma handles_ok_step ev w : handles_ok w → handles_ok (step ev w).
Proof.
  intros H. destruct ev; cbn [step];
    unfold http_connect, discord_connect, http_disconnect, discord_disconnect,
      http_set_reconnect, discord_reconnect, http_toggle_reconnect, http_chat,
      discord_chat, send_chat, http_test_reconnect, fire_timer, timer_callback,
      on_client, spawn_handler, join_handler, text_handler, onMsaCode, end_handler;
    repeat case_match; cbn [snd]; try assumption;
    try apply handles_ok_startBot; try apply handles_ok_handleSessionEnd;
    repeat handles_step.
Qed.

Lemma run_handles_ok evs : ∀ w, handles_ok w → handles_ok (run evs w).
Proof.
  induction evs as [|ev evs IH]; intros w H; [done|].
  cbn [run fold_left]. apply IH. by apply handles_ok_step.
Qed.

Lemma reachable_handles_ok w : reachable w → handles_ok w.
Proof.
  intros (du & dc & evs & ->). apply run_handles_ok. split; [|split].
  - intros e b c H. cbn in H. by rewrite lookup_empty in H.
  - intros c e H. cbn in H. by rewrite lookup_empty in H.
  - intros c H. cbn in H. by apply not_elem_of_empty in H.
Qed.

(** X16.  In every reachable world the handle stored in a record was
    opened by [startBot] for the account of that record: the handlers
    registered on it are bound to this very account, so its signals come
    back to the record that holds it, and chat lines and disconnects sent
    through the record go to a handle of the same account.  Every open
    handle is one that [createClient] returned. *)
Theorem record_handle_belongs_to_account (w : World) (email : string) (b : Bot) (c : nat) :
  reachable w →
  accountData w !! email = Some b →
  client b = Some c →
  clients w !! c = Some email
  ∧ event_target (ClientEnded c SigEnd) w = Some email
  ∧ c < nextClient w
  ∧ ∀ c', c' ∈ live w → ∃ e, clients w !! c' = Some e ∧ c' < nextClient w.
Proof.
  intros Hr H Hc. destruct (reachable_handles_ok w Hr) as (A & B & C).
  pose proof (A _ _ _ H Hc) as Hcl.
  split; [done|]. split; [done|]. split; [by eapply B|].
  intros c' Hin. destruct (C c' Hin) as [e He]. exists e. split; [done|]. by eapply B.
Qed.

Lemma record_handle_belongs_to_account_witness :
  clients world_two !! 1 = Some "b".
Proof.
  refine (proj1 (record_handle_belongs_to_account world_two "b"
     (mkBot (Some 1) Connecting
        [mkLog "00:00:00" "🚀 Starting connection to donutsmp.net:19132..."]
        true 0 false None None false) 1 _ _ _)).
  - exists true, true, [HttpConnect "a" Created; HttpConnect "b" Created]. reflexivity.
  - vm_compute. reflexivity.
  - reflexivity.
Defined.

(** ** Logging *)

Lemma last_push_log l e : last (push_log l e) = Some e.
Proof.
  unfold push_log. destruct (Nat.ltb_spec 200 (length (l ++ [e]))) as [Hl|_].
  - destruct l as [|x l]; [cbn in Hl; lia|]. cbn [app tail]. apply last_snoc.
  - apply last_snoc.
Qed.

Lemma last_slice_last {A} k (l : list A) : 0 < k → last (slice_last k l) = last l.
Proof.
  intros Hk. unfold slice_last.
  assert (∀ n (xs : list A), n < length xs ∨ xs = [] → last (skipn n xs) = last xs) as Hs.
  { intros n. induction n as [|n IH]; intros xs Hn; [done|].
    destruct xs as [|x xs]; [done|]. cbn [skipn]. destruct Hn as [Hn|]; [|done].
    cbn in Hn. rewrite IH by (left; lia).
    destruct xs; [cbn in Hn; lia|done]. }
  apply Hs. destruct l; [by right|]. left. cbn. lia.
Qed.

(** X17.  [addLog] does nothing for an account without a record.
    Otherwise the new entry, stamped with the current time, becomes the
    last entry of the log, and an update for the account is broadcast whose
    snapshot is the record as it now is, so its log tail ends with the new
    entry. *)
Theorem addLog_appends_and_broadcasts (email m : string) (w : World) :
  (accountData w !! email = None → addLog email m w = w)
  ∧ (∀ b, accountData w !! email = Some b →
       ∃ b', accountData (addLog email m w) !! email = Some b'
             ∧ b' = with_logs (push_log (logs b) (mkLog (now w) m)) b
             ∧ last (logs b') = Some (mkLog (now w) m)
             ∧ EUpdate email (snapshot b') ∈ effects (addLog email m w)
             ∧ last (snap_logs (snapshot b')) = Some (mkLog (now w) m)).
Proof.
  split.
  - intros H. unfold addLog. by rewrite H.
  - intros b H. eexists. split; [|split; [reflexivity|]].
    + by rewrite accountData_addLog, lookup_alter_eq, H.
    + cbn [logs with_logs]. split; [apply last_push_log|]. split.
      * unfold addLog. rewrite H. unfold broadcastUpdate.
        rewrite accountData_modify, lookup_alter_eq, H. cbn [fmap option_fmap option_map].
        eapply extends_elem; [apply extends_discordUpdateActivity|].
        cbn. apply elem_of_app. right. apply list_elem_of_singleton. reflexivity.
      * cbn [snap_logs snapshot logs with_logs].
        rewrite last_slice_last by lia. apply last_push_log.
Qed.

Lemma addLog_appends_and_broadcasts_witness :
  ∃ b', accountData (addLog "a" "hello" world_online) !! "a" = Some b'
        ∧ last (logs b') = Some (mkLog (now world_online) "hello").
Proof.
  destruct (proj2 (addLog_appends_and_broadcasts "a" "hello" world_online)
     (mkBot (Some 0) Online
        [mkLog "00:00:00" "🚀 Starting connection to donutsmp.net:19132...";
         mkLog "00:00:00" "✅ Spawned! Connected to donutsmp.net.";
         mkLog "00:00:00" "🏠 Sent: /home 1"]
        true 0 false None None false))
    as (b' & Hb' & _ & Hl & _).
  - vm_compute. reflexivity.
  - exists b'. split; [exact Hb' | exact Hl].
Defined.

(** ** Where handles are opened *)

Lemma clients_scheduleReconnect e w : clients (scheduleReconnect e w) = clients w.
Proof.
  unfold scheduleReconnect. destruct (accountData w !! e) as [b|]; [|done].
  destruct (manualDisconnect b || negb (autoReconnect b)); [done|].
  unfold setTimeout. cbn. by autorewrite with world.
Qed.

Lemma handleSessionEnd_opens_nothing e r ie w :
  nextClient (handleSessionEnd e r ie w) = nextClient w
  ∧ clients (handleSessionEnd e r ie w) = clients w.
Proof.
  unfold handleSessionEnd. destruct (accountData w !! e) as [b|]; [|done].
  destruct (disconnectHandled b); [done|].
  destruct (negb (manualDisconnect b) && autoReconnect b);
    rewrite ?nextClient_scheduleReconnect, ?clients_scheduleReconnect;
    by autorewrite with world.
Qed.

(** X18.  Handles are opened by connect commands and timer expiries only:
    no other event (disconnect, the auto-reconnect commands, chat,
    test-reconnect, any signal of a connection, the clock) calls
    [createClient], so the handle counter and the table of created handles
    stay as they were. *)
Theorem only_connect_and_timer_open_handles (ev : Event) (w : World) :
  opens_handle ev = false →
  nextClient (step ev w) = nextClient w ∧ clients (step ev w) = clients w.
Proof.
  intros Ho. destruct ev; try discriminate Ho; cbn [step];
    unfold http_disconnect, discord_disconnect, http_set_reconnect, discord_reconnect,
      http_toggle_reconnect, http_chat, discord_chat, send_chat, http_test_reconnect,
      on_client, spawn_handler, join_handler, text_handler, onMsaCode, end_handler,
      client_queue;
    repeat case_match; cbn [snd]; try by autorewrite with world.
  match goal with
  | |- context [handleSessionEnd ?e ?r ?i ?w0] =>
      destruct (handleSessionEnd_opens_nothing e r i w0) as [-> ->]
  end.
  done.
Qed.

Lemma only_connect_and_timer_open_handles_witness :
  nextClient (step (ClientEnded 0 (SigError "boom")) world_online)
  = nextClient world_online.
Proof.
  refine (proj1 (only_connect_and_timer_open_handles
                   (ClientEnded 0 (SigError "boom")) world_online _)).
  reflexivity.
Defined.

(** ** Backoff across attempts *)

Lemma end_with_autoReconnect email s w b :
  accountData w !! email = Some b →
  disconnectHandled b = false → manualDisconnect b = false → autoReconnect b = true →
  bot_at (end_handler email s w) email
    (λ b', status b' = (if signal_isError s then Error else Offline)
           ∧ client b' = None
           ∧ reconnectAttempts b' = reconnectAttempts b
           ∧ reconnectTimer b' = Some (nextTimer w))
  ∧ timers (end_handler email s w)
    = <[nextTimer w := (email, reconnect_delay (reconnectAttempts b))]>
        (clear_opt (reconnectTimer b) (timers w))
  ∧ nextTimer (end_handler email s w) = S (nextTimer w).
Proof.
  intros H Hh Hm Ha.
  destruct (handleSessionEnd_first email (signal_reason s) (signal_isError s) w b H Hh)
    as ((b3 & Hb3 & Hst & Hc & _ & _ & Hrt & _ & _ & Hn) & Htm3 & Hnt3).
  rewrite Hm, Ha in Hrt, Htm3, Hnt3. cbn [negb andb] in Hrt, Htm3, Hnt3.
  unfold end_handler. rewrite Htm3, Hnt3.
  split; [|done]. by exists b3.
Qed.

Lemma nextTimer_spawn_handler e c q w :
  nextTimer (spawn_handler e c q w) = nextTimer w.
Proof. unfold spawn_handler, client_queue. destruct q; by autorewrite with world. Qed.

(** X19.  A spawn resets the backoff: when a session that has spawned
    ends with auto-reconnect on and no manual stop requested, the
    reconnect is scheduled with the base delay of attempt 0 (5000 ms),
    however many attempts it took to get online, and whatever the end
    guard was before the spawn. *)
Theorem spawn_resets_backoff (email : string) (c : nat) (q : option string)
    (s : EndSignal) (w : World) (b : Bot) :
  accountData w !! email = Some b →
  manualDisconnect b = false →
  autoReconnect b = true →
  let w2 := end_handler email s (spawn_handler email c q w) in
  bot_at w2 email
    (λ b', status b' = (if signal_isError s then Error else Offline)
           ∧ client b' = None
           ∧ reconnectAttempts b' = 0
           ∧ reconnectTimer b' = Some (nextTimer w))
  ∧ timers w2 !! nextTimer w = Some (email, reconnect_delay 0)
  ∧ (reconnect_delay 0 == 5000)%Q.
Proof.
  intros H Hm Ha w2. subst w2.
  pose proof (spawn_handler_lookup email c q w b H) as H1.
  destruct (end_with_autoReconnect email s _ _ H1 eq_refl Hm Ha) as (Hb2 & Htm & _).
  rewrite Htm, nextTimer_spawn_handler, lookup_insert_eq.
  rewrite nextTimer_spawn_handler in Hb2. done.
Qed.

Lemma spawn_resets_backoff_witness :
  timers (end_handler "a" (SigError "boom")
            (spawn_handler "a" 0 None world_connecting)) !! 0
  = Some ("a", reconnect_delay 0).
Proof.
  refine (proj1 (proj2 (spawn_resets_backoff "a" 0 None (SigError "boom") world_connecting
     (mkBot (Some 0) Connecting
        [mkLog "00:00:00" "🚀 Starting connection to donutsmp.net:19132..."]
        true 0 false None None false) _ _ _))).
  - vm_compute. reflexivity.
  - reflexivity.
  - reflexivity.
Defined.

(** X20.  A reconnect attempt that fails to open a connection schedules the
    next one with the next backoff delay: when a pending timer expires
    (auto-reconnect on, no manual stop) and [createClient] throws, the
    attempt count has grown by one, the session is in [Error], no handle
    was opened, the expired timer is gone and exactly one new timer is
    armed, with the delay of the new attempt count. *)
Theorem failed_reconnect_escalates (email msg : string) (t : nat) (d : Q)
    (w : World) (b : Bot) :
  timers w !! t = Some (email, d) →
  accountData w !! email = Some b →
  manualDisconnect b = false →
  autoReconnect b = true →
  let w' := fire_timer t (CreateThrows msg) w in
  bot_at w' email
    (λ b', status b' = Error
           ∧ reconnectAttempts b' = S (reconnectAttempts b)
           ∧ client b' = client b
           ∧ reconnectTimer b' = Some (nextTimer w))
  ∧ timers w'
    = <[nextTimer w := (email, reconnect_delay (S (reconnectAttempts b)))]>
        (clear_opt (reconnectTimer b) (delete t (timers w)))
  ∧ nextTimer w' = S (nextTimer w)
  ∧ nextClient w' = nextClient w.
Proof.
  intros Ht H Hm Ha w'.
  set (w1 := with_timers (delete t (timers w)) w).
  assert (w' = startBot email true (CreateThrows msg) w1) as ->.
  { subst w' w1. unfold fire_timer. rewrite Ht. unfold timer_callback.
    change (accountData (with_timers (delete t (timers w)) w)) with (accountData w).
    by rewrite H, Hm, Ha. }
  assert (accountData w1 !! email = Some b) as H1 by done.
  assert (nextClient w1 = nextClient w) as Hc1 by done.
  assert (timers w1 = delete t (timers w)) as Ht1 by done.
  assert (nextTimer w1 = nextTimer w) as Hn1 by done.
  clearbody w1.
  destruct (startBot_failed email true msg w1 b H1) as ((b' & Hb' & Hf) & Htm & Hnt & Hnc).
  cbv zeta in Hf, Htm, Hnt, Hnc. rewrite Ha in Hf, Htm, Hnt.
  replace (reconnectAttempts b + 1) with (S (reconnectAttempts b)) in Hf, Htm by lia.
  rewrite Hn1 in Hf, Htm, Hnt. rewrite Ht1 in Htm. rewrite Hc1 in Hnc.
  split; [|done]. exists b'. split; [done|]. tauto.
Qed.

Lemma failed_reconnect_escalates_witness :
  timers (fire_timer 0 (CreateThrows "refused") world_pending) !! 1
  = Some ("a", reconnect_delay 1).
Proof.
  destruct (failed_reconnect_escalates "a" "refused" 0 (reconnect_delay 0) world_pending
     (mkBot None Error
        [mkLog "00:00:00" "🚀 Starting connection to donutsmp.net:19132...";
         mkLog "00:00:00" "❌ Error — boom";
         mkLog "00:00:00" "⏱️  Auto-reconnect in 5.0s (attempt 1)"]
        true 0 false None (Some 0) true))
    as (_ & Htm & _).
  - vm_compute. reflexivity.
  - vm_compute. reflexivity.
  - reflexivity.
  - reflexivity.
  - rewrite Htm. apply lookup_insert_eq.
Defined.

(** ** The auth challenge and the session state *)

(** Consecutive assignments to the same record are one update. *)
Lemma modify_modify e f g w : modify e f (modify e g w) = modify e (f ∘ g) w.
Proof. unfold modify. cbn. by rewrite alter_alter_eq. Qed.

Lemma codes_ok_ext w w' : accountData w' = accountData w → codes_ok w → codes_ok w'.
Proof. intros Ha H e b. rewrite Ha. apply H. Qed.

Lemma codes_ok_modify e f w :
  (∀ b, no_stale_code b → no_stale_code (f b)) → codes_ok w → codes_ok (modify e f w).
Proof.
  intros Hf H e' b'. rewrite accountData_modify, lookup_alter.
  case_decide; [subst|apply H].
  destruct (accountData w !! e') as [b|] eqn:Hb; [|done].
  intros [= <-]. apply Hf. by eapply H.
Qed.

Lemma codes_ok_addLog e m w : codes_ok w → codes_ok (addLog e m w).
Proof.
  intros H e' b'. rewrite accountData_addLog, lookup_alter.
  case_decide; [subst|apply H].
  destruct (accountData w !! e') as [b|] eqn:Hb; [|done].
  intros [= <-]. exact (H _ _ Hb).
Qed.

Lemma codes_ok_broadcastUpdate e w : codes_ok w → codes_ok (broadcastUpdate e w).
Proof. apply codes_ok_ext. by autorewrite with world. Qed.

Lemma codes_ok_discordNotify t d c w : codes_ok w → codes_ok (discordNotify t d c w).
Proof. apply codes_ok_ext. by autorewrite with world. Qed.

Lemma codes_ok_clearTimeout h w : codes_ok w → codes_ok (clearTimeout h w).
Proof. apply codes_ok_ext. by autorewrite with world. Qed.

Lemma codes_ok_with_timers v w : codes_ok w → codes_ok (with_timers v w).
Proof. by apply codes_ok_ext. Qed.

Lemma codes_ok_with_live v w : codes_ok w → codes_ok (with_live v w).
Proof. by apply codes_ok_ext. Qed.

Lemma codes_ok_with_now v w : codes_ok w → codes_ok (with_now v w).
Proof. by apply codes_ok_ext. Qed.

Lemma codes_ok_client_queue c x w : codes_ok w → codes_ok (client_queue c x w).
Proof. by apply codes_ok_ext. Qed.

Lemma codes_ok_client_disconnect c th w :
  codes_ok w → codes_ok (client_disconnect c th w).
Proof. apply codes_ok_ext. by autorewrite with world. Qed.

Lemma codes_ok_createClient e w : codes_ok w → codes_ok (createClient e w).
Proof. by apply codes_ok_ext. Qed.

Lemma codes_ok_setTimeout e d w : codes_ok w → codes_ok (setTimeout e d w).
Proof.
  intros H. unfold setTimeout. apply codes_ok_modify; [by intros []|].
  revert H. by apply codes_ok_ext.
Qed.

Lemma codes_ok_new_record e w :
  codes_ok w → codes_ok (with_accountData (<[e := newBot]> (accountData w)) w).
Proof.
  intros H e' b'. cbn. rewrite lookup_insert. case_decide; [|apply H].
  by intros [= <-].
Qed.

(** The assignments a handler makes to one record in a row are taken
    together: [bot.status = 'Connecting'; bot.deviceCode = null] keeps the
    predicate as a pair, not one by one. *)
Ltac codes_side :=
  let b := fresh "b" in
  let Hp := fresh "Hp" in
  intros b Hp; destruct b; unfold no_stale_code, compose in *; cbn in *;
  repeat case_match;
  first [exact Hp | intros _; reflexivity | intros [?|?]; discriminate].

Ltac codes_step :=
  first
    [ assumption
    | rewrite ?modify_modify; apply codes_ok_modify; [codes_side|]
    | apply codes_ok_addLog
    | apply codes_ok_broadcastUpdate
    | apply codes_ok_discordNotify
    | apply codes_ok_clearTimeout
    | apply codes_ok_setTimeout
    | apply codes_ok_with_timers
    | apply codes_ok_with_live
    | apply codes_ok_with_now
    | apply codes_ok_client_queue
    | apply codes_ok_client_disconnect
    | apply codes_ok_createClient
    | apply codes_ok_new_record ].

Lemma codes_ok_scheduleReconnect e w : codes_ok w → codes_ok (scheduleReconnect e w).
Proof. intros H. unfold scheduleReconnect. repeat case_match; repeat codes_step. Qed.

Lemma codes_ok_handleSessionEnd e r ie w :
  codes_ok w → codes_ok (handleSessionEnd e r ie w).
Proof.
  intros H. unfold handleSessionEnd.
  repeat case_match; try assumption;
    try apply codes_ok_scheduleReconnect; repeat codes_step.
Qed.

Lemma codes_ok_startBot e r cr w : codes_ok w → codes_ok (startBot e r cr w).
Proof.
  intros H. unfold startBot. cbv zeta.
  assert (codes_ok match accountData w !! e with
                   | Some _ => w
                   | None => with_accountData (<[e := newBot]> (accountData w)) w
                   end) as H0 by (case_match; repeat codes_step).
  revert H0.
  generalize (match accountData w !! e with
              | Some _ => w
              | None => with_accountData (<[e := newBot]> (accountData w)) w
              end) as w0.
  clear H. intros w0 H0.
  destruct cr; [|apply codes_ok_scheduleReconnect]; destruct r;
    repeat codes_step.
Qed.

Lemma codes_ok_step ev w : codes_ok w → codes_ok (step ev w).
Proof.
  intros H. destruct ev; cbn [step];
    unfold http_connect, discord_connect, http_disconnect, discord_disconnect,
      http_set_reconnect, discord_reconnect, http_toggle_reconnect, http_chat,
      discord_chat, send_chat, http_test_reconnect, fire_timer, timer_callback,
      on_client, spawn_handler, join_handler, text_handler, onMsaCode, end_handler;
    repeat case_match; cbn [snd]; try assumption;
    try apply codes_ok_startBot; try apply codes_ok_handleSessionEnd;
    repeat codes_step.
Qed.

Lemma run_codes_ok evs : ∀ w, codes_ok w → codes_ok (run evs w).
Proof.
  induction evs as [|ev evs IH]; intros w H; [done|].
  cbn [run fold_left]. apply IH. by apply codes_ok_step.
Qed.

(** X21.  In every reachable world a session that is [Connecting] or
    [Online] carries no auth challenge: [startBot] and the spawn handler
    clear it together with the state change, and only the auth-challenge
    callback, which makes the session [AuthRequired], stores one.  (A
    session that ends or is stopped while [AuthRequired] keeps its
    challenge until the next start.) *)
Theorem no_auth_code_while_connecting_or_online (w : World) (email : string) (b : Bot) :
  reachable w →
  accountData w !! email = Some b →
  status b = Connecting ∨ status b = Online →
  deviceCode b = None.
Proof.
  intros (du & dc & evs & ->) H. eapply run_codes_ok; [|exact H].
  intros e b0 H0. cbn in H0. by rewrite lookup_empty in H0.
Qed.

Lemma no_auth_code_while_connecting_or_online_witness :
  ∃ b, accountData world_online !! "a" = Some b ∧ deviceCode b = None.
Proof.
  eexists. split; [vm_compute; reflexivity|].
  eapply (no_auth_code_while_connecting_or_online world_online "a").
  - exists true, true, [HttpConnect "a" Created; ClientSpawn 0 None]. reflexivity.
  - vm_compute. reflexivity.
  - right. reflexivity.
Defined.

(** ** End signals across other events *)

Lemma step_keeps_guard ev w email b :
  resets_guard email ev w = false →
  accountData w !! email = Some b → disconnectHandled b = true →
  bot_at (step ev w) email (λ b', disconnectHandled b' = true).
Proof.
  intros Hr H Hh. unfold bot_at.
  destruct (event_target ev w) as [e|] eqn:Ht.
  2: { exists b. by rewrite step_untargeted. }
  destruct (decide (email = e)) as [<-|He].
  2: { exists b. by rewrite (step_others_targeted ev w e). }
  destruct ev; cbn [event_target resets_guard step] in *;
    try (injection Ht as ->);
    try (apply bool_decide_eq_false in Hr; done).
  - destruct (stop_lookup Http email throws w b H) as (_ & (b' & Hb' & _ & Hh' & _) & _).
    by exists b'.
  - destruct (stop_lookup Discord email throws w b H) as (_ & (b' & Hb' & _ & Hh' & _) & _).
    by exists b'.
  - unfold http_set_reconnect. rewrite H. cbn [snd]. autorewrite with world.
    rewrite !lookup_alter_eq, H. eexists. split; [reflexivity|]. done.
  - unfold discord_reconnect. rewrite H. cbn [snd]. autorewrite with world.
    rewrite !lookup_alter_eq, H. eexists. split; [reflexivity|]. done.
  - unfold http_toggle_reconnect. rewrite H. cbn [snd]. autorewrite with world.
    rewrite !lookup_alter_eq, H. eexists. split; [reflexivity|]. done.
  - unfold http_chat, send_chat. rewrite H.
    repeat case_match; cbn [snd]; try (by exists b).
    all: unfold client_queue; autorewrite with world; rewrite !lookup_alter_eq, H;
      eexists; (split; [reflexivity|]); done.
  - unfold discord_chat, send_chat. rewrite H.
    repeat case_match; cbn [snd]; try (by exists b).
    all: unfold client_queue; autorewrite with world; rewrite !lookup_alter_eq, H;
      eexists; (split; [reflexivity|]); done.
  - unfold http_test_reconnect. rewrite H.
    repeat case_match; cbn [snd]; try (by exists b).
    all: unfold client_disconnect; repeat case_match; autorewrite with world;
      cbn [accountData with_live]; autorewrite with world;
      rewrite !lookup_alter_eq, H; eexists; (split; [reflexivity|]); done.
  - unfold on_client. rewrite Ht. unfold join_handler. autorewrite with world.
    rewrite !lookup_alter_eq, H. eexists. split; [reflexivity|]. done.
  - unfold on_client. rewrite Ht. unfold text_handler.
    repeat case_match; try (by exists b).
    all: autorewrite with world; rewrite !lookup_alter_eq, H;
      eexists; (split; [reflexivity|]); done.
  - unfold on_client. rewrite Ht. unfold onMsaCode. autorewrite with world.
    rewrite !lookup_alter_eq, H. eexists. split; [reflexivity|]. done.
  - unfold on_client. rewrite Ht. unfold end_handler.
    rewrite (handleSessionEnd_handled _ _ _ _ b) by done. by exists b.
  - discriminate Ht.
Qed.

Lemma run_keeps_guard email evs : ∀ w b,
  accountData w !! email = Some b → disconnectHandled b = true →
  guard_kept email evs w →
  bot_at (run evs w) email (λ b', disconnectHandled b' = true).
Proof.
  induction evs as [|ev evs IH]; intros w b H Hh Hk.
  - by exists b.
  - destruct Hk as [Hr Hk].
    destruct (step_keeps_guard ev w email b Hr H Hh) as (b1 & H1 & Hh1).
    exact (IH (step ev w) b1 H1 Hh1 Hk).
Qed.

(** The condition on the events in between is needed: once the reconnect
    timer has restarted the session, a late [close] of the first handle
    finds the guard reset and ends the new attempt. *)
Lemma end_signal_after_restart :
  let w := run [HttpConnect "a" Created; ClientEnded 0 (SigError "boom");
                TimerFire 0 Created] world0 in
  bot_at w "a" (λ b, status b = Connecting ∧ client b = Some 1)
  ∧ bot_at (step (ClientEnded 0 (SigClose false)) w) "a"
      (λ b, status b = Offline ∧ client b = None).
Proof.
  split; (eexists; split; [vm_compute; reflexivity|]); split; reflexivity.
Qed.

(** C2, amended.  For a session whose end has not been handled yet, the
    first end signal performs the end transition: it sets the state to
    [Error] or [Offline], releases the handle, sets the guard, logs the end
    notice and, when auto-reconnect is on and no manual stop was requested,
    also logs the reconnect notice and arms exactly one timer (none
    otherwise).  Every further end signal is a no-op as long as the guard
    has not been reset: signals that follow at once leave the world as the
    first one left it, and so does a signal that arrives after any run of
    other events none of which is a connect command for the account, the
    expiry of a timer of the account or the spawn of one of its handles. *)
Theorem session_end_exactly_once (email : string) (s : EndSignal)
    (sigs : list EndSignal) (w : World) (b : Bot) :
  accountData w !! email = Some b →
  disconnectHandled b = false →
  let armed := negb (manualDisconnect b) && autoReconnect b in
  let w1 := end_handler email s w in
  end_signals email (s :: sigs) w = w1
  ∧ bot_at w1 email
      (λ b', status b' = (if signal_isError s then Error else Offline)
             ∧ client b' = None
             ∧ disconnectHandled b' = true
             ∧ logs b'
               = (let l1 := push_log (logs b)
                              (mkLog (now w)
                                 (end_notice (signal_reason s) (signal_isError s))) in
                  if armed
                  then push_log l1
                         (mkLog (now w) (reconnect_notice (reconnectAttempts b)))
                  else l1))
  ∧ timers w1
    = (if armed
       then <[nextTimer w := (email, reconnect_delay (reconnectAttempts b))]>
              (clear_opt (reconnectTimer b) (timers w))
       else timers w)
  ∧ nextTimer w1 = (if armed then S (nextTimer w) else nextTimer w)
  ∧ (∀ evs sigs', guard_kept email evs w1 →
       end_signals email sigs' (run evs w1) = run evs w1).
Proof.
  intros H Hd armed w1.
  destruct (handleSessionEnd_first email (signal_reason s) (signal_isError s) w b H Hd)
    as ((b' & Hb' & Hst & Hc & Hh & Hl & _) & Htm & Hnt).
  fold (end_handler email s w) in Hb', Htm, Hnt. fold w1 in Hb', Htm, Hnt.
  fold armed in Hl, Htm, Hnt.
  split; [|split; [|split; [done|split; [done|]]]].
  - cbn [end_signals fold_left]. fold w1. fold (end_signals email sigs w1).
    by eapply end_signals_handled.
  - by exists b'.
  - intros evs sigs' Hk.
    destruct (run_keeps_guard email evs w1 b' Hb' Hh Hk) as (b2 & H2 & Hh2).
    by eapply end_signals_handled.
Qed.

Lemma session_end_exactly_once_witness :
  end_signals "a" [SigEnd; SigError "boom"] world_online
  = end_handler "a" SigEnd world_online
  ∧ (let w1 := end_handler "a" SigEnd world_online in
     let evs := [ClientText 0 "hello"; HttpSetReconnect "a" true; Tick "00:00:07"] in
     end_signals "a" [SigClose false; SigError "late"] (run evs w1) = run evs w1).
Proof.
  refine ((λ H, conj (proj1 H) (proj2 (proj2 (proj2 (proj2 H))) _ _ _))
     (session_end_exactly_once "a" SigEnd [SigError "boom"] world_online
     (mkBot (Some 0) Online
        [mkLog "00:00:00" "🚀 Starting connection to donutsmp.net:19132...";
         mkLog "00:00:00" "✅ Spawned! Connected to donutsmp.net.";
         mkLog "00:00:00" "🏠 Sent: /home 1"]
        true 0 false None None false) _ _)).
  - vm_compute. repeat split.
  - vm_compute. reflexivity.
  - reflexivity.
Defined.
